(** * Japanese dates quiz practice: a shallow embedding of [src/script.js]

    The development follows the layout of the script: the JavaScript
    primitives the script relies on (numbers, arrays, [Math.random], the
    [Date] built-in at day granularity), the lookup tables, the numeral
    and era converter [dynamicYear], the question catalog
    [questionGenerator], the week grid [getWeeks], the [Questions]
    component, [generateRandomDate] and [newTest].  The theorems come
    after the definitions. *)

From Stdlib Require Import ZArith QArith Qround Bool List String Ascii Lia.
From Stdlib Require Import Permutation DecimalString Finite.
Import ListNotations.

Local Open Scope string_scope.
Local Open Scope Z_scope.

(* ================================================================== *)
(** ** JavaScript primitives *)

(** Integral JavaScript numbers are integers of [Z]; the value drawn by
    [Math.random()] is a rational of [Q] (the rounding of the single
    floating-point product of [getRandomInt] is not modelled).
    [undefined] is [None] wherever a value may be missing. *)

(** [Math.floor(a / b)] for integral [a] and positive integral [b]. *)
Definition Math_floor_div (a b : Z) : Z := a / b.

(** The remainder operator [%] takes the sign of the dividend. *)
Definition js_rem (a b : Z) : Z := Z.rem a b.

(** [n.toString()] and the string coercion of an integral number. *)
Definition Number_toString (n : Z) : string :=
  NilZero.string_of_int (Z.to_int n).

(** String concatenation with a possibly [undefined] left operand. *)
Definition coerce (x : option string) : string :=
  match x with
  | Some s => s
  | None => "undefined"
  end.

(** [array[i]]: [undefined] when [i] is not an index of the array. *)
Definition index {T} (array : list T) (i : Z) : option T :=
  if i <? 0 then None else nth_error array (Z.to_nat i).

(** [array.length]. *)
Definition len {T} (array : list T) : Z := Z.of_nat (List.length array).

Fixpoint update_nth {T} (l : list T) (n : nat) (v : T) : list T :=
  match l, n with
  | [], _ => []
  | _ :: r, O => v :: r
  | x :: r, S k => x :: update_nth r k v
  end.

(** [array[i] = v] on an array whose slots may hold [undefined] or
    [null] ([None]).  A write past the end extends the array, the
    skipped slots reading back as [undefined]; a write at a negative
    key creates a property that is no element of the array. *)
Definition array_set {T} (array : list (option T)) (i : Z) (v : option T)
  : list (option T) :=
  if i <? 0 then array
  else if i <? len array then update_nth array (Z.to_nat i) v
  else (array ++ repeat None (Z.to_nat (i - len array)) ++ [v])%list.

(** [array[i]] on such an array. *)
Definition array_get {T} (array : list (option T)) (i : Z) : option T :=
  match index array i with
  | Some v => v
  | None => None
  end.

(** [array.findIndex(p)]: the first index satisfying [p], or [-1]. *)
Fixpoint findIndex {T} (p : T -> bool) (array : list T) : Z :=
  match array with
  | [] => -1
  | x :: rest =>
      if p x then 0
      else let i := findIndex p rest in
           if i <? 0 then -1 else i + 1
  end.

(** [array.filter((e) => e)] and [array.filter((x) => x !== null)] on a
    row of [Date | null] slots keep the dates. *)
Definition filter_dates {T} (row : list (option T)) : list T :=
  flat_map (fun e => match e with Some d => [d] | None => [] end) row.

(* ------------------------------------------------------------------ *)
(** *** Ambient inputs and exceptions *)

(** What a run reads from outside the script: the successive values of
    [Math.random()] and the wall-clock day read by [new Date()]. *)
Record Ambient := {
  Math_random_draws : nat -> Q;
  wall_clock : Z
}.

Inductive Completion (A : Type) :=
| Normal (a : A)
| TypeError.
Arguments Normal {A} a.
Arguments TypeError {A}.

(** A computation reads the ambient inputs, counts the [Math.random()]
    calls made so far, and either completes or throws. *)
Definition JS (A : Type) : Type := Ambient -> nat -> Completion (A * nat).

Definition ret {A} (a : A) : JS A := fun _ n => Normal (a, n).

Definition bind {A B} (c : JS A) (k : A -> JS B) : JS B :=
  fun env n =>
    match c env n with
    | Normal (a, n') => k a env n'
    | TypeError => TypeError
    end.

Definition throw {A} : JS A := fun _ _ => TypeError.

Notation "x <- c ;; k" := (bind c (fun x => k))
  (at level 61, c at next level, right associativity).

Definition Math_random : JS Q :=
  fun env n => Normal (Math_random_draws env n, S n).

(** Reading a property of a value that may be [undefined]. *)
Definition field {T A} (f : T -> A) (x : option T) : JS A :=
  match x with
  | Some v => ret (f v)
  | None => throw
  end.

(** Running a computation from the first [Math.random()] call. *)
Definition run {A} (c : JS A) (env : Ambient) : Completion A :=
  match c env O with
  | Normal (a, _) => Normal a
  | TypeError => TypeError
  end.

(* ------------------------------------------------------------------ *)
(** *** The [Date] built-in, at day granularity *)

(** A [Date] at local midnight is its day number, the days since
    1970-01-01 (ECMAScript's [Day(t)] in local time).  The definitions
    are those of the ECMAScript specification. *)
Module JSDate.

Definition Date := Z.

Definition DayFromYear (y : Z) : Z :=
  365 * (y - 1970) + (y - 1969) / 4 - (y - 1901) / 100 + (y - 1601) / 400.

Definition DaysInYear (y : Z) : Z :=
  if y mod 400 =? 0 then 366
  else if y mod 100 =? 0 then 365
  else if y mod 4 =? 0 then 366
  else 365.

(** The largest [y] with [DayFromYear y <= t], found from the mean
    year length (146097 days in 400 years). *)
Definition YearFromTime (t : Date) : Z :=
  let y0 := 1970 + (400 * t) / 146097 in
  if DayFromYear (y0 + 1) <=? t then y0 + 1
  else if DayFromYear y0 <=? t then y0
  else y0 - 1.

Definition InLeapYear (t : Date) : Z :=
  if DaysInYear (YearFromTime t) =? 366 then 1 else 0.

Definition DayWithinYear (t : Date) : Z := t - DayFromYear (YearFromTime t).

Definition MonthFromTime (t : Date) : Z :=
  let d := DayWithinYear t in
  let leap := InLeapYear t in
  if d <? 31 then 0
  else if d <? 59 + leap then 1
  else if d <? 90 + leap then 2
  else if d <? 120 + leap then 3
  else if d <? 151 + leap then 4
  else if d <? 181 + leap then 5
  else if d <? 212 + leap then 6
  else if d <? 243 + leap then 7
  else if d <? 273 + leap then 8
  else if d <? 304 + leap then 9
  else if d <? 334 + leap then 10
  else 11.

Definition DateFromTime (t : Date) : Z :=
  let d := DayWithinYear t in
  let leap := InLeapYear t in
  match MonthFromTime t with
  | 0 => d + 1
  | 1 => d - 30
  | 2 => d - 58 - leap
  | 3 => d - 89 - leap
  | 4 => d - 119 - leap
  | 5 => d - 150 - leap
  | 6 => d - 180 - leap
  | 7 => d - 211 - leap
  | 8 => d - 242 - leap
  | 9 => d - 272 - leap
  | 10 => d - 303 - leap
  | _ => d - 333 - leap
  end.

Definition WeekDay (t : Date) : Z := (t + 4) mod 7.

(** Day within the year of the first day of month [mn] (0..11). *)
Definition MonthStart (leap mn : Z) : Z :=
  match mn with
  | 0 => 0
  | 1 => 31
  | 2 => 59 + leap
  | 3 => 90 + leap
  | 4 => 120 + leap
  | 5 => 151 + leap
  | 6 => 181 + leap
  | 7 => 212 + leap
  | 8 => 243 + leap
  | 9 => 273 + leap
  | 10 => 304 + leap
  | _ => 334 + leap
  end.

Definition MakeDay (year month date : Z) : Z :=
  let ym := year + month / 12 in
  let mn := month mod 12 in
  let leap := if DaysInYear ym =? 366 then 1 else 0 in
  DayFromYear ym + MonthStart leap mn + date - 1.

(** [new Date(year, month, date)]; a year from 0 to 99 stands for
    1900 + year. *)
Definition newDate (year month date : Z) : Date :=
  let yr := if (0 <=? year) && (year <=? 99) then 1900 + year else year in
  MakeDay yr month date.

Definition getFullYear (d : Date) : Z := YearFromTime d.
Definition getMonth (d : Date) : Z := MonthFromTime d.
Definition getDate (d : Date) : Z := DateFromTime d.
Definition getDay (d : Date) : Z := WeekDay d.

(** [d.setDate(n)], as the date it leaves in [d]. *)
Definition setDate (d : Date) (n : Z) : Date :=
  MakeDay (YearFromTime d) (MonthFromTime d) n.

End JSDate.
Export JSDate.

(* ================================================================== *)
(** ** The script *)

(** [getRandomInt(min, max, seed = Math.random())]: the default value
    is only evaluated when the argument is [undefined]. *)
Definition getRandomInt (min max : Z) (seed : option Q) : JS Z :=
  seed <- match seed with Some s => ret s | None => Math_random end ;;
  ret (Qfloor (seed * inject_Z (max - min + 1))%Q + min).

(** [randomFromList(list, seed = Math.random())]. *)
Definition randomFromList {T} (list : list T) (seed : option Q)
  : JS (option T) :=
  seed <- match seed with Some s => ret s | None => Math_random end ;;
  i <- getRandomInt 0 (len list - 1) (Some seed) ;;
  ret (index list i).

(** The loop of [shuffle], [currentIndex] elements remaining. *)
Fixpoint shuffle_loop {T} (currentIndex : nat) (arrayCopy : list (option T))
  : JS (list (option T)) :=
  match currentIndex with
  | O => ret arrayCopy
  | S currentIndex' =>
      r <- Math_random ;;
      let randomIndex := Qfloor (r * inject_Z (Z.of_nat currentIndex))%Q in
      let currentIndex := Z.of_nat currentIndex' in
      let picked := array_get arrayCopy randomIndex in
      let current := array_get arrayCopy currentIndex in
      let arrayCopy := array_set arrayCopy currentIndex picked in
      let arrayCopy := array_set arrayCopy randomIndex current in
      shuffle_loop currentIndex' arrayCopy
  end.

Definition shuffle {T} (array : list T) : JS (list (option T)) :=
  let arrayCopy := map Some array in
  shuffle_loop (List.length arrayCopy) arrayCopy.

Record Entry := {
  english : string;
  kanji : string;
  hiragana : string
}.

Definition daysOfWeek : list Entry := [
  {| english := "Sunday"; kanji := "日曜日"; hiragana := "にちようび" |};
  {| english := "Monday"; kanji := "月曜日"; hiragana := "げつようび" |};
  {| english := "Tuesday"; kanji := "火曜日"; hiragana := "かようび" |};
  {| english := "Wednesday"; kanji := "水曜日"; hiragana := "すいようび" |};
  {| english := "Thursday"; kanji := "木曜日"; hiragana := "もくようび" |};
  {| english := "Friday"; kanji := "金曜日"; hiragana := "きんようび" |};
  {| english := "Saturday"; kanji := "土曜日"; hiragana := "どようび" |}
].

Definition days : list Entry := [
  {| english := "1st"; kanji := "一日"; hiragana := "ついたち" |};
  {| english := "2nd"; kanji := "二日"; hiragana := "ふつか" |};
  {| english := "3rd"; kanji := "三日"; hiragana := "みっか" |};
  {| english := "4th"; kanji := "四日"; hiragana := "よっか" |};
  {| english := "5th"; kanji := "五日"; hiragana := "いつか" |};
  {| english := "6th"; kanji := "六日"; hiragana := "むいか" |};
  {| english := "7th"; kanji := "七日"; hiragana := "なのか" |};
  {| english := "8th"; kanji := "八日"; hiragana := "ようか" |};
  {| english := "9th"; kanji := "九日"; hiragana := "ここのか" |};
  {| english := "10th"; kanji := "十日"; hiragana := "とおか" |};
  {| english := "11th"; kanji := "十一日"; hiragana := "じゅういちにち" |};
  {| english := "12th"; kanji := "十二日"; hiragana := "じゅうににち" |};
  {| english := "13th"; kanji := "十三日"; hiragana := "じゅうさんにち" |};
  {| english := "14th"; kanji := "十四日"; hiragana := "じゅうよっか" |};
  {| english := "15th"; kanji := "十五日"; hiragana := "じゅうごにち" |};
  {| english := "16th"; kanji := "十六日"; hiragana := "じゅうろくにち" |};
  {| english := "17th"; kanji := "十七日"; hiragana := "じゅうしちにち" |};
  {| english := "18th"; kanji := "十八日"; hiragana := "じゅうはちにち" |};
  {| english := "19th"; kanji := "十九日"; hiragana := "じゅうくにち" |};
  {| english := "20th"; kanji := "二十日"; hiragana := "はつか" |};
  {| english := "21st"; kanji := "二十一日"; hiragana := "にじゅういちにち" |};
  {| english := "22nd"; kanji := "二十二日"; hiragana := "にじゅうににち" |};
  {| english := "23rd"; kanji := "二十三日"; hiragana := "にじゅうさんにち" |};
  {| english := "24th"; kanji := "二十四日"; hiragana := "にじゅうよっか" |};
  {| english := "25th"; kanji := "二十五日"; hiragana := "にじゅうごにち" |};
  {| english := "26th"; kanji := "二十六日"; hiragana := "にじゅうろくにち" |};
  {| english := "27th"; kanji := "二十七日"; hiragana := "にじゅうしちにち" |};
  {| english := "28th"; kanji := "二十八日"; hiragana := "にじゅうはちにち" |};
  {| english := "29th"; kanji := "二十九日"; hiragana := "にじゅうくにち" |};
  {| english := "30th"; kanji := "三十日"; hiragana := "さんじゅうにち" |};
  {| english := "31st"; kanji := "三十一日"; hiragana := "さんじゅういちにち" |}
].

Definition months : list Entry := [
  {| english := "January"; kanji := "一月"; hiragana := "いちがつ" |};
  {| english := "February"; kanji := "二月"; hiragana := "にがつ" |};
  {| english := "March"; kanji := "三月"; hiragana := "さんがつ" |};
  {| english := "April"; kanji := "四月"; hiragana := "しがつ" |};
  {| english := "May"; kanji := "五月"; hiragana := "ごがつ" |};
  {| english := "June"; kanji := "六月"; hiragana := "ろくがつ" |};
  {| english := "July"; kanji := "七月"; hiragana := "しちがつ" |};
  {| english := "August"; kanji := "八月"; hiragana := "はちがつ" |};
  {| english := "September"; kanji := "九月"; hiragana := "くがつ" |};
  {| english := "October"; kanji := "十月"; hiragana := "じゅうがつ" |};
  {| english := "November"; kanji := "十一月"; hiragana := "じゅういちがつ" |};
  {| english := "December"; kanji := "十二月"; hiragana := "じゅうにがつ" |}
].

(* ------------------------------------------------------------------ *)
(** *** [dynamicYear] *)

Definition kanjiSubs (digit : Z) : option string :=
  match digit with
  | 1 => Some "一"
  | 2 => Some "二"
  | 3 => Some "三"
  | 4 => Some "四"
  | 5 => Some "五"
  | 6 => Some "六"
  | 7 => Some "七"
  | 8 => Some "八"
  | 9 => Some "九"
  | _ => None
  end.

Definition toKanji (number : Z) : string :=
  if number =? 0 then "零"
  else
    let thousands := Math_floor_div number 1000 in
    let hundreds := Math_floor_div (js_rem number 1000) 100 in
    let tens := Math_floor_div (js_rem number 100) 10 in
    let ones := js_rem number 10 in
    let kanji := "" in
    let kanji :=
      if thousands >? 0
      then kanji ++ (if thousands =? 1 then "" else coerce (kanjiSubs thousands))
             ++ "千"
      else kanji in
    let kanji :=
      if hundreds >? 0
      then kanji ++ (if hundreds =? 1 then "" else coerce (kanjiSubs hundreds))
             ++ "百"
      else kanji in
    let kanji :=
      if tens >? 0
      then kanji ++ (if tens =? 1 then "" else coerce (kanjiSubs tens)) ++ "十"
      else kanji in
    let kanji :=
      if ones >? 0 then kanji ++ coerce (kanjiSubs ones) else kanji in
    kanji.

Definition hiraganaSubs (digit : Z) : option string :=
  match digit with
  | 1 => Some "いち"
  | 2 => Some "に"
  | 3 => Some "さん"
  | 4 => Some "よん"
  | 5 => Some "ご"
  | 6 => Some "ろく"
  | 7 => Some "なな"
  | 8 => Some "はち"
  | 9 => Some "きゅう"
  | _ => None
  end.

Definition toHiragana (number : Z) : string :=
  if number =? 0 then "れい"
  else
    let thousands := Math_floor_div number 1000 in
    let hundreds := Math_floor_div (js_rem number 1000) 100 in
    let tens := Math_floor_div (js_rem number 100) 10 in
    let ones := js_rem number 10 in
    let hiragana := "" in
    let hiragana :=
      if thousands >? 0
      then match thousands with
           | 1 => hiragana ++ "せん"
           | 3 => hiragana ++ "さんぜん"
           | 8 => hiragana ++ "はっせん"
           | _ => hiragana ++ coerce (hiraganaSubs thousands) ++ "せん"
           end
      else hiragana in
    let hiragana :=
      if hundreds >? 0
      then match hundreds with
           | 1 => hiragana ++ "ひゃく"
           | 3 => hiragana ++ "さんびゃく"
           | 6 => hiragana ++ "ろっぴゃく"
           | 8 => hiragana ++ "はっぴゃく"
           | _ => hiragana ++ coerce (hiraganaSubs hundreds) ++ "ひゃく"
           end
      else hiragana in
    let hiragana :=
      if tens >? 0
      then hiragana ++ (if tens =? 1 then "" else coerce (hiraganaSubs tens))
             ++ "じゅう"
      else hiragana in
    let hiragana :=
      if ones >? 0 then hiragana ++ coerce (hiraganaSubs ones) else hiragana in
    hiragana.

Record YearAnswers := {
  imperialEnglish : string;
  imperialKanji : string;
  imperialHiragana : string;
  westernEnglish : string;
  westernKanji : string;
  westernHiragana : string
}.

Definition dynamicYear (year : Z) : YearAnswers :=
  let standardYearKanji := toKanji year in
  let standardYearHiragana := toHiragana year in
  let imperialYear := year - 2018 in
  let imperialYearKanji := toKanji imperialYear in
  let imperialYearHiragana := toHiragana imperialYear in
  {| imperialEnglish := "Reiwa " ++ Number_toString imperialYear;
     imperialKanji := "令和" ++ imperialYearKanji ++ "年";
     imperialHiragana := "れいわ" ++ imperialYearHiragana ++ "ねん";
     westernEnglish := Number_toString year;
     westernKanji := standardYearKanji ++ "年";
     westernHiragana := standardYearHiragana ++ "ねん" |}.

(** [joinWithArrow(elements)]. *)
Definition joinWithArrow (elements : list string) : string :=
  String.concat " → " elements.

(* ------------------------------------------------------------------ *)
(** *** Display trees *)

(** A [BoundryElement] or a string child. *)
#[warnings="-register-all"] Inductive Node :=
| Text (s : string)
| Element (tagName : string) (attributes : list (string * string))
          (children : list Node).

(** [h(tagName, className, attributes, children)]. *)
Definition h (tagName className : string) (attributes : list (string * string))
  (children : list Node) : Node :=
  Element tagName (("class", className) :: attributes) children.

(* ------------------------------------------------------------------ *)
(** *** [getWeeks] *)

Definition Week := list (option Date).

Definition emptyWeek : Week := [None; None; None; None; None; None; None].

(** The second loop of [getWeeks]: [days] is what remains of the days of
    the month, [i === days.length - 1] holds on the last of them. *)
Fixpoint getWeeks_loop (days : list Date) (weeks : list Week)
  (currentWeek : Week) : list Week :=
  match days with
  | [] => weeks
  | day :: rest =>
      let currentWeek := array_set currentWeek (getDay day) (Some day) in
      if (getDay day =? 6) || (match rest with [] => true | _ => false end)
      then getWeeks_loop rest (weeks ++ [currentWeek])%list emptyWeek
      else getWeeks_loop rest weeks currentWeek
  end.

Definition getWeeks (date : Date) : list Week :=
  let daysInMonth :=
    getDate (newDate (getFullYear date) (getMonth date + 1) 0) in
  let days :=
    map (fun i => newDate (getFullYear date) (getMonth date) (Z.of_nat i))
        (seq 1 (Z.to_nat daysInMonth)) in
  getWeeks_loop days [] emptyWeek.

(* ------------------------------------------------------------------ *)
(** *** [questionGenerator] *)

Record Question := {
  createQuestion : Date -> option Q -> JS (list Node);
  answer : Date -> option Q -> JS (list Node)
}.

(** [new Date()]. *)
Definition new_Date_now : JS Date := fun env n => Normal (wall_clock env, n).

(** The callback [(day) => day && day.getDate() === date.getDate()]. *)
Definition isDate (date : Date) (day : option Date) : bool :=
  match day with
  | Some day => getDate day =? getDate date
  | None => false
  end.

(** [targetDay < date]; the comparison is false on [undefined]. *)
Definition before (targetDay : option Date) (date : Date) : bool :=
  match targetDay with
  | Some targetDay => targetDay <? date
  | None => false
  end.

(* 5 - Day of the week. *)

Definition weekdayBeforeYesterday : Question :=
  {|
     createQuestion := fun _ _ =>
       ret [h "span" "" [] [Text "一昨日は何曜日でしたか？"]];
     answer := fun date _ =>
       let day := date in
       let day := setDate day (getDate day - 2) in
       e <- field english (index daysOfWeek (js_rem (getDay day) 7)) ;;
       k <- field kanji (index daysOfWeek (js_rem (getDay day) 7)) ;;
       hi <- field hiragana (index daysOfWeek (js_rem (getDay day) 7)) ;;
       ret [h "span" "" [] [
              Text (joinWithArrow [
                "What day was it the day before yesterday?"; e; k; hi])]]
  |}.

Definition weekdayYesterday : Question :=
  {|
     createQuestion := fun _ _ =>
       ret [h "span" "" [] [Text "昨日は何曜日でしたか？"]];
     answer := fun date _ =>
       let day := date in
       let day := setDate day (getDate day - 1) in
       e <- field english (index daysOfWeek (js_rem (getDay day) 7)) ;;
       k <- field kanji (index daysOfWeek (js_rem (getDay day) 7)) ;;
       hi <- field hiragana (index daysOfWeek (js_rem (getDay day) 7)) ;;
       ret [h "span" "" [] [
              Text (joinWithArrow [
                "What day was it yesterday?"; e; k; hi])]]
  |}.

Definition weekdayToday : Question :=
  {|
     createQuestion := fun _ _ =>
       ret [h "span" "" [] [Text "今日は何曜日ですか？"]];
     answer := fun date _ =>
       e <- field english (index daysOfWeek (js_rem (getDay date) 7)) ;;
       k <- field kanji (index daysOfWeek (js_rem (getDay date) 7)) ;;
       hi <- field hiragana (index daysOfWeek (js_rem (getDay date) 7)) ;;
       ret [h "span" "" [] [
              Text (joinWithArrow [
                "What day is it today?"; e; k; hi])]]
  |}.

Definition weekdayTomorrow : Question :=
  {|
     createQuestion := fun _ _ =>
       ret [h "span" "" [] [Text "明日は何曜日ですか？"]];
     answer := fun date _ =>
       let day := date in
       let day := setDate day (getDate day + 1) in
       e <- field english (index daysOfWeek (js_rem (getDay day) 7)) ;;
       k <- field kanji (index daysOfWeek (js_rem (getDay day) 7)) ;;
       hi <- field hiragana (index daysOfWeek (js_rem (getDay day) 7)) ;;
       ret [h "span" "" [] [
              Text (joinWithArrow [
                "What day is it tomorrow?"; e; k; hi])]]
  |}.

Definition weekdayAfterTomorrow : Question :=
  {|
     createQuestion := fun _ _ =>
       ret [h "span" "" [] [Text "明後日は何曜日ですか？"]];
     answer := fun date _ =>
       let day := date in
       let day := setDate day (getDate day + 2) in
       e <- field english (index daysOfWeek (js_rem (getDay day) 7)) ;;
       k <- field kanji (index daysOfWeek (js_rem (getDay day) 7)) ;;
       hi <- field hiragana (index daysOfWeek (js_rem (getDay day) 7)) ;;
       ret [h "span" "" [] [
              Text (joinWithArrow [
                "What day is it the day after tomorrow?"; e; k; hi])]]
  |}.

(* 5 - Date of the month. *)

Definition dateBeforeYesterday : Question :=
  {|
     createQuestion := fun _ _ =>
       ret [h "span" "" [] [Text "一昨日は何日でしたか？"]];
     answer := fun date _ =>
       e <- field english (index days (getDate date - 3)) ;;
       k <- field kanji (index days (getDate date - 3)) ;;
       hi <- field hiragana (index days (getDate date - 3)) ;;
       ret [h "span" "" [] [
              Text (joinWithArrow [
                "What date was it the day before yesterday?"; e; k; hi])]]
  |}.

Definition dateYesterday : Question :=
  {|
     createQuestion := fun _ _ =>
       ret [h "span" "" [] [Text "昨日は何日でしたか？"]];
     answer := fun date _ =>
       e <- field english (index days (getDate date - 2)) ;;
       k <- field kanji (index days (getDate date - 2)) ;;
       hi <- field hiragana (index days (getDate date - 2)) ;;
       ret [h "span" "" [] [
              Text (joinWithArrow [
                "What date was it yesterday?"; e; k; hi])]]
  |}.

Definition dateToday : Question :=
  {|
     createQuestion := fun _ _ =>
       ret [h "span" "" [] [Text "今日は何日ですか？"]];
     answer := fun date _ =>
       e <- field english (index days (getDate date - 1)) ;;
       k <- field kanji (index days (getDate date - 1)) ;;
       hi <- field hiragana (index days (getDate date - 1)) ;;
       ret [h "span" "" [] [
              Text (joinWithArrow [
                "What date is it today?"; e; k; hi])]]
  |}.

Definition dateTomorrow : Question :=
  {|
     createQuestion := fun _ _ =>
       ret [h "span" "" [] [Text "明日は何日ですか？"]];
     answer := fun date _ =>
       e <- field english (index days (getDate date)) ;;
       k <- field kanji (index days (getDate date)) ;;
       hi <- field hiragana (index days (getDate date)) ;;
       ret [h "span" "" [] [
              Text (joinWithArrow [
                "What date is it tomorrow?"; e; k; hi])]]
  |}.

Definition dateAfterTomorrow : Question :=
  {|
     createQuestion := fun _ _ =>
       ret [h "span" "" [] [Text "明後日は何日ですか？"]];
     answer := fun date _ =>
       e <- field english (index days (getDate date + 1)) ;;
       k <- field kanji (index days (getDate date + 1)) ;;
       hi <- field hiragana (index days (getDate date + 1)) ;;
       ret [h "span" "" [] [
              Text (joinWithArrow [
                "What date is it the day after tomorrow?"; e; k; hi])]]
  |}.

(* 3 - Month of the year. *)

Definition monthLast : Question :=
  {|
     createQuestion := fun _ _ =>
       ret [h "span" "" [] [Text "先月は何月でしたか？"]];
     answer := fun date _ =>
       e <- field english (index months (Z.max (getMonth date - 1) 0)) ;;
       k <- field kanji (index months (Z.max (getMonth date - 1) 0)) ;;
       hi <- field hiragana (index months (Z.max (getMonth date - 1) 0)) ;;
       ret [h "span" "" [] [
              Text (joinWithArrow [
                "What month was it last month?"; e; k; hi])]]
  |}.

Definition monthThis : Question :=
  {|
     createQuestion := fun _ _ =>
       ret [h "span" "" [] [Text "今月は何月ですか？"]];
     answer := fun date _ =>
       e <- field english (index months (getMonth date)) ;;
       k <- field kanji (index months (getMonth date)) ;;
       hi <- field hiragana (index months (getMonth date)) ;;
       ret [h "span" "" [] [
              Text (joinWithArrow [
                "What month is it this month?"; e; k; hi])]]
  |}.

Definition monthNext : Question :=
  {|
     createQuestion := fun _ _ =>
       ret [h "span" "" [] [Text "来月は何月ですか？"]];
     answer := fun date _ =>
       e <- field english (index months (Z.min (getMonth date + 1) 12)) ;;
       k <- field kanji (index months (Z.min (getMonth date + 1) 12)) ;;
       hi <- field hiragana (index months (Z.min (getMonth date + 1) 12)) ;;
       ret [h "span" "" [] [
              Text (joinWithArrow [
                "What month is it next month?"; e; k; hi])]]
  |}.

(* 3 - Years *)

Definition yearLast : Question :=
  {|
     createQuestion := fun _ _ =>
       ret [h "span" "" [] [Text "去年は何年でしたか？"]];
     answer := fun date _ =>
       let year := getFullYear date in
       let answers := dynamicYear (year - 1) in
       ret [h "span" "" [] [Text (joinWithArrow [
              "What year was it last year?";
              westernEnglish answers ++ " - 2019 + 1";
              imperialEnglish answers;
              imperialKanji answers;
              imperialHiragana answers])];
            h "span" "question--answer-or" [] [Text "OR"];
            h "span" "" [] [Text (joinWithArrow [
              westernEnglish answers;
              westernKanji answers;
              westernHiragana answers])]]
  |}.

Definition yearThis : Question :=
  {|
     createQuestion := fun _ _ =>
       ret [h "span" "" [] [Text "今年は何年ですか？"]];
     answer := fun date _ =>
       let year := getFullYear date in
       let answers := dynamicYear (year) in
       ret [h "span" "" [] [Text (joinWithArrow [
              "What year is it this year?";
              westernEnglish answers ++ " - 2019 + 1";
              imperialEnglish answers;
              imperialKanji answers;
              imperialHiragana answers])];
            h "span" "question--answer-or" [] [Text "OR"];
            h "span" "" [] [Text (joinWithArrow [
              westernEnglish answers;
              westernKanji answers;
              westernHiragana answers])]]
  |}.

Definition yearNext : Question :=
  {|
     createQuestion := fun _ _ =>
       ret [h "span" "" [] [Text "来年は何年ですか？"]];
     answer := fun date _ =>
       let year := getFullYear date in
       let answers := dynamicYear (year + 1) in
       ret [h "span" "" [] [Text (joinWithArrow [
              "What year is it next year?";
              westernEnglish answers ++ " - 2019 + 1";
              imperialEnglish answers;
              imperialKanji answers;
              imperialHiragana answers])];
            h "span" "question--answer-or" [] [Text "OR"];
            h "span" "" [] [Text (joinWithArrow [
              westernEnglish answers;
              westernKanji answers;
              westernHiragana answers])]]
  |}.

(* 3 - Days of week relative to the current week -> date *)

Definition lastWeekDate : Question :=
  {|
     createQuestion := fun date seed =>
       now <- new_Date_now ;;
       let weeks := getWeeks now in
       let currentWeekIndex := findIndex (existsb (isDate date)) weeks in
       week <- field filter_dates (index weeks (currentWeekIndex - 1)) ;;
       targetDay <- randomFromList week seed ;;
       wd <- field getDay targetDay ;;
       k <- field kanji (index daysOfWeek (js_rem wd 7)) ;;
       ret [h "span" "" [] [
              Text ("先週の" ++ k ++ "は何日でしたか？")]];
     answer := fun date seed =>
       now <- new_Date_now ;;
       let weeks := getWeeks now in
       let currentWeekIndex := findIndex (existsb (isDate date)) weeks in
       week <- field filter_dates (index weeks (currentWeekIndex - 1)) ;;
       targetDay <- randomFromList week seed ;;
       wd <- field getDay targetDay ;;
       e <- field english (index daysOfWeek (js_rem wd 7)) ;;
       e' <- field english (index daysOfWeek (js_rem wd 7)) ;;
       k <- field kanji (index daysOfWeek (js_rem wd 7)) ;;
       hi <- field hiragana (index daysOfWeek (js_rem wd 7)) ;;
       ret [h "span" "" [] [Text (joinWithArrow [
          "What date was last week's " ++ e ++ "?";
          e'; k; hi])]]
  |}.

Definition thisWeekDate : Question :=
  {|
     createQuestion := fun date seed =>
       now <- new_Date_now ;;
       let weeks := getWeeks now in
       let currentWeekIndex := findIndex (existsb (isDate date)) weeks in
       week <- field filter_dates (index weeks currentWeekIndex) ;;
       targetDay <- randomFromList week seed ;;
       wd <- field getDay targetDay ;;
       k <- field kanji (index daysOfWeek (js_rem wd 7)) ;;
       ret [h "span" "" [] [
              Text ("今週の" ++ k ++ "は何日"
                ++ (if before targetDay date then "でしたか？" else "ですか？"))]];
     answer := fun date seed =>
       now <- new_Date_now ;;
       let weeks := getWeeks now in
       let currentWeekIndex := findIndex (existsb (isDate date)) weeks in
       week <- field filter_dates (index weeks currentWeekIndex) ;;
       targetDay <- randomFromList week seed ;;
       wd <- field getDay targetDay ;;
       e <- field english (index daysOfWeek (js_rem wd 7)) ;;
       e' <- field english (index daysOfWeek (js_rem wd 7)) ;;
       k <- field kanji (index daysOfWeek (js_rem wd 7)) ;;
       hi <- field hiragana (index daysOfWeek (js_rem wd 7)) ;;
       ret [h "span" "" [] [Text (joinWithArrow [
          "What date " ++ (if before targetDay date then "was" else "is")
            ++ " this week's " ++ e ++ "?";
          e'; k; hi])]]
  |}.

Definition nextWeekDate : Question :=
  {|
     createQuestion := fun date seed =>
       now <- new_Date_now ;;
       let weeks := getWeeks now in
       let currentWeekIndex := findIndex (existsb (isDate date)) weeks in
       week <- field filter_dates (index weeks (currentWeekIndex + 1)) ;;
       targetDay <- randomFromList week seed ;;
       wd <- field getDay targetDay ;;
       k <- field kanji (index daysOfWeek (js_rem wd 7)) ;;
       ret [h "span" "" [] [
              Text ("来週の" ++ k ++ "は何日ですか？")]];
     answer := fun date seed =>
       now <- new_Date_now ;;
       let weeks := getWeeks now in
       let currentWeekIndex := findIndex (existsb (isDate date)) weeks in
       week <- field filter_dates (index weeks (currentWeekIndex + 1)) ;;
       targetDay <- randomFromList week seed ;;
       wd <- field getDay targetDay ;;
       e <- field english (index daysOfWeek (js_rem wd 7)) ;;
       e' <- field english (index daysOfWeek (js_rem wd 7)) ;;
       k <- field kanji (index daysOfWeek (js_rem wd 7)) ;;
       hi <- field hiragana (index daysOfWeek (js_rem wd 7)) ;;
       ret [h "span" "" [] [Text (joinWithArrow [
          "What date is next week's " ++ e ++ "?";
          e'; k; hi])]]
  |}.

(* 3 - Date -> Day of week *)

Definition lastWeekWeekday : Question :=
  {|
     createQuestion := fun date seed =>
       now <- new_Date_now ;;
       let weeks := getWeeks now in
       let currentWeekIndex := findIndex (existsb (isDate date)) weeks in
       week <- field filter_dates (index weeks (currentWeekIndex - 1)) ;;
       targetDay <- randomFromList week seed ;;
       dt <- field getDate targetDay ;;
       k <- field kanji (index days (dt - 1)) ;;
       ret [h "span" "" [] [
              Text ("先週の" ++ k ++ "は何曜日でしたか？")]];
     answer := fun date seed =>
       now <- new_Date_now ;;
       let weeks := getWeeks now in
       let currentWeekIndex := findIndex (existsb (isDate date)) weeks in
       week <- field filter_dates (index weeks (currentWeekIndex - 1)) ;;
       targetDay <- randomFromList week seed ;;
       dt <- field getDate targetDay ;;
       d <- field english (index days (dt - 1)) ;;
       wd <- field getDay targetDay ;;
       e <- field english (index daysOfWeek (js_rem wd 7)) ;;
       k <- field kanji (index daysOfWeek (js_rem wd 7)) ;;
       hi <- field hiragana (index daysOfWeek (js_rem wd 7)) ;;
       ret [h "span" "" [] [Text (joinWithArrow [
          "What day was last week's " ++ d ++ "?";
          e; k; hi])]]
  |}.

Definition thisWeekWeekday : Question :=
  {|
     createQuestion := fun date seed =>
       now <- new_Date_now ;;
       let weeks := getWeeks now in
       let currentWeekIndex := findIndex (existsb (isDate date)) weeks in
       week <- field filter_dates (index weeks currentWeekIndex) ;;
       targetDay <- randomFromList week seed ;;
       dt <- field getDate targetDay ;;
       k <- field kanji (index days (dt - 1)) ;;
       ret [h "span" "" [] [
              Text ("今週の" ++ k ++ "は何曜日"
                ++ (if before targetDay date then "でしたか？" else "ですか？"))]];
     answer := fun date seed =>
       now <- new_Date_now ;;
       let weeks := getWeeks now in
       let currentWeekIndex := findIndex (existsb (isDate date)) weeks in
       week <- field filter_dates (index weeks currentWeekIndex) ;;
       targetDay <- randomFromList week seed ;;
       dt <- field getDate targetDay ;;
       d <- field english (index days (dt - 1)) ;;
       wd <- field getDay targetDay ;;
       e <- field english (index daysOfWeek (js_rem wd 7)) ;;
       k <- field kanji (index daysOfWeek (js_rem wd 7)) ;;
       hi <- field hiragana (index daysOfWeek (js_rem wd 7)) ;;
       ret [h "span" "" [] [Text (joinWithArrow [
          "What day " ++ (if before targetDay date then "was" else "is")
            ++ " this week's " ++ d ++ "?";
          e; k; hi])]]
  |}.

Definition nextWeekWeekday : Question :=
  {|
     createQuestion := fun date seed =>
       now <- new_Date_now ;;
       let weeks := getWeeks now in
       let currentWeekIndex := findIndex (existsb (isDate date)) weeks in
       week <- field filter_dates (index weeks (currentWeekIndex + 1)) ;;
       targetDay <- randomFromList week seed ;;
       dt <- field getDate targetDay ;;
       k <- field kanji (index days (dt - 1)) ;;
       ret [h "span" "" [] [
              Text ("来週の" ++ k ++ "は何曜日ですか？")]];
     answer := fun date seed =>
       now <- new_Date_now ;;
       let weeks := getWeeks now in
       let currentWeekIndex := findIndex (existsb (isDate date)) weeks in
       week <- field filter_dates (index weeks (currentWeekIndex + 1)) ;;
       targetDay <- randomFromList week seed ;;
       dt <- field getDate targetDay ;;
       d <- field english (index days (dt - 1)) ;;
       wd <- field getDay targetDay ;;
       e <- field english (index daysOfWeek (js_rem wd 7)) ;;
       k <- field kanji (index daysOfWeek (js_rem wd 7)) ;;
       hi <- field hiragana (index daysOfWeek (js_rem wd 7)) ;;
       ret [h "span" "" [] [Text (joinWithArrow [
          "What day is next week's " ++ d ++ "?";
          e; k; hi])]]
  |}.

Definition questionGenerator : list Question := [
  weekdayBeforeYesterday; weekdayYesterday; weekdayToday; weekdayTomorrow;
  weekdayAfterTomorrow;
  dateBeforeYesterday; dateYesterday; dateToday; dateTomorrow; dateAfterTomorrow;
  monthLast; monthThis; monthNext;
  yearLast; yearThis; yearNext;
  lastWeekDate; thisWeekDate; nextWeekDate;
  lastWeekWeekday; thisWeekWeekday; nextWeekWeekday
].

(* ------------------------------------------------------------------ *)
(** *** Sparse arrays *)

(** An array slot that may be empty: [Array(n)] has [n] empty slots,
    which [map] leaves empty without calling its callback, and which
    read as [undefined]. *)
Inductive Slot (A : Type) :=
| Empty
| Filled (a : A).
Arguments Empty {A}.
Arguments Filled {A} a.

(** [Array(n)]. *)
Definition Array {A} (n : Z) : list (Slot A) := repeat Empty (Z.to_nat n).

(** [array.map(callback)]. *)
Fixpoint Array_map {A B} (callback : A -> JS B) (array : list (Slot A))
  : JS (list (Slot B)) :=
  match array with
  | [] => ret []
  | Empty :: rest =>
      rest' <- Array_map callback rest ;;
      ret (Empty :: rest')
  | Filled a :: rest =>
      b <- callback a ;;
      rest' <- Array_map callback rest ;;
      ret (Filled b :: rest')
  end.

(** [array[i]] on a sparse array. *)
Definition slot_get {A} (array : list (Slot A)) (i : Z) : option A :=
  match index array i with
  | Some (Filled a) => Some a
  | _ => None
  end.

(** [array.slice(start, end)]. *)
Definition slice {T} (array : list T) (start end_ : Z) : list T :=
  let k := if start <? 0 then Z.max (len array + start) 0
           else Z.min start (len array) in
  let final := if end_ <? 0 then Z.max (len array + end_) 0
               else Z.min end_ (len array) in
  firstn (Z.to_nat (final - k)) (skipn (Z.to_nat k) array).

(** [array.flat()]. *)
Definition flat {T} (array : list (list T)) : list T := List.concat array.

(* ------------------------------------------------------------------ *)
(** *** [Calendar] *)

Definition Calendar (date : Date) : Node :=
  let weeks := getWeeks date in
  let months :=
    ["January"; "February"; "March"; "April"; "May"; "June"; "July";
     "August"; "September"; "October"; "November"; "December"] in
  let specialDays (d : Z) : option string :=
    match d with
    | 1 => Some "1st"
    | 2 => Some "2nd"
    | 3 => Some "3rd"
    | 21 => Some "21st"
    | 22 => Some "22nd"
    | 23 => Some "23rd"
    | _ => None
    end in
  h "div" "calendar" [] [
    h "div" "calendar--header" [] [
      h "p" "calendar--month-year" [] [
        Text ((match specialDays (getDate date) with
               | Some s => s
               | None => Number_toString (getDate date) ++ "th"
               end)
              ++ " of " ++ coerce (index months (getMonth date))
              ++ " " ++ Number_toString (getFullYear date))
      ]
    ];
    h "div" "calendar--body" [] [
      h "div" "calendar--weekdays" [] [
        h "p" "calendar--weekday" [] [Text "Sun"];
        h "p" "calendar--weekday" [] [Text "Mon"];
        h "p" "calendar--weekday" [] [Text "Tue"];
        h "p" "calendar--weekday" [] [Text "Wed"];
        h "p" "calendar--weekday" [] [Text "Thu"];
        h "p" "calendar--weekday" [] [Text "Fri"];
        h "p" "calendar--weekday" [] [Text "Sat"]
      ];
      h "div" "calendar--days" []
        (map (fun week =>
           h "div" "calendar--week" []
             (map (fun day =>
                let isEqualToDate := isDate date day in
                h "p"
                  ("calendar--day" ++
                   (if isEqualToDate then " calendar--day-active" else ""))
                  []
                  [Text (match day with
                         | Some day => Number_toString (getDate day)
                         | None => ""
                         end)])
              week))
         weeks)
    ]
  ].

(* ------------------------------------------------------------------ *)
(** *** [Questions] *)

(** What [showHideAnswers(show)] leaves in the answer host of each
    question, in order. *)
Fixpoint showHideAnswers_loop (questions : list (option Question))
  (seeds : list (Slot Q)) (date : Date) (show : bool) (i : nat) (count : nat)
  : JS (list (list Node)) :=
  match count with
  | O => ret []
  | S count' =>
      host <-
        (if negb show then ret []
         else
           a <- field answer (array_get questions (Z.of_nat i)) ;;
           answers <- a date (slot_get seeds (Z.of_nat i)) ;;
           ret [h "blockquote" "question--answers" [] [
                  h "div" "question--answer-effect" [] [];
                  h "div" "question--answer" []
                    (h "p" "question--answer-title" [] [Text "Answer:"]
                     :: answers)]]) ;;
      rest <- showHideAnswers_loop questions seeds date show (S i) count' ;;
      ret (host :: rest)
  end.

(** The callback of [questions.map] in [Questions], from index [index]. *)
Fixpoint Questions_map (questions : list (option Question))
  (seeds : list (Slot Q)) (date : Date) (index : nat)
  : JS (list Node) :=
  match questions with
  | [] => ret []
  | question :: rest =>
      c <- field createQuestion question ;;
      q <- c date (slot_get seeds (Z.of_nat index)) ;;
      let item :=
        h "div" "question" [] [
          h "li" "question--question" [] q;
          h "div" "question--answer-host" [] []] in
      items <- Questions_map rest seeds date (S index) ;;
      ret (item :: items)
  end.

Definition Questions (questions : list (option Question))
  (seeds : list (Slot Q)) (date : Date)
  : JS (Node * (bool -> JS (list (list Node)))) :=
  let showHideAnswers := fun show =>
    showHideAnswers_loop questions seeds date show O (List.length questions) in
  items <- Questions_map questions seeds date O ;;
  ret (h "ol" "questions" [] items, showHideAnswers).

(* ------------------------------------------------------------------ *)
(** *** [main] *)

Module Main.

Definition generateRandomDate : JS (option Date) :=
  year <- getRandomInt 2019 2049 None ;;
  month <- getRandomInt 0 11 None ;;
  let calendar := getWeeks (newDate year month 1) in
  topPadding <- field (fun week => len (filter_dates week))
                      (index calendar 0) ;;
  bottomPadding <- field (fun week => len (filter_dates week))
                         (index calendar (len calendar - 1)) ;;
  let daysInMonth := flat (slice calendar 1 (len calendar - 1)) in
  let topPadding := Z.max (2 - topPadding) 0 in
  let bottomPadding := Z.max (2 - bottomPadding) 0 in
  day <- getRandomInt topPadding (len daysInMonth - bottomPadding - 1) None ;;
  ret (array_get daysInMonth day).

(** The variables of [main] that a test replaces, and the two hosts
    it renders into. *)
Record Session := {
  date : Date;
  currentQuestions : list (option Question);
  seeds : list (Slot Q);
  showHideAnswersFunction : bool -> JS (list (list Node));
  showAnswers : bool;
  revealButton : string;
  calendarHost : Node;
  questionHost : Node
}.

Definition newTest : JS Session :=
  date <- generateRandomDate ;;
  currentQuestions <- shuffle questionGenerator ;;
  seeds <- Array_map (fun _ : unit => Math_random)
                     (Array (len currentQuestions)) ;;
  (* [Calendar(date)] reads [date.getDate()]. *)
  date <- field (fun d => d) date ;;
  let calendar := Calendar date in
  r <- Questions currentQuestions seeds date ;;
  let '(component, showHideAnswers) := r in
  ret {| date := date;
         currentQuestions := currentQuestions;
         seeds := seeds;
         showHideAnswersFunction := showHideAnswers;
         showAnswers := false;
         revealButton := "Reveal Answers";
         calendarHost := calendar;
         questionHost := component |}.

(** The click handler of the reveal button: the new session and the
    contents of the answer hosts. *)
Definition revealClick (s : Session) : JS (Session * list (list Node)) :=
  let text := if showAnswers s then "Reveal Answers" else "Hide Answers" in
  let show := negb (showAnswers s) in
  hosts <- showHideAnswersFunction s show ;;
  ret ({| date := date s;
          currentQuestions := currentQuestions s;
          seeds := seeds s;
          showHideAnswersFunction := showHideAnswersFunction s;
          showAnswers := show;
          revealButton := text;
          calendarHost := calendarHost s;
          questionHost := questionHost s |}, hosts).

End Main.
(* ================================================================== *)
(** ** Definitions used to state the properties *)

(** The Gregorian calendar: leap years and the length of a month. *)

Module CalendarSpec.
Definition isLeap (y : Z) : bool :=
  (y mod 4 =? 0) && (negb (y mod 100 =? 0) || (y mod 400 =? 0)).
Definition daysIn (y m : Z) : Z :=
  match m with
  | 1 => if isLeap y then 29 else 28
  | 3 | 5 | 8 | 10 => 30
  | _ => 31
  end.
End CalendarSpec.

(** *** The week grid *)

(** The days of month [m] of year [y], in order. *)
Definition calendarDays (y m : Z) : list Date :=
  map (fun i => newDate y m (Z.of_nat i))
      (seq 1 (Z.to_nat (CalendarSpec.daysIn y m))).

(** A row has seven slots and a day sits in the slot of its weekday. *)
Definition by_weekday (week : Week) : Prop :=
  List.length week = 7%nat /\
  forall k d, nth_error week k = Some (Some d) -> getDay d = Z.of_nat k.

(** A row under construction: nothing yet from slot [w] on. *)
Definition open_from (w : nat) (week : Week) : Prop :=
  forall k, (w <= k < List.length week)%nat -> nth_error week k = Some None.

(** The run of [n] consecutive days from day number [c + a]. *)
Definition run_of (c : Z) (a n : nat) : list Date :=
  map (fun i => c + Z.of_nat i) (seq a n).

(** The grid of the month of [date] is complete: its non-empty slots,
    row after row, are the days of the month in order, each once; every
    row has seven slots, a day in the slot of its weekday; and the days
    are the [daysIn] dates of that year and month. *)
Definition complete_grid (date : Date) : Prop :=
  let y := getFullYear date in
  let m := getMonth date in
  let weeks := getWeeks date in
  flat (map filter_dates weeks) = calendarDays y m /\
  NoDup (flat (map filter_dates weeks)) /\
  Forall by_weekday weeks /\
  List.length (calendarDays y m) = Z.to_nat (CalendarSpec.daysIn y m) /\
  (forall i, 1 <= i <= CalendarSpec.daysIn y m ->
     nth_error (calendarDays y m) (Z.to_nat (i - 1)) = Some (newDate y m i) /\
     getFullYear (newDate y m i) = y /\
     getMonth (newDate y m i) = m /\
     getDate (newDate y m i) = i).

(** *** Numerals *)

(** The place-value rules of the numeral localizer, as the
    specification words them: a table keyed by place and digit. *)
Module NumeralSpec.

Inductive Place := Thousands | Hundreds | Tens | Ones.

Definition digitGlyph (d : Z) : string :=
  match d with
  | 1 => "一" | 2 => "二" | 3 => "三" | 4 => "四" | 5 => "五"
  | 6 => "六" | 7 => "七" | 8 => "八" | 9 => "九"
  | _ => ""
  end.

Definition placeGlyph (p : Place) : string :=
  match p with
  | Thousands => "千"
  | Hundreds => "百"
  | Tens => "十"
  | Ones => ""
  end.

Definition digitReading (d : Z) : string :=
  match d with
  | 1 => "いち" | 2 => "に" | 3 => "さん" | 4 => "よん" | 5 => "ご"
  | 6 => "ろく" | 7 => "なな" | 8 => "はち" | 9 => "きゅう"
  | _ => ""
  end.

Definition placeWord (p : Place) : string :=
  match p with
  | Thousands => "せん"
  | Hundreds => "ひゃく"
  | Tens => "じゅう"
  | Ones => ""
  end.

(** A place whose digit is 0 writes nothing. *)
Definition logographicPlace (p : Place) (d : Z) : string :=
  if d =? 0 then ""
  else match p with
       | Ones => digitGlyph d
       | _ => if d =? 1 then placeGlyph p else digitGlyph d ++ placeGlyph p
       end.

Definition phoneticPlace (p : Place) (d : Z) : string :=
  if d =? 0 then ""
  else match p, d with
       | Ones, _ => digitReading d
       | _, 1 => placeWord p
       | Thousands, 3 => "さんぜん"
       | Thousands, 8 => "はっせん"
       | Hundreds, 3 => "さんびゃく"
       | Hundreds, 6 => "ろっぴゃく"
       | Hundreds, 8 => "はっぴゃく"
       | _, _ => digitReading d ++ placeWord p
       end.

Definition digitAt (p : Place) (n : Z) : Z :=
  match p with
  | Thousands => (n / 1000) mod 10
  | Hundreds => (n / 100) mod 10
  | Tens => (n / 10) mod 10
  | Ones => n mod 10
  end.

Definition places : list Place := [Thousands; Hundreds; Tens; Ones].

Definition logographic (n : Z) : string :=
  if n =? 0 then "零"
  else String.concat "" (map (fun p => logographicPlace p (digitAt p n)) places).

Definition phonetic (n : Z) : string :=
  if n =? 0 then "れい"
  else String.concat "" (map (fun p => phoneticPlace p (digitAt p n)) places).

End NumeralSpec.

(** *** Randomness and sessions *)

(** What [Math.random()] guarantees of the values it returns. *)
Definition unit_interval (env : Ambient) : Prop :=
  forall k, (0 <= Math_random_draws env k < 1)%Q.

(** A sample run: [Math.random()] returns 0, 1/10, ..., 9/10 in turn and
    the wall clock is 20 February 2019. *)
Definition demo_env : Ambient :=
  {| Math_random_draws := fun n => (Z.of_nat n mod 10) # 10;
     wall_clock := newDate 2019 1 20 |}.

(** The text leaves of a display tree, in order. *)
Fixpoint textsOf (n : Node) : list string :=
  match n with
  | Text s => [s]
  | Element _ _ children => flat_map textsOf children
  end.

(** No string occurs twice. *)
Fixpoint distinct (l : list string) : bool :=
  match l with
  | [] => true
  | x :: rest => negb (existsb (String.eqb x) rest) && distinct rest
  end.

(** The text of a question under fixed sample inputs. *)
Definition sampleText (q : Question) : string :=
  match run (createQuestion q (newDate 2019 1 7) (Some 0%Q)) demo_env with
  | Normal nodes => String.concat "" (flat_map textsOf nodes)
  | TypeError => ""
  end.

(** A run on the day [now] of the wall clock, [Math.random()] returning
    0. *)
Definition clock_env (now : Date) : Ambient :=
  {| Math_random_draws := fun _ => 0%Q; wall_clock := now |}.

(** A run in which [generateRandomDate] draws [year], [month] and [day]
    in turn, every later draw is 0 and the wall clock is [now]. *)
Definition session_env (year month day : Q) (now : Date) : Ambient :=
  {| Math_random_draws := fun n => match n with
                                   | 0%nat => year
                                   | 1%nat => month
                                   | 2%nat => day
                                   | _ => 0%Q
                                   end;
     wall_clock := now |}.

(** *** The date picker *)

(** The years and months [generateRandomDate] draws from. *)
Definition yearRange : list Z := map Z.of_nat (seq 2019 31).
Definition monthRange : list Z := map Z.of_nat (seq 0 12).

(** The integers from [lo] to [hi]. *)
Definition range (lo hi : Z) : list Z :=
  map (fun k => lo + Z.of_nat k) (seq 0 (Z.to_nat (hi - lo + 1))).

(** For a drawn year and month: the array [daysInMonth] of
    [generateRandomDate] and the bounds of its last draw. *)
Definition candidates (year month : Z) : option (list (option Date) * Z * Z) :=
  let calendar := getWeeks (newDate year month 1) in
  match index calendar 0, index calendar (len calendar - 1) with
  | Some first, Some last =>
      let daysInMonth := flat (slice calendar 1 (len calendar - 1)) in
      Some (daysInMonth,
            Z.max (2 - len (filter_dates first)) 0,
            len daysInMonth - Z.max (2 - len (filter_dates last)) 0 - 1)
  | _, _ => None
  end.

(** The slot holds the day [d]. *)
Definition holds (d : Date) (slot : option Date) : bool :=
  match slot with
  | Some x => x =? d
  | None => false
  end.

(** The first row of the grid with a slot holding [d]. *)
Definition rowOf (calendar : list Week) (d : Date) : Z :=
  findIndex (existsb (holds d)) calendar.

(** A day of the grid of month [month] of [year] that lies in an inner
    row and at least two days from both ends of the month. *)
Definition candidate_ok (year month : Z) (calendar : list Week) (d : Date)
  : bool :=
  existsb (holds d) (flat calendar) &&
  ((1 <=? rowOf calendar d) && (rowOf calendar d <=? len calendar - 2)) &&
  ((3 <=? d - newDate year month 0) &&
   (d - newDate year month 0 <=? CalendarSpec.daysIn year month - 2)).

(** Every day the last draw of [generateRandomDate] can select from
    [daysInMonth] is such a day. *)
Definition candidates_ok (year month : Z) (calendar : list Week)
  (c : option (list (option Date) * Z * Z)) : bool :=
  match c with
  | Some (daysInMonth, lo, hi) =>
      (lo <=? hi) &&
      forallb (fun day =>
                 match array_get daysInMonth day with
                 | Some d => candidate_ok year month calendar d
                 | None => false
                 end)
              (range lo hi)
  | None => false
  end.

(** The row of the week grid of its month that holds [date], as the
    week-relative templates look it up. *)
Definition weekRow (date : Date) : Z :=
  findIndex (existsb (isDate date)) (getWeeks date).

(** *** The "this week" templates *)

(** [l] begins with [p]; [s] ends with [suffix]. *)
Fixpoint starts (p l : list ascii) : bool :=
  match p, l with
  | [], _ => true
  | a :: p', b :: l' => Ascii.eqb a b && starts p' l'
  | _ :: _, [] => false
  end.

Definition ends_with (suffix s : string) : bool :=
  starts (rev (list_ascii_of_string suffix)) (rev (list_ascii_of_string s)).

(** The tense of a question and of the title of an answer. *)
Definition pastQuestion (s : string) : bool := ends_with "でしたか？" s.
Definition presentQuestion (s : string) : bool := ends_with "ですか？" s.
Definition pastAnswer (s : string) : bool :=
  prefix "What date was " s || prefix "What day was " s.
Definition presentAnswer (s : string) : bool :=
  prefix "What date is " s || prefix "What day is " s.

(** The Sunday that begins the week of a day. *)
Definition weekStart (d : Date) : Date := d - getDay d.

(** [target] is a day of the week of [date], Sunday to Saturday, that
    lies in the month of [date]. *)
Definition inWeekOf (date target : Date) : Prop :=
  getFullYear target = getFullYear date /\
  getMonth target = getMonth date /\
  weekStart target = weekStart date.

(** The question and the title of the answer are in the past tense
    exactly when [target] is before [date], and in the present tense
    otherwise. *)
Definition tensed (target date : Date) (question title : string) : Prop :=
  (pastQuestion question = true <-> target < date) /\
  (presentQuestion question = true <-> ~ target < date) /\
  (pastAnswer title = true <-> target < date) /\
  (presentAnswer title = true <-> ~ target < date).

(** *** Reading a numeral back *)

(** [s] without its prefix [p]. *)
Fixpoint strip (p s : string) : option string :=
  match p, s with
  | EmptyString, _ => Some s
  | String a p', String b s' => if Ascii.eqb a b then strip p' s' else None
  | String _ _, EmptyString => None
  end.

(** The digit whose form begins [s], with what follows the form; digit 0
    when no form does. *)
Fixpoint readForm (forms : list (string * Z)) (s : string) : Z * string :=
  match forms with
  | [] => (0, s)
  | (form, d) :: rest =>
      match strip form s with
      | Some s' => (d, s')
      | None => readForm rest s
      end
  end.

Definition digits : list Z := [1; 2; 3; 4; 5; 6; 7; 8; 9].

(** The number that a numeral written place by place stands for, the
    forms of each place taken from the table. *)
Definition readNumeral (zero : string)
  (form : NumeralSpec.Place -> Z -> string) (s : string) : Z :=
  if String.eqb s zero then 0
  else
    let forms p := map (fun d => (form p d, d)) digits in
    let '(a, s) := readForm (forms NumeralSpec.Thousands) s in
    let '(b, s) := readForm (forms NumeralSpec.Hundreds) s in
    let '(c, s) := readForm (forms NumeralSpec.Tens) s in
    let '(d, _) := readForm (forms NumeralSpec.Ones) s in
    1000 * a + 100 * b + 10 * c + d.

Definition readKanji : string -> Z :=
  readNumeral "零" NumeralSpec.logographicPlace.
Definition readHiragana : string -> Z :=
  readNumeral "れい" NumeralSpec.phoneticPlace.
(** *** The day and month templates *)

(** The five day-of-week templates, with the offset in days and the
    title of the answer. *)
Definition weekdayTemplates : list (Question * Z * string) := [
  (weekdayBeforeYesterday, -2, "What day was it the day before yesterday?");
  (weekdayYesterday, -1, "What day was it yesterday?");
  (weekdayToday, 0, "What day is it today?");
  (weekdayTomorrow, 1, "What day is it tomorrow?");
  (weekdayAfterTomorrow, 2, "What day is it the day after tomorrow?")
].

(** The five day-of-month templates, with the offset in days and the
    title of the answer. *)
Definition dateTemplates : list (Question * Z * string) := [
  (dateBeforeYesterday, -2, "What date was it the day before yesterday?");
  (dateYesterday, -1, "What date was it yesterday?");
  (dateToday, 0, "What date is it today?");
  (dateTomorrow, 1, "What date is it tomorrow?");
  (dateAfterTomorrow, 2, "What date is it the day after tomorrow?")
].

(** The answer that joins a title and the three renderings of an entry. *)
Definition entryAnswer (title : string) (e : Entry) : list Node :=
  [h "span" "" [] [Text (joinWithArrow [title; english e; kanji e; hiragana e])]].
(** *** The week grid in closed form *)

(** The slot [k] of row [r] of the grid of a month of [n] days whose
    first day is [first]: the days are laid out from the weekday of the
    first day on, seven to a row. *)
Definition gridCell (first : Date) (n : Z) (r k : nat) : option Date :=
  let i := 7 * Z.of_nat r + Z.of_nat k - getDay first in
  if (0 <=? i) && (i <? n) then Some (first + i) else None.

Definition gridRow (first : Date) (n : Z) (r : nat) : Week :=
  map (gridCell first n r) (seq 0 7).

Definition grid (first : Date) (n : Z) : list Week :=
  map (gridRow first n) (seq 0 (Z.to_nat ((getDay first + n + 6) / 7))).
(** *** The week-relative templates *)


(** A seed is a number of the unit interval, or is left out. *)
Definition seed_in_unit (seed : option Q) : Prop :=
  match seed with
  | Some s => (0 <= s < 1)%Q
  | None => True
  end.

(** The count of [Math.random()] calls after a pick with [seed]. *)
Definition after_pick (seed : option Q) (n : nat) : nat :=
  match seed with
  | Some _ => n
  | None => S n
  end.
(** *** The calendar view *)

(** The number of elements of a display tree whose class is
    [className]. *)
Fixpoint classCount (className : string) (node : Node) : nat :=
  match node with
  | Text _ => 0%nat
  | Element _ attributes children =>
      ((match attributes with
        | (name, value) :: _ =>
            if String.eqb name "class" && String.eqb value className
            then 1 else 0
        | [] => 0
        end)
       + list_sum (map (classCount className) children))%nat
  end.

(** The first text leaf of a display tree. *)
Definition firstText (node : Node) : option string := hd_error (textsOf node).

(** The text leaves under the elements of a display tree whose class is
    [className], in order. *)
Fixpoint textsOfClass (className : string) (node : Node) : list string :=
  match node with
  | Text _ => []
  | Element _ attributes children =>
      ((match attributes with
        | (name, value) :: _ =>
            if String.eqb name "class" && String.eqb value className
            then flat_map textsOf children else []
        | [] => []
        end)
       ++ flat_map (textsOfClass className) children)%list
  end.
(** *** A session *)

(** The question, and the answer, of a template are produced on [date]
    under [env], with a seed of the unit interval or none. *)
Definition asks (date : Date) (env : Ambient) (q : Question) : Prop :=
  forall seed n, seed_in_unit seed ->
    exists nodes n', createQuestion q date seed env n = Normal (nodes, n').

Definition replies (date : Date) (env : Ambient) (q : Question) : Prop :=
  forall seed n, seed_in_unit seed ->
    exists nodes n', answer q date seed env n = Normal (nodes, n').

(** The answer host of a question whose answers are shown. *)
Definition shown (host : list Node) : Prop :=
  exists answers,
    host = [h "blockquote" "question--answers" [] [
              h "div" "question--answer-effect" [] [];
              h "div" "question--answer" []
                (h "p" "question--answer-title" [] [Text "Answer:"]
                 :: answers)]].

(** A run in December 2019: the second draw selects the month. *)
Definition december_env : Ambient :=
  {| Math_random_draws := fun n => match n with
                                   | 1%nat => (11 # 12)%Q
                                   | _ => 0%Q
                                   end;
     wall_clock := newDate 2019 11 15 |}.

(* ================================================================== *)
(** ** Properties *)

(** Conversion leaves the calendar arithmetic folded for as long as it
    can: on a symbolic date its unfolding is large. *)
Strategy 100 [DayFromYear DaysInYear YearFromTime InLeapYear DayWithinYear
              MonthFromTime DateFromTime WeekDay MonthStart MakeDay newDate
              getFullYear getMonth getDate getDay setDate getWeeks].

(** *** The calendar *)

Module Calendar.
Import CalendarSpec.

Lemma DaysInYear_cases y : DaysInYear y = 365 \/ DaysInYear y = 366.
Proof.
  unfold DaysInYear.
  destruct (y mod 400 =? 0), (y mod 100 =? 0), (y mod 4 =? 0); auto.
Qed.

(** A year is as long as [DaysInYear] says. *)
Lemma DayFromYear_succ y : DayFromYear (y + 1) = DayFromYear y + DaysInYear y.
Proof.
  unfold DayFromYear, DaysInYear.
  destruct (Z.eqb_spec (y mod 400) 0) as [E400|E400];
    [|destruct (Z.eqb_spec (y mod 100) 0) as [E100|E100];
      [|destruct (Z.eqb_spec (y mod 4) 0) as [E4|E4]]];
    Z.div_mod_to_equations; lia.
Qed.

(** [YearFromTime] finds the year whose days include [t]. *)
Lemma YearFromTime_unique y t :
  DayFromYear y <= t < DayFromYear (y + 1) -> YearFromTime t = y.
Proof.
  intros [Hlo Hhi].
  assert (Hnext : DayFromYear (y + 1) < DayFromYear (y + 1 + 1)).
  { rewrite (DayFromYear_succ (y + 1)).
    destruct (DaysInYear_cases (y + 1)); lia. }
  unfold YearFromTime.
  set (y0 := 1970 + 400 * t / 146097).
  assert (Hy0 : y - 1 <= y0 <= y + 1).
  { subst y0. unfold DayFromYear in Hlo, Hhi.
    Z.div_mod_to_equations. lia. }
  assert (Hc : y0 = y - 1 \/ y0 = y \/ y0 = y + 1) by lia.
  destruct Hc as [-> | [-> | ->]].
  - replace (y - 1 + 1) with y by lia.
    destruct (Z.leb_spec (DayFromYear y) t); lia.
  - destruct (Z.leb_spec (DayFromYear (y + 1)) t); [lia|].
    destruct (Z.leb_spec (DayFromYear y) t); lia.
  - destruct (Z.leb_spec (DayFromYear (y + 1 + 1)) t); [lia|].
    destruct (Z.leb_spec (DayFromYear (y + 1)) t); lia.
Qed.

Lemma leap_flag y :
  (if DaysInYear y =? 366 then 1 else 0) = (if isLeap y then 1 else 0).
Proof.
  unfold DaysInYear, isLeap.
  destruct (Z.eqb_spec (y mod 400) 0), (Z.eqb_spec (y mod 100) 0),
    (Z.eqb_spec (y mod 4) 0); simpl; try reflexivity;
    exfalso; Z.div_mod_to_equations; lia.
Qed.

Lemma DaysInYear_leap y : DaysInYear y = 365 + (if isLeap y then 1 else 0).
Proof.
  rewrite <- leap_flag. destruct (DaysInYear_cases y) as [-> | ->]; reflexivity.
Qed.

Lemma month_cases m :
  0 <= m <= 11 ->
  m = 0 \/ m = 1 \/ m = 2 \/ m = 3 \/ m = 4 \/ m = 5 \/ m = 6 \/ m = 7 \/
  m = 8 \/ m = 9 \/ m = 10 \/ m = 11.
Proof. lia. Qed.

Ltac each_month H :=
  destruct (month_cases _ H) as
    [-> | [-> | [-> | [-> | [-> | [-> | [-> | [-> | [-> | [-> | [-> | ->]]]]]]]]]]].

Ltac decide_ltb :=
  repeat match goal with
         | |- context [?a <? ?b] =>
             first [ rewrite (proj2 (Z.ltb_lt a b)) by lia
                   | rewrite (proj2 (Z.ltb_ge a b)) by lia ]
         end.

Lemma MakeDay_in_year y m d :
  0 <= m <= 11 -> 1 <= d <= daysIn y m ->
  MakeDay y m d = DayFromYear y + MonthStart (if isLeap y then 1 else 0) m + d - 1 /\
  DayFromYear y <= MakeDay y m d < DayFromYear (y + 1).
Proof.
  intros Hm Hd.
  assert (E : MakeDay y m d
              = DayFromYear y + MonthStart (if isLeap y then 1 else 0) m + d - 1).
  { unfold MakeDay. rewrite Z.div_small, Z.mod_small by lia.
    rewrite Z.add_0_r, leap_flag. reflexivity. }
  split; [exact E|].
  rewrite E, DayFromYear_succ, DaysInYear_leap.
  revert Hd. clear E.
  each_month Hm; cbv [MonthStart daysIn]; destruct (isLeap y); lia.
Qed.

(** The year, month and day of the month of a date built from them. *)
Lemma civil_fields y m d :
  0 <= m <= 11 -> 1 <= d <= daysIn y m ->
  getFullYear (MakeDay y m d) = y /\
  getMonth (MakeDay y m d) = m /\
  getDate (MakeDay y m d) = d.
Proof.
  intros Hm Hd.
  destruct (MakeDay_in_year y m d Hm Hd) as [E Hr].
  assert (Hy : YearFromTime (MakeDay y m d) = y)
    by (apply YearFromTime_unique; exact Hr).
  assert (Hw : DayWithinYear (MakeDay y m d)
               = MonthStart (if isLeap y then 1 else 0) m + d - 1)
    by (unfold DayWithinYear; rewrite Hy, E; lia).
  assert (Hl : InLeapYear (MakeDay y m d) = if isLeap y then 1 else 0)
    by (unfold InLeapYear; rewrite Hy; apply leap_flag).
  assert (Hmo : MonthFromTime (MakeDay y m d) = m).
  { unfold MonthFromTime. rewrite Hw, Hl. revert Hd. clear - Hm.
    each_month Hm; cbv [MonthStart daysIn]; destruct (isLeap y); intros Hd;
      decide_ltb; reflexivity. }
  unfold getFullYear, getMonth, getDate.
  split; [exact Hy|]. split; [exact Hmo|].
  unfold DateFromTime. rewrite Hmo, Hw, Hl. clear - Hm.
  each_month Hm; cbv [MonthStart]; lia.
Qed.

(** Every day lies in the year that [YearFromTime] gives it. *)
Lemma YearFromTime_spec t :
  DayFromYear (YearFromTime t) <= t < DayFromYear (YearFromTime t + 1).
Proof.
  unfold YearFromTime.
  set (y0 := 1970 + 400 * t / 146097).
  assert (Hb : DayFromYear (y0 - 1) <= t < DayFromYear (y0 + 1 + 1)).
  { subst y0. unfold DayFromYear. Z.div_mod_to_equations. lia. }
  pose proof (DayFromYear_succ (y0 - 1)) as H1.
  replace (y0 - 1 + 1) with y0 in * by lia.
  destruct (Z.leb_spec (DayFromYear (y0 + 1)) t); [lia|].
  destruct (Z.leb_spec (DayFromYear y0) t); [lia|].
  replace (y0 - 1 + 1) with y0 by lia. lia.
Qed.

Lemma DayWithinYear_range t :
  0 <= DayWithinYear t < 365 + InLeapYear t /\ 0 <= InLeapYear t <= 1.
Proof.
  pose proof (YearFromTime_spec t) as H.
  rewrite DayFromYear_succ in H.
  unfold DayWithinYear, InLeapYear.
  destruct (DaysInYear_cases (YearFromTime t)) as [E|E]; rewrite E in *;
    simpl; lia.
Qed.

Lemma getDate_range t : 1 <= getDate t <= 31.
Proof.
  unfold getDate, DateFromTime, MonthFromTime.
  destruct (DayWithinYear_range t) as [Hd Hl].
  revert Hd Hl. generalize (DayWithinYear t), (InLeapYear t).
  intros d l Hd Hl.
  repeat match goal with
         | |- context [?a <? ?b] =>
             destruct (Z.ltb_spec a b); [cbv iota; lia|]
         end.
  cbv iota. lia.
Qed.

End Calendar.

(** *** The week grid *)

Module WeekGrid.
Import CalendarSpec Calendar.

Lemma filter_dates_none {T} (l : list (option T)) :
  (forall k, (k < List.length l)%nat -> nth_error l k = Some None) ->
  filter_dates l = [].
Proof.
  induction l as [|x r IH]; intros H; [reflexivity|].
  assert (Hx : x = None) by (specialize (H O); simpl in H; injection H; [auto | lia]).
  subst x. simpl. apply IH. intros k Hk. apply (H (S k)). simpl. lia.
Qed.

(** Filling the first free slot of a row appends to its dates. *)
Lemma filter_dates_update {T} (l : list (option T)) n d :
  (n < List.length l)%nat ->
  (forall k, (n <= k < List.length l)%nat -> nth_error l k = Some None) ->
  filter_dates (update_nth l n (Some d)) = (filter_dates l ++ [d])%list.
Proof.
  revert n. induction l as [|x r IH]; intros n Hn H; [simpl in Hn; lia|].
  destruct n as [|n].
  - assert (Hall : filter_dates (x :: r) = []).
    { apply filter_dates_none. intros k Hk. apply H. lia. }
    simpl. destruct x as [x|]; simpl in Hall; [discriminate|].
    rewrite Hall. reflexivity.
  - simpl. rewrite IH.
    + destruct x; reflexivity.
    + simpl in Hn. lia.
    + intros k Hk. apply (H (S k)). simpl. lia.
Qed.

Lemma update_nth_length {T} (l : list T) n v :
  List.length (update_nth l n v) = List.length l.
Proof.
  revert n; induction l as [|x r IH]; intros [|n]; simpl; auto.
Qed.

Lemma nth_error_update_nth {T} (l : list T) n v k :
  nth_error (update_nth l n v) k =
  if Nat.eqb k n then (if Nat.ltb n (List.length l) then Some v else None)
  else nth_error l k.
Proof.
  revert n k; induction l as [|x r IH]; intros [|n] [|k]; simpl; auto.
  destruct (Nat.eqb k n); reflexivity.
Qed.

Lemma getDay_range d : 0 <= getDay d <= 6.
Proof. unfold getDay, WeekDay. pose proof (Z.mod_pos_bound (d + 4) 7). lia. Qed.

Lemma getDay_succ d :
  getDay (d + 1) = if getDay d =? 6 then 0 else getDay d + 1.
Proof.
  unfold getDay, WeekDay.
  destruct (Z.eqb_spec ((d + 4) mod 7) 6); Z.div_mod_to_equations; lia.
Qed.

Lemma array_set_row (week : Week) d :
  List.length week = 7%nat ->
  array_set week (getDay d) (Some d)
  = update_nth week (Z.to_nat (getDay d)) (Some d).
Proof.
  intros Hl. unfold array_set, len. pose proof (getDay_range d).
  rewrite Hl.
  destruct (Z.ltb_spec (getDay d) 0); [lia|].
  destruct (Z.ltb_spec (getDay d) (Z.of_nat 7)); [reflexivity|lia].
Qed.

Lemma by_weekday_update week d :
  by_weekday week ->
  by_weekday (update_nth week (Z.to_nat (getDay d)) (Some d)).
Proof.
  intros [Hl Hs]. split; [rewrite update_nth_length; exact Hl|].
  intros k d' Hk. rewrite nth_error_update_nth in Hk.
  pose proof (getDay_range d).
  destruct (Nat.eqb_spec k (Z.to_nat (getDay d))) as [->|].
  - destruct (Nat.ltb _ _); [|discriminate].
    injection Hk as <-. lia.
  - apply Hs. exact Hk.
Qed.

Lemma open_from_update week d :
  List.length week = 7%nat ->
  open_from (Z.to_nat (getDay d)) week ->
  open_from (S (Z.to_nat (getDay d))) (update_nth week (Z.to_nat (getDay d)) (Some d)).
Proof.
  intros Hl Ho k Hk. rewrite update_nth_length in Hk.
  rewrite nth_error_update_nth.
  destruct (Nat.eqb_spec k (Z.to_nat (getDay d))); [lia|].
  apply Ho. lia.
Qed.

Lemma by_weekday_empty : by_weekday emptyWeek.
Proof.
  split; [reflexivity|].
  intros k d H. do 7 (destruct k as [|k]; [discriminate|]).
  destruct k; discriminate.
Qed.

Lemma open_from_empty : open_from 0 emptyWeek.
Proof.
  intros k Hk. simpl in Hk.
  do 7 (destruct k as [|k]; [reflexivity|]). lia.
Qed.

(** The loop of [getWeeks] on a run of consecutive days: the rows it
    adds hold the days of the run in order, after those of the row under
    construction, each in the slot of its weekday. *)
Lemma getWeeks_loop_spec c n : forall a weeks currentWeek,
  Forall by_weekday weeks ->
  by_weekday currentWeek ->
  open_from (Z.to_nat (getDay (c + Z.of_nat a))) currentWeek ->
  (n = O -> filter_dates currentWeek = []) ->
  let result := getWeeks_loop (run_of c a n) weeks currentWeek in
  Forall by_weekday result /\
  flat (map filter_dates result)
  = (flat (map filter_dates weeks) ++ filter_dates currentWeek ++ run_of c a n)%list.
Proof.
  induction n as [|n IH]; intros a weeks cw Hw Hcw Hopen Hnil.
  - simpl. split; [exact Hw|]. rewrite Hnil by reflexivity.
    rewrite !app_nil_r. reflexivity.
  - cbn zeta. unfold run_of. simpl seq. simpl map. fold (run_of c (S a) n).
    set (day := c + Z.of_nat a) in *.
    assert (Hnext : c + Z.of_nat (S a) = day + 1) by (subst day; lia).
    simpl getWeeks_loop.
    destruct Hcw as [Hlen Hslots].
    rewrite array_set_row by exact Hlen.
    set (cw' := update_nth cw (Z.to_nat (getDay day)) (Some day)).
    assert (Hcw' : by_weekday cw') by (apply by_weekday_update; split; assumption).
    assert (Hf : filter_dates cw' = (filter_dates cw ++ [day])%list).
    { apply filter_dates_update; [|exact Hopen].
      pose proof (getDay_range day). lia. }
    assert (Hflush : forall weeks',
               weeks' = (weeks ++ [cw'])%list ->
               (n = O \/ getDay day = 6) ->
               Forall by_weekday (getWeeks_loop (run_of c (S a) n) weeks' emptyWeek) /\
               flat (map filter_dates (getWeeks_loop (run_of c (S a) n) weeks' emptyWeek))
               = (flat (map filter_dates weeks) ++ filter_dates cw ++ day :: run_of c (S a) n)%list).
    { intros weeks' -> Hc.
      destruct (IH (S a) (weeks ++ [cw'])%list emptyWeek) as [H1 H2].
      - apply Forall_app. split; [exact Hw|]. constructor; [exact Hcw'|constructor].
      - exact by_weekday_empty.
      - destruct Hc as [-> | H6].
        + intros k Hk. apply open_from_empty. lia.
        + rewrite Hnext, getDay_succ, H6. simpl. exact open_from_empty.
      - reflexivity.
      - split; [exact H1|]. rewrite H2.
        unfold flat. rewrite map_app, concat_app. simpl.
        rewrite Hf. rewrite app_nil_r. rewrite <- !app_assoc. reflexivity. }
    assert (Hlast : match run_of c (S a) n with [] => true | _ :: _ => false end
                    = Nat.eqb n 0) by (destruct n; reflexivity).
    rewrite Hlast.
    destruct (Z.eqb_spec (getDay day) 6) as [H6|H6]; simpl orb.
    + apply Hflush; auto.
    + destruct (Nat.eqb_spec n 0) as [Hn|Hn].
      * apply Hflush; auto.
      * destruct (IH (S a) weeks cw') as [H1 H2]; auto.
        -- rewrite Hnext, getDay_succ.
           destruct (Z.eqb_spec (getDay day) 6); [contradiction|].
           pose proof (getDay_range day).
           replace (Z.to_nat (getDay day + 1)) with (S (Z.to_nat (getDay day))) by lia.
           apply open_from_update; assumption.
        -- intros ->. contradiction.
        -- split; [exact H1|]. etransitivity; [exact H2|].
           rewrite Hf, <- !app_assoc. reflexivity.
Qed.

Lemma getMonth_range t : 0 <= getMonth t <= 11.
Proof.
  unfold getMonth, MonthFromTime.
  repeat match goal with
         | |- context [if ?b then _ else _] => destruct b; try lia
         end.
Qed.

Lemma newDate_MakeDay y m d :
  ~ (0 <= y <= 99) -> newDate y m d = MakeDay y m d.
Proof.
  intros H. unfold newDate.
  destruct (Z.leb_spec 0 y), (Z.leb_spec y 99); simpl; try reflexivity; lia.
Qed.

Lemma MakeDay_shift y m d : MakeDay y m d = MakeDay y m 0 + d.
Proof. unfold MakeDay. lia. Qed.

(** Day 0 of the next month is the last day of the month. *)
Lemma MakeDay_month_end y m :
  0 <= m <= 11 -> MakeDay y (m + 1) 0 = MakeDay y m (daysIn y m).
Proof.
  intros Hm. unfold MakeDay.
  destruct (Z.eq_dec m 11) as [->|Hne].
  - change ((11 + 1) / 12) with 1. change ((11 + 1) mod 12) with 0.
    change (11 / 12) with 0. change (11 mod 12) with 11.
    replace (y + 0) with y by lia.
    rewrite !leap_flag, DayFromYear_succ, DaysInYear_leap.
    cbv [MonthStart daysIn]. destruct (isLeap y), (isLeap (y + 1)); lia.
  - rewrite !Z.div_small, !Z.mod_small by lia.
    replace (y + 0) with y by lia. rewrite leap_flag.
    each_month Hm; try lia; unfold MonthStart, daysIn; simpl;
      destruct (isLeap y); lia.
Qed.

Lemma daysIn_pos y m : 28 <= daysIn y m <= 31.
Proof.
  unfold daysIn. destruct (isLeap y);
    repeat match goal with
           | |- context [match ?x with _ => _ end] => destruct x
           end; lia.
Qed.

Lemma calendarDays_run y m :
  ~ (0 <= y <= 99) ->
  calendarDays y m = run_of (MakeDay y m 0) 1 (Z.to_nat (daysIn y m)).
Proof.
  intros Hy. unfold calendarDays, run_of. apply map_ext. intros i.
  rewrite newDate_MakeDay by exact Hy. apply MakeDay_shift.
Qed.

Lemma getWeeks_unfold date :
  ~ (0 <= getFullYear date <= 99) ->
  getWeeks date
  = getWeeks_loop (calendarDays (getFullYear date) (getMonth date)) [] emptyWeek.
Proof.
  intros Hy. unfold getWeeks, calendarDays.
  pose proof (getMonth_range date) as Hm.
  rewrite (newDate_MakeDay _ (getMonth date + 1) 0) by exact Hy.
  rewrite MakeDay_month_end by exact Hm.
  pose proof (daysIn_pos (getFullYear date) (getMonth date)).
  destruct (civil_fields (getFullYear date) (getMonth date)
              (daysIn (getFullYear date) (getMonth date))) as (_ & _ & ->);
    [exact Hm | lia | reflexivity].
Qed.

Lemma run_of_NoDup c a n : NoDup (run_of c a n).
Proof.
  unfold run_of. apply Injective_map_NoDup.
  - intros i j. lia.
  - apply seq_NoDup.
Qed.

(** The rows of [getWeeks] and their dates. *)
Lemma getWeeks_grid date :
  ~ (0 <= getFullYear date <= 99) ->
  Forall by_weekday (getWeeks date) /\
  flat (map filter_dates (getWeeks date))
  = calendarDays (getFullYear date) (getMonth date).
Proof.
  intros Hy. pose proof (getMonth_range date) as Hm.
  rewrite getWeeks_unfold by exact Hy.
  set (y := getFullYear date) in *. set (m := getMonth date) in *.
  rewrite calendarDays_run by exact Hy.
  pose proof (daysIn_pos y m) as Hd.
  destruct (getWeeks_loop_spec (MakeDay y m 0) (Z.to_nat (daysIn y m))
              1 [] emptyWeek) as [H1 H2].
  - constructor.
  - exact by_weekday_empty.
  - intros k Hk. apply open_from_empty. lia.
  - intros H0. lia.
  - split; [exact H1|]. rewrite H2. reflexivity.
Qed.

Lemma calendarDays_nth y m i :
  1 <= i <= daysIn y m ->
  nth_error (calendarDays y m) (Z.to_nat (i - 1)) = Some (newDate y m i).
Proof.
  intros Hi. unfold calendarDays. rewrite nth_error_map, nth_error_seq.
  destruct (Nat.ltb_spec (Z.to_nat (i - 1)) (Z.to_nat (daysIn y m))); [|lia].
  simpl. f_equal. f_equal. lia.
Qed.

Lemma getWeeks_complete (date : Date) :
  ~ (0 <= getFullYear date <= 99) -> complete_grid date.
Proof.
  intros Hy. unfold complete_grid.
  pose proof (getMonth_range date) as Hm.
  destruct (getWeeks_grid date Hy) as [Hrows Hcat].
  set (y := getFullYear date) in *. set (m := getMonth date) in *.
  split; [exact Hcat|].
  split; [rewrite Hcat, calendarDays_run by exact Hy; apply run_of_NoDup|].
  split; [exact Hrows|].
  split; [unfold calendarDays; rewrite length_map, length_seq; reflexivity|].
  intros i Hi. split; [apply calendarDays_nth; exact Hi|].
  rewrite newDate_MakeDay by exact Hy. apply civil_fields; assumption.
Qed.

Lemma newDate_year year month :
  0 <= month <= 11 -> ~ (0 <= getFullYear (newDate year month 1) <= 99).
Proof.
  intros Hm. unfold newDate. cbv zeta.
  assert (Hyr : ~ (0 <= (if (0 <=? year) && (year <=? 99)
                         then 1900 + year else year) <= 99))
    by (destruct (Z.leb_spec 0 year), (Z.leb_spec year 99); cbn [andb]; lia).
  revert Hyr.
  generalize (if (0 <=? year) && (year <=? 99) then 1900 + year else year).
  intros yr Hyr.
  pose proof (daysIn_pos yr month) as Hd.
  destruct (civil_fields yr month 1 Hm ltac:(lia)) as (-> & _).
  exact Hyr.
Qed.

(** C5.  The week grid that [getWeeks] builds is complete: for every
    year and month index, the non-empty slots of the rows of the grid of
    [new Date(year, month, 1)], read row after row, are the days of the
    month of that date in calendar order, each once, every row has seven
    slots and every day sits in the slot of its weekday (Sunday = 0).
    The same holds of the grid of any date whose year is not one of the
    two-digit years that the [Date] constructor reads as 1900 + year. *)
Theorem week_grid_complete :
  (forall year month,
     0 <= month <= 11 -> complete_grid (newDate year month 1)) /\
  (forall date, ~ (0 <= getFullYear date <= 99) -> complete_grid date).
Proof.
  split.
  - intros year month Hm. apply getWeeks_complete, newDate_year, Hm.
  - exact getWeeks_complete.
Qed.

Lemma week_grid_complete_witness :
  0 <= 5 <= 11 /\ complete_grid (newDate 2024 5 1).
Proof.
  split; [lia|]. apply (proj1 week_grid_complete 2024 5). lia.
Defined.

(** September 2024 begins on a Sunday and June 2024 on a Saturday: the
    grids, as days of the month. *)
Example grid_of_month_from_sunday :
  map (map (option_map getDate)) (getWeeks (newDate 2024 8 1)) =
  [[Some 1; Some 2; Some 3; Some 4; Some 5; Some 6; Some 7];
   [Some 8; Some 9; Some 10; Some 11; Some 12; Some 13; Some 14];
   [Some 15; Some 16; Some 17; Some 18; Some 19; Some 20; Some 21];
   [Some 22; Some 23; Some 24; Some 25; Some 26; Some 27; Some 28];
   [Some 29; Some 30; None; None; None; None; None]].
Proof. vm_compute. reflexivity. Qed.

Example grid_of_month_from_saturday :
  map (map (option_map getDate)) (getWeeks (newDate 2024 5 1)) =
  [[None; None; None; None; None; None; Some 1];
   [Some 2; Some 3; Some 4; Some 5; Some 6; Some 7; Some 8];
   [Some 9; Some 10; Some 11; Some 12; Some 13; Some 14; Some 15];
   [Some 16; Some 17; Some 18; Some 19; Some 20; Some 21; Some 22];
   [Some 23; Some 24; Some 25; Some 26; Some 27; Some 28; Some 29];
   [Some 30; None; None; None; None; None; None]].
Proof. vm_compute. reflexivity. Qed.

End WeekGrid.

(** *** Numerals and eras *)

Module Numerals.
Import NumeralSpec.

Lemma digit_cases d :
  0 <= d <= 9 ->
  d = 0 \/ d = 1 \/ d = 2 \/ d = 3 \/ d = 4 \/ d = 5 \/ d = 6 \/ d = 7 \/
  d = 8 \/ d = 9.
Proof. lia. Qed.

Ltac each_digit H :=
  destruct (digit_cases _ H) as
    [-> | [-> | [-> | [-> | [-> | [-> | [-> | [-> | [-> | ->]]]]]]]]].

Lemma digits_of n :
  0 <= n <= 9999 ->
  Math_floor_div n 1000 = digitAt Thousands n /\
  Math_floor_div (js_rem n 1000) 100 = digitAt Hundreds n /\
  Math_floor_div (js_rem n 100) 10 = digitAt Tens n /\
  js_rem n 10 = digitAt Ones n /\
  0 <= digitAt Thousands n <= 9 /\ 0 <= digitAt Hundreds n <= 9 /\
  0 <= digitAt Tens n <= 9 /\ 0 <= digitAt Ones n <= 9.
Proof.
  intros Hn. unfold Math_floor_div, js_rem, digitAt.
  rewrite !Z.rem_mod_nonneg by lia.
  repeat split; Z.div_mod_to_equations; lia.
Qed.

Lemma append_nil_r s : s ++ "" = s.
Proof. induction s as [|c s IH]; simpl; [|rewrite IH]; reflexivity. Qed.

Lemma append_assoc s t u : (s ++ t) ++ u = s ++ t ++ u.
Proof. induction s as [|c s IH]; simpl; [|rewrite IH]; reflexivity. Qed.

(** One place of [toKanji] appends what the table gives for it. *)
Lemma toKanji_place p glyph k d :
  In (p, glyph) [(Thousands, "千"); (Hundreds, "百"); (Tens, "十")] ->
  0 <= d <= 9 ->
  (if d >? 0
   then k ++ (if d =? 1 then "" else coerce (kanjiSubs d)) ++ glyph
   else k)
  = k ++ logographicPlace p d.
Proof.
  intros Hp Hd.
  assert (Hg : glyph = placeGlyph p /\ p <> Ones).
  { simpl in Hp.
    destruct Hp as [E | [E | [E | []]]]; inversion E; split;
      (reflexivity || discriminate). }
  destruct Hg as [-> Hne].
  each_digit Hd; destruct p; try contradiction;
    first [ symmetry; apply append_nil_r | reflexivity ].
Qed.

Lemma toKanji_ones k d :
  0 <= d <= 9 ->
  (if d >? 0 then k ++ coerce (kanjiSubs d) else k)
  = k ++ logographicPlace Ones d.
Proof.
  intros Hd.
  each_digit Hd; first [ symmetry; apply append_nil_r | reflexivity ].
Qed.

Lemma toHiragana_thousands k d :
  0 <= d <= 9 ->
  (if d >? 0
   then match d with
        | 1 => k ++ "せん"
        | 3 => k ++ "さんぜん"
        | 8 => k ++ "はっせん"
        | _ => k ++ coerce (hiraganaSubs d) ++ "せん"
        end
   else k)
  = k ++ phoneticPlace Thousands d.
Proof.
  intros Hd.
  each_digit Hd; first [ symmetry; apply append_nil_r | reflexivity ].
Qed.

Lemma toHiragana_hundreds k d :
  0 <= d <= 9 ->
  (if d >? 0
   then match d with
        | 1 => k ++ "ひゃく"
        | 3 => k ++ "さんびゃく"
        | 6 => k ++ "ろっぴゃく"
        | 8 => k ++ "はっぴゃく"
        | _ => k ++ coerce (hiraganaSubs d) ++ "ひゃく"
        end
   else k)
  = k ++ phoneticPlace Hundreds d.
Proof.
  intros Hd.
  each_digit Hd; first [ symmetry; apply append_nil_r | reflexivity ].
Qed.

Lemma toHiragana_tens k d :
  0 <= d <= 9 ->
  (if d >? 0
   then k ++ (if d =? 1 then "" else coerce (hiraganaSubs d)) ++ "じゅう"
   else k)
  = k ++ phoneticPlace Tens d.
Proof.
  intros Hd.
  each_digit Hd; first [ symmetry; apply append_nil_r | reflexivity ].
Qed.

Lemma toHiragana_ones k d :
  0 <= d <= 9 ->
  (if d >? 0 then k ++ coerce (hiraganaSubs d) else k)
  = k ++ phoneticPlace Ones d.
Proof.
  intros Hd.
  each_digit Hd; first [ symmetry; apply append_nil_r | reflexivity ].
Qed.

Lemma toKanji_rules n : 0 <= n <= 9999 -> toKanji n = logographic n.
Proof.
  intros Hn. unfold toKanji, logographic.
  destruct (Z.eqb_spec n 0); [reflexivity|].
  destruct (digits_of n Hn) as (-> & -> & -> & -> & H1 & H2 & H3 & H4).
  cbv zeta.
  rewrite (toKanji_place Thousands "千"), (toKanji_place Hundreds "百"),
    (toKanji_place Tens "十"), toKanji_ones
    by (first [assumption | simpl; auto]).
  rewrite !append_assoc. reflexivity.
Qed.

Lemma toHiragana_rules n : 0 <= n <= 9999 -> toHiragana n = phonetic n.
Proof.
  intros Hn. unfold toHiragana, phonetic.
  destruct (Z.eqb_spec n 0); [reflexivity|].
  destruct (digits_of n Hn) as (-> & -> & -> & -> & H1 & H2 & H3 & H4).
  cbv zeta.
  rewrite toHiragana_thousands, toHiragana_hundreds, toHiragana_tens,
    toHiragana_ones by assumption.
  rewrite !append_assoc. reflexivity.
Qed.

(** C6.  For every integer from 0 to 9999, [toKanji] and [toHiragana]
    produce what the place-value rules give: the special literals for
    zero; in kanji a digit 1 in the thousands, hundreds or tens place
    writes the place glyph alone, larger digits prefix their glyph, and
    the ones place writes the bare digit; in hiragana the contractions
    for thousands digit 3 and 8 and hundreds digit 3, 6 and 8, with
    digit 1 unprefixed.  The table of known values is produced exactly. *)
Theorem numeral_localizer_rules :
  (forall n, 0 <= n <= 9999 ->
     toKanji n = logographic n /\ toHiragana n = phonetic n) /\
  (toKanji 0 = "零" /\ toHiragana 0 = "れい") /\
  (toKanji 100 = "百" /\ toHiragana 100 = "ひゃく") /\
  (toKanji 300 = "三百" /\ toHiragana 300 = "さんびゃく") /\
  (toKanji 1000 = "千" /\ toHiragana 1000 = "せん") /\
  (toKanji 3000 = "三千" /\ toHiragana 3000 = "さんぜん") /\
  (toKanji 2024 = "二千二十四" /\ toHiragana 2024 = "にせんにじゅうよん").
Proof.
  split.
  - intros n Hn. split; [apply toKanji_rules | apply toHiragana_rules]; exact Hn.
  - repeat split; reflexivity.
Qed.

Lemma numeral_localizer_rules_witness :
  0 <= 8648 <= 9999 /\
  toKanji 8648 = logographic 8648 /\ toHiragana 8648 = phonetic 8648.
Proof.
  split; [lia|].
  apply (proj1 numeral_localizer_rules 8648). lia.
Defined.

Lemma toKanji_negative n : n < 0 -> toKanji n = "".
Proof.
  intros Hn. unfold toKanji, Math_floor_div, js_rem.
  destruct (Z.eqb_spec n 0); [lia|].
  pose proof (Z.rem_nonpos n 1000 ltac:(lia) ltac:(lia)) as R1.
  pose proof (Z.rem_nonpos n 100 ltac:(lia) ltac:(lia)) as R2.
  pose proof (Z.rem_nonpos n 10 ltac:(lia) ltac:(lia)) as R3.
  assert (H1 : (n / 1000 >? 0) = false)
    by (rewrite Z.gtb_ltb; apply Z.ltb_ge; Z.div_mod_to_equations; lia).
  assert (H2 : (Z.rem n 1000 / 100 >? 0) = false)
    by (rewrite Z.gtb_ltb; apply Z.ltb_ge;
        generalize dependent (Z.rem n 1000); intros;
        Z.div_mod_to_equations; lia).
  assert (H3 : (Z.rem n 100 / 10 >? 0) = false)
    by (rewrite Z.gtb_ltb; apply Z.ltb_ge;
        generalize dependent (Z.rem n 100); intros;
        Z.div_mod_to_equations; lia).
  assert (H4 : (Z.rem n 10 >? 0) = false)
    by (rewrite Z.gtb_ltb; apply Z.ltb_ge; lia).
  cbv zeta. rewrite H1, H2, H3, H4. reflexivity.
Qed.

Lemma toHiragana_negative n : n < 0 -> toHiragana n = "".
Proof.
  intros Hn. unfold toHiragana, Math_floor_div, js_rem.
  destruct (Z.eqb_spec n 0); [lia|].
  pose proof (Z.rem_nonpos n 1000 ltac:(lia) ltac:(lia)) as R1.
  pose proof (Z.rem_nonpos n 100 ltac:(lia) ltac:(lia)) as R2.
  pose proof (Z.rem_nonpos n 10 ltac:(lia) ltac:(lia)) as R3.
  assert (H1 : (n / 1000 >? 0) = false)
    by (rewrite Z.gtb_ltb; apply Z.ltb_ge; Z.div_mod_to_equations; lia).
  assert (H2 : (Z.rem n 1000 / 100 >? 0) = false)
    by (rewrite Z.gtb_ltb; apply Z.ltb_ge;
        generalize dependent (Z.rem n 1000); intros;
        Z.div_mod_to_equations; lia).
  assert (H3 : (Z.rem n 100 / 10 >? 0) = false)
    by (rewrite Z.gtb_ltb; apply Z.ltb_ge;
        generalize dependent (Z.rem n 100); intros;
        Z.div_mod_to_equations; lia).
  assert (H4 : (Z.rem n 10 >? 0) = false)
    by (rewrite Z.gtb_ltb; apply Z.ltb_ge; lia).
  cbv zeta. rewrite H1, H2, H3, H4. reflexivity.
Qed.

(** C8.  For every western year, [dynamicYear] returns six strings built
    from the era name, the numerals of the year and of year - 2018, and
    the year suffixes; 2019 gives era year 1 and 2024 era year 6.  An
    era year of 0 or less goes to the numeral converters unchecked: 0
    renders as the zero literal and a negative one as no numeral at all. *)
Theorem era_year_offset :
  (forall year,
     dynamicYear year =
     {| imperialEnglish := "Reiwa " ++ Number_toString (year - 2018);
        imperialKanji := "令和" ++ toKanji (year - 2018) ++ "年";
        imperialHiragana := "れいわ" ++ toHiragana (year - 2018) ++ "ねん";
        westernEnglish := Number_toString year;
        westernKanji := toKanji year ++ "年";
        westernHiragana := toHiragana year ++ "ねん" |}) /\
  dynamicYear 2019 =
    {| imperialEnglish := "Reiwa 1";
       imperialKanji := "令和一年";
       imperialHiragana := "れいわいちねん";
       westernEnglish := "2019";
       westernKanji := "二千十九年";
       westernHiragana := "にせんじゅうきゅうねん" |} /\
  dynamicYear 2024 =
    {| imperialEnglish := "Reiwa 6";
       imperialKanji := "令和六年";
       imperialHiragana := "れいわろくねん";
       westernEnglish := "2024";
       westernKanji := "二千二十四年";
       westernHiragana := "にせんにじゅうよんねん" |} /\
  (imperialEnglish (dynamicYear 2018) = "Reiwa 0" /\
   imperialKanji (dynamicYear 2018) = "令和零年" /\
   imperialHiragana (dynamicYear 2018) = "れいわれいねん") /\
  (imperialEnglish (dynamicYear 2017) = "Reiwa -1") /\
  (forall year, year - 2018 < 0 ->
     imperialKanji (dynamicYear year) = "令和年" /\
     imperialHiragana (dynamicYear year) = "れいわねん").
Proof.
  split; [intros year; reflexivity|].
  do 4 (split; [repeat split; reflexivity|]).
  intros year Hy. unfold dynamicYear. cbn [imperialKanji imperialHiragana].
  rewrite toKanji_negative, toHiragana_negative by exact Hy.
  split; reflexivity.
Qed.

Lemma era_year_offset_witness :
  2000 - 2018 < 0 /\
  imperialKanji (dynamicYear 2000) = "令和年" /\
  imperialHiragana (dynamicYear 2000) = "れいわねん".
Proof.
  split; [lia|].
  apply (proj2 (proj2 (proj2 (proj2 (proj2 era_year_offset)))) 2000). lia.
Defined.
End Numerals.

(** *** Shuffling and sessions *)

Module Session.
Import WeekGrid.
(** [Math.floor(r * k)] is one of 0 .. k - 1 for [r] in the unit interval. *)
Lemma floor_scale r k :
  (0 <= r < 1)%Q -> 0 < k -> 0 <= Qfloor (r * inject_Z k) < k.
Proof.
  intros [H0 H1] Hk.
  assert (Hk' : (inject_Z 0 < inject_Z k)%Q) by (rewrite <- Zlt_Qlt; exact Hk).
  split.
  - rewrite <- (Qfloor_Z 0). apply Qfloor_resp_le.
    apply Qmult_le_0_compat; [exact H0 | apply Qlt_le_weak; exact Hk'].
  - rewrite Zlt_Qlt.
    apply Qle_lt_trans with (r * inject_Z k)%Q; [apply Qfloor_le|].
    rewrite <- (Qmult_1_l (inject_Z k)) at 2.
    apply Qmult_lt_compat_r; assumption.
Qed.

Lemma update_nth_same {T} (l : list T) i a :
  nth_error l i = Some a -> update_nth l i a = l.
Proof.
  revert i; induction l as [|x r IH]; intros [|i] H; simpl in *;
    try discriminate.
  - injection H as ->. reflexivity.
  - rewrite IH by exact H. reflexivity.
Qed.

(** Overwriting the slot that held [a] with [v] trades [a] for [v]. *)
Lemma update_nth_trade {T} (l : list T) i a v :
  nth_error l i = Some a ->
  Permutation (v :: l) (a :: update_nth l i v).
Proof.
  revert i; induction l as [|x r IH]; intros [|i] H; simpl in *;
    try discriminate.
  - injection H as ->. apply perm_swap.
  - apply perm_trans with (x :: v :: r); [apply perm_swap|].
    apply perm_trans with (x :: a :: update_nth r i v);
      [apply perm_skip, IH, H | apply perm_swap].
Qed.

Lemma nth_error_update_other {T} (l : list T) i j v :
  i <> j -> nth_error (update_nth l i v) j = nth_error l j.
Proof.
  revert i j; induction l as [|x r IH]; intros [|i] [|j] H; simpl; auto;
    try contradiction.
Qed.

(** Exchanging two slots permutes the list. *)
Lemma trade_twice_Permutation {T} (l : list T) i j a b :
  nth_error l i = Some a -> nth_error l j = Some b ->
  Permutation l (update_nth (update_nth l i b) j a).
Proof.
  intros Hi Hj.
  destruct (Nat.eq_dec i j) as [<-|Hne].
  - assert (a = b) by congruence. subst b.
    rewrite (update_nth_same l i a Hi), (update_nth_same l i a Hi).
    apply Permutation_refl.
  - apply Permutation_cons_inv with (a := b).
    apply perm_trans with (a :: update_nth l i b).
    + apply update_nth_trade, Hi.
    + apply update_nth_trade.
      rewrite nth_error_update_other by exact Hne. exact Hj.
Qed.

Lemma update_nth_map {A B} (f : A -> B) l i v :
  update_nth (map f l) i (f v) = map f (update_nth l i v).
Proof.
  revert i; induction l as [|x r IH]; intros [|i]; simpl; auto.
  rewrite IH. reflexivity.
Qed.

Lemma array_get_map_Some {T} (l : list T) i :
  0 <= i -> array_get (map Some l) i = nth_error l (Z.to_nat i).
Proof.
  intros Hi. unfold array_get, index.
  destruct (Z.ltb_spec i 0); [lia|].
  rewrite nth_error_map. destruct (nth_error l (Z.to_nat i)); reflexivity.
Qed.

Lemma array_set_map_Some {T} (l : list T) i v :
  0 <= i < len l ->
  array_set (map Some l) i (Some v) = map Some (update_nth l (Z.to_nat i) v).
Proof.
  intros Hi. unfold array_set, len in *. rewrite length_map.
  destruct (Z.ltb_spec i 0); [lia|].
  destruct (Z.ltb_spec i (Z.of_nat (List.length l))); [|lia].
  apply update_nth_map.
Qed.

(** One exchange of the loop of [shuffle], both indices in range. *)
Lemma exchange_step {T} (l : list T) i j :
  0 <= j <= i -> i < len l ->
  exists l',
    array_set (array_set (map Some l) i (array_get (map Some l) j)) j
              (array_get (map Some l) i) = map Some l' /\
    Permutation l l' /\ List.length l' = List.length l.
Proof.
  intros Hj Hi.
  rewrite !array_get_map_Some by lia.
  destruct (nth_error l (Z.to_nat i)) as [a|] eqn:Ea;
    [|apply nth_error_None in Ea; unfold len in Hi; lia].
  destruct (nth_error l (Z.to_nat j)) as [b|] eqn:Eb;
    [|apply nth_error_None in Eb; unfold len in Hi; lia].
  exists (update_nth (update_nth l (Z.to_nat i) b) (Z.to_nat j) a).
  split; [|split].
  - rewrite array_set_map_Some by lia.
    rewrite array_set_map_Some
      by (unfold len in *; rewrite update_nth_length; lia).
    reflexivity.
  - apply trade_twice_Permutation; assumption.
  - rewrite !update_nth_length. reflexivity.
Qed.

(** The loop of [shuffle] keeps every slot filled and permutes them. *)
Lemma shuffle_loop_Permutation {T} env (Hu : unit_interval env) :
  forall currentIndex (l : list T) n,
    (currentIndex <= List.length l)%nat ->
    exists l',
      shuffle_loop currentIndex (map Some l) env n
      = Normal (map Some l', (n + currentIndex)%nat) /\
      Permutation l l'.
Proof.
  induction currentIndex as [|ci IH]; intros l n Hlen.
  - exists l. split; [|apply Permutation_refl].
    simpl. unfold ret. rewrite Nat.add_0_r. reflexivity.
  - pose proof (floor_scale (Math_random_draws env n) (Z.of_nat (S ci)) (Hu n))
      as Hr.
    destruct (exchange_step l (Z.of_nat ci)
                (Qfloor (Math_random_draws env n * inject_Z (Z.of_nat (S ci)))))
      as (l1 & E1 & P1 & L1); [lia | unfold len; lia |].
    destruct (IH l1 (S n)) as (l' & E' & P'); [lia|].
    exists l'. split; [|eapply perm_trans; eassumption].
    cbn [shuffle_loop]. unfold bind at 1. unfold Math_random at 1.
    cbv zeta. rewrite E1, E'. f_equal. f_equal. lia.
Qed.

Lemma shuffle_Permutation {T} env (Hu : unit_interval env) (array : list T) n :
  exists l',
    shuffle array env n = Normal (map Some l', (n + List.length array)%nat) /\
    Permutation array l'.
Proof.
  unfold shuffle. rewrite length_map.
  apply shuffle_loop_Permutation; [exact Hu | lia].
Qed.

(** [map] on empty slots calls nothing and returns empty slots. *)
Lemma Array_map_empty {A B} (callback : A -> JS B) k env n :
  Array_map callback (repeat Empty k) env n = Normal (repeat Empty k, n).
Proof.
  induction k as [|k IH]; [reflexivity|].
  simpl. unfold bind. rewrite IH. reflexivity.
Qed.

Lemma slot_get_empty {A} k i : slot_get (repeat (@Empty A) k) i = None.
Proof.
  unfold slot_get, index. destruct (i <? 0); [reflexivity|].
  destruct (nth_error (repeat Empty k) (Z.to_nat i)) as [x|] eqn:E;
    [|reflexivity].
  apply nth_error_In, repeat_spec in E. subst x. reflexivity.
Qed.

(** What a completed [newTest] did, step by step. *)
Lemma newTest_inv env s :
  run Main.newTest env = Normal s ->
  exists n1 n2 n3,
    Main.generateRandomDate env O = Normal (Some (Main.date s), n1) /\
    shuffle questionGenerator env n1 = Normal (Main.currentQuestions s, n2) /\
    Main.seeds s
    = repeat Empty (Z.to_nat (len (Main.currentQuestions s))) /\
    Questions (Main.currentQuestions s) (Main.seeds s) (Main.date s) env n2
    = Normal ((Main.questionHost s, Main.showHideAnswersFunction s), n3) /\
    Main.showAnswers s = false.
Proof.
  unfold run, Main.newTest. unfold bind.
  destruct (Main.generateRandomDate env O) as [[d0 n1]|] eqn:E1; [|discriminate].
  destruct (shuffle questionGenerator env n1) as [[cq n2]|] eqn:E2; [|discriminate].
  unfold Array. rewrite Array_map_empty.
  destruct d0 as [d|]; [|discriminate].
  cbn [field]. unfold ret at 1.
  destruct (Questions cq _ d env n2) as [[[c sh] n3]|] eqn:E3; [|discriminate].
  unfold ret. intros H. injection H as <-. simpl.
  exists n1, n2, n3. repeat split; assumption.
Qed.

Lemma distinct_NoDup l : distinct l = true -> NoDup l.
Proof.
  induction l as [|x r IH]; intros H; [constructor|].
  simpl in H. apply andb_true_iff in H. destruct H as [H1 H2].
  constructor; [|apply IH, H2].
  intros Hin. apply negb_true_iff in H1.
  assert (existsb (String.eqb x) r = true); [|congruence].
  apply existsb_exists. exists x. split; [exact Hin | apply String.eqb_refl].
Qed.

(** The templates are pairwise distinct: their questions differ on the
    sample inputs. *)
Lemma questionGenerator_NoDup : NoDup questionGenerator.
Proof.
  apply (NoDup_map_inv sampleText). apply distinct_NoDup.
  vm_compute. reflexivity.
Qed.

(** C3, as amended.  The catalog is a fixed ordered list of exactly 22
    templates, none repeated, and the question list that [newTest]
    obtains from [shuffle] is a permutation of the full catalog: every
    template appears, none is duplicated, none is omitted. *)
Theorem catalog_shuffled :
  List.length questionGenerator = 22%nat /\
  NoDup questionGenerator /\
  (forall env n, unit_interval env ->
     exists l n',
       shuffle questionGenerator env n = Normal (map Some l, n') /\
       Permutation questionGenerator l) /\
  (forall env s, unit_interval env ->
     run Main.newTest env = Normal s ->
     exists l,
       Main.currentQuestions s = map Some l /\
       Permutation questionGenerator l /\ NoDup l /\
       List.length l = 22%nat).
Proof.
  split; [reflexivity|]. split; [exact questionGenerator_NoDup|]. split.
  - intros env n Hu.
    destruct (shuffle_Permutation env Hu questionGenerator n) as (l & E & P).
    exists l, (n + List.length questionGenerator)%nat. split; assumption.
  - intros env s Hu Hs.
    destruct (newTest_inv env s Hs) as (n1 & n2 & n3 & _ & E2 & _).
    destruct (shuffle_Permutation env Hu questionGenerator n1) as (l & E & P).
    rewrite E in E2. injection E2 as E2 _.
    exists l. split; [symmetry; exact E2|]. split; [exact P|]. split.
    + eapply Permutation_NoDup; [exact P | exact questionGenerator_NoDup].
    + rewrite <- (Permutation_length P). reflexivity.
Qed.

Lemma demo_env_unit_interval : unit_interval demo_env.
Proof.
  intros k. simpl. unfold Qle, Qlt. simpl.
  pose proof (Z.mod_pos_bound (Z.of_nat k) 10). lia.
Qed.

Lemma catalog_shuffled_witness :
  exists s l,
    run Main.newTest demo_env = Normal s /\
    Main.currentQuestions s = map Some l /\
    Permutation questionGenerator l.
Proof.
  assert (H : match run Main.newTest demo_env with
              | Normal _ => true
              | TypeError => false
              end = true) by (vm_compute; reflexivity).
  destruct (run Main.newTest demo_env) as [s|] eqn:E.
  - destruct (proj2 (proj2 (proj2 catalog_shuffled)) demo_env s
                demo_env_unit_interval E) as (l & H1 & H2 & _).
    exists s, l. repeat split; assumption.
  - discriminate H.
Defined.

(** C3, as stated, fails: the catalog does not have 19 templates. *)
Theorem catalog_is_not_19 : List.length questionGenerator <> 19%nat.
Proof. discriminate. Qed.

(** C1, evaluated on the code.  [Array(n).map(() => Math.random())]
    calls its callback on no slot and draws nothing: in every session the
    seed list has only empty slots and every [seeds[i]] is [undefined],
    so every [createQuestion] and [answer] call of a week-relative
    template draws afresh.  In the sample session the first question asks
    for last week's Saturday and its answer is about last week's Friday. *)
Theorem seeds_are_never_drawn :
  (forall env n (count : Z),
     Array_map (fun _ : unit => Math_random) (Array count) env n
     = Normal (repeat Empty (Z.to_nat count), n)) /\
  (forall env,
     match run Main.newTest env with
     | Normal s =>
         Main.seeds s
         = repeat Empty (List.length (Main.currentQuestions s)) /\
         forall i, slot_get (Main.seeds s) i = None
     | TypeError => True
     end) /\
  match run (s <- Main.newTest ;;
             r <- Main.revealClick s ;;
             ret (Main.questionHost s, snd r)) demo_env with
  | Normal (component, hosts) =>
      nth_error (textsOf component) 0 = Some "先週の土曜日は何日でしたか？" /\
      option_map (flat_map textsOf) (nth_error hosts 0)
      = Some ["Answer:";
              "What date was last week's Friday? → Friday → 金曜日 → きんようび"]
  | TypeError => False
  end.
Proof.
  split; [intros env n count; apply Array_map_empty|]. split.
  - intros env. destruct (run Main.newTest env) as [s|] eqn:E; [|exact I].
    destruct (newTest_inv env s E) as (n1 & n2 & n3 & _ & _ & Hs & _).
    unfold len in Hs. rewrite Nat2Z.id in Hs. split; [exact Hs|].
    intros i. rewrite Hs. apply slot_get_empty.
  - vm_compute. split; reflexivity.
Qed.
End Session.

(** *** The date picker *)

Module Picker.
Import CalendarSpec Calendar WeekGrid Session.

Lemma In_range lo hi k : lo <= k <= hi -> In k (range lo hi).
Proof.
  intros H. unfold range. apply in_map_iff.
  exists (Z.to_nat (k - lo)). split; [lia|]. apply in_seq. lia.
Qed.

Lemma In_yearRange y : 2019 <= y <= 2049 -> In y yearRange.
Proof.
  intros H. unfold yearRange. apply in_map_iff.
  exists (Z.to_nat y). split; [lia|]. apply in_seq. lia.
Qed.

Lemma In_monthRange m : 0 <= m <= 11 -> In m monthRange.
Proof.
  intros H. unfold monthRange. apply in_map_iff.
  exists (Z.to_nat m). split; [lia|]. apply in_seq. lia.
Qed.

(** [generateRandomDate] in terms of its three draws. *)
Lemma generateRandomDate_draws env n :
  let year :=
    Qfloor (Math_random_draws env n * inject_Z (2049 - 2019 + 1)) + 2019 in
  let month :=
    Qfloor (Math_random_draws env (S n) * inject_Z (11 - 0 + 1)) + 0 in
  Main.generateRandomDate env n =
  match candidates year month with
  | Some (daysInMonth, lo, hi) =>
      Normal (array_get daysInMonth
                (Qfloor (Math_random_draws env (S (S n))
                         * inject_Z (hi - lo + 1)) + lo),
              S (S (S n)))
  | None => TypeError
  end.
Proof.
  intros year month.
  unfold Main.generateRandomDate, candidates.
  unfold bind, getRandomInt, Math_random, ret, bind.
  fold year. fold month.
  destruct (index (getWeeks (newDate year month 1)) 0) as [first|];
    [|reflexivity].
  destruct (index (getWeeks (newDate year month 1))
              (len (getWeeks (newDate year month 1)) - 1)) as [last|];
    reflexivity.
Qed.

(** The 372 months from January 2019 to December 2049, by evaluation. *)
Lemma all_months_checked :
  forallb (fun year =>
    forallb (fun month =>
      candidates_ok year month (getWeeks (newDate year month 1))
        (candidates year month)) monthRange) yearRange = true.
Proof. vm_compute. reflexivity. Qed.

Lemma month_candidates year month :
  2019 <= year <= 2049 -> 0 <= month <= 11 ->
  exists daysInMonth lo hi,
    candidates year month = Some (daysInMonth, lo, hi) /\ lo <= hi /\
    forall day, lo <= day <= hi ->
      exists d, array_get daysInMonth day = Some d /\
                candidate_ok year month (getWeeks (newDate year month 1)) d
                = true.
Proof.
  intros Hy Hm. pose proof all_months_checked as Hall.
  rewrite forallb_forall in Hall.
  specialize (Hall year (In_yearRange year Hy)).
  rewrite forallb_forall in Hall.
  specialize (Hall month (In_monthRange month Hm)).
  cbv beta in Hall.
  destruct (candidates year month) as [[[ds lo] hi]|]; [|discriminate].
  cbn [candidates_ok] in Hall.
  apply andb_true_iff in Hall. destruct Hall as [Hle Hall].
  apply Z.leb_le in Hle. rewrite forallb_forall in Hall.
  exists ds, lo, hi. split; [reflexivity|]. split; [exact Hle|].
  intros day Hday. specialize (Hall day (In_range lo hi day Hday)).
  destruct (array_get ds day) as [d|]; [|discriminate].
  exists d. split; [reflexivity | exact Hall].
Qed.

(** The date returned is a candidate of the month drawn. *)
Lemma generateRandomDate_candidate env n :
  unit_interval env ->
  exists year month d,
    2019 <= year <= 2049 /\ 0 <= month <= 11 /\
    Main.generateRandomDate env n = Normal (Some d, S (S (S n))) /\
    candidate_ok year month (getWeeks (newDate year month 1)) d = true.
Proof.
  intros Hu.
  rewrite generateRandomDate_draws. cbv zeta.
  pose proof (floor_scale _ (2049 - 2019 + 1) (Hu n)) as Hy.
  pose proof (floor_scale _ (11 - 0 + 1) (Hu (S n))) as Hm.
  revert Hy Hm.
  generalize (Qfloor (Math_random_draws env n * inject_Z (2049 - 2019 + 1))).
  generalize (Qfloor (Math_random_draws env (S n) * inject_Z (11 - 0 + 1))).
  intros m y Hy Hm.
  destruct (month_candidates (y + 2019) (m + 0))
    as (ds & lo & hi & -> & Hle & Hall); [lia | lia |].
  pose proof (floor_scale _ (hi - lo + 1) (Hu (S (S n)))) as Hd.
  revert Hd.
  generalize (Qfloor (Math_random_draws env (S (S n)) * inject_Z (hi - lo + 1))).
  intros day Hd.
  destruct (Hall (day + lo)) as (d & -> & Hok); [lia|].
  exists (y + 2019), (m + 0), d. repeat split; (lia || exact Hok).
Qed.

Lemma In_filter_dates {T} (d : T) row :
  In (Some d) row -> In d (filter_dates row).
Proof.
  intros H. unfold filter_dates. apply in_flat_map.
  exists (Some d). split; [exact H | left; reflexivity].
Qed.

Lemma In_flat {T} (x : T) l :
  In x (flat l) <-> exists row, In row l /\ In x row.
Proof. unfold flat. apply in_concat. Qed.

(** [getWeeks] reads only the year and the month of its argument. *)
Lemma getWeeks_fields d d' :
  getFullYear d = getFullYear d' -> getMonth d = getMonth d' ->
  getWeeks d = getWeeks d'.
Proof. intros Hy Hm. unfold getWeeks. rewrite Hy, Hm. reflexivity. Qed.

(** A day held by a slot of the grid of a month is a day of that month. *)
Lemma slot_fields year month x :
  ~ (0 <= year <= 99) -> 0 <= month <= 11 ->
  In (Some x) (flat (getWeeks (newDate year month 1))) ->
  getFullYear x = year /\ getMonth x = month /\
  getDate x = x - newDate year month 0 /\
  1 <= getDate x <= daysIn year month.
Proof.
  intros Hy Hm Hin.
  pose proof (daysIn_pos year month) as Hd.
  destruct (civil_fields year month 1 Hm ltac:(lia)) as (Fy & Fm & _).
  rewrite <- (newDate_MakeDay year month 1 Hy) in Fy, Fm.
  assert (Hy' : ~ (0 <= getFullYear (newDate year month 1) <= 99))
    by (rewrite Fy; exact Hy).
  destruct (getWeeks_grid _ Hy') as [_ Hcat]. rewrite Fy, Fm in Hcat.
  assert (Hx : In x (calendarDays year month)).
  { rewrite <- Hcat. apply In_flat in Hin.
    destruct Hin as (row & Hrow & Hx). apply In_flat.
    exists (filter_dates row). split; [apply in_map, Hrow|].
    apply In_filter_dates, Hx. }
  unfold calendarDays in Hx. apply in_map_iff in Hx.
  destruct Hx as (i & <- & Hi). apply in_seq in Hi.
  rewrite !newDate_MakeDay by exact Hy.
  destruct (civil_fields year month (Z.of_nat i) Hm ltac:(lia))
    as (-> & -> & ->).
  rewrite (MakeDay_shift year month (Z.of_nat i)). repeat split; lia.
Qed.

Lemma holds_In d l : existsb (holds d) l = true -> In (Some d) l.
Proof.
  intros H. apply existsb_exists in H. destruct H as ([x|] & Hin & Hx);
    [|discriminate]. apply Z.eqb_eq in Hx. subst x. exact Hin.
Qed.

Lemma findIndex_ext {T} (p q : T -> bool) l :
  (forall x, In x l -> p x = q x) -> findIndex p l = findIndex q l.
Proof.
  induction l as [|x r IH]; intros H; [reflexivity|].
  simpl. rewrite (H x) by (left; reflexivity).
  rewrite IH by (intros y Hy; apply H; right; exact Hy). reflexivity.
Qed.

Lemma existsb_ext_in {T} (p q : T -> bool) l :
  (forall x, In x l -> p x = q x) -> existsb p l = existsb q l.
Proof.
  induction l as [|x r IH]; intros H; [reflexivity|].
  simpl. rewrite (H x) by (left; reflexivity).
  rewrite IH by (intros y Hy; apply H; right; exact Hy). reflexivity.
Qed.

(** On a day of the grid, the look-up of the templates finds the row
    that holds the day. *)
Lemma weekRow_rowOf year month d :
  ~ (0 <= year <= 99) -> 0 <= month <= 11 ->
  In (Some d) (flat (getWeeks (newDate year month 1))) ->
  getWeeks d = getWeeks (newDate year month 1) /\
  weekRow d = rowOf (getWeeks (newDate year month 1)) d.
Proof.
  intros Hy Hm Hin.
  destruct (slot_fields year month d Hy Hm Hin) as (Fy & Fm & Fd & _).
  pose proof (daysIn_pos year month) as Hd.
  destruct (civil_fields year month 1 Hm ltac:(lia)) as (Gy & Gm & _).
  rewrite <- (newDate_MakeDay year month 1 Hy) in Gy, Gm.
  assert (E : getWeeks d = getWeeks (newDate year month 1))
    by (apply getWeeks_fields; [rewrite Fy, Gy | rewrite Fm, Gm];
        reflexivity).
  split; [exact E|].
  unfold weekRow, rowOf. rewrite E.
  apply findIndex_ext. intros row Hrow.
  apply existsb_ext_in. intros [x|] Hx; [|reflexivity].
  assert (Hin' : In (Some x) (flat (getWeeks (newDate year month 1))))
    by (apply In_flat; exists row; split; assumption).
  destruct (slot_fields year month x Hy Hm Hin') as (_ & _ & Fx & _).
  unfold isDate, holds. rewrite Fx, Fd.
  destruct (Z.eqb_spec (x - newDate year month 0) (d - newDate year month 0)),
    (Z.eqb_spec x d); (reflexivity || lia).
Qed.

(** What is known of every date [generateRandomDate] returns. *)
Lemma generateRandomDate_inner env n :
  unit_interval env ->
  exists d,
    Main.generateRandomDate env n = Normal (Some d, S (S (S n))) /\
    2019 <= getFullYear d <= 2049 /\
    1 <= weekRow d <= len (getWeeks d) - 2 /\
    3 <= getDate d <= daysIn (getFullYear d) (getMonth d) - 2.
Proof.
  intros Hu.
  destruct (generateRandomDate_candidate env n Hu)
    as (year & month & d & Hy & Hm & E & Hok).
  exists d. split; [exact E|].
  unfold candidate_ok in Hok.
  apply andb_true_iff in Hok. destruct Hok as [Hok Hday].
  apply andb_true_iff in Hok. destruct Hok as [Hin Hrow].
  apply andb_true_iff in Hrow. destruct Hrow as [R1 R2].
  apply andb_true_iff in Hday. destruct Hday as [D1 D2].
  apply Z.leb_le in R1, R2, D1, D2.
  apply holds_In in Hin.
  assert (Hy' : ~ (0 <= year <= 99)) by lia.
  destruct (slot_fields year month d Hy' Hm Hin) as (Fy & Fm & Fd & _).
  destruct (weekRow_rowOf year month d Hy' Hm Hin) as [Ew Er].
  rewrite Fy, Fm, Fd, Ew, Er. repeat split; lia.
Qed.

(** C7.  Whatever [Math.random()] returns, [generateRandomDate] returns
    a date, and the row of the week grid of its month that holds the
    date is neither the first nor the last: its index [i] satisfies
    [1 <= i <= rowCount - 2]. *)
Theorem reference_date_in_inner_row env n :
  unit_interval env ->
  exists d,
    Main.generateRandomDate env n = Normal (Some d, S (S (S n))) /\
    1 <= weekRow d <= len (getWeeks d) - 2.
Proof.
  intros Hu.
  destruct (generateRandomDate_inner env n Hu) as (d & E & _ & H & _).
  exists d. split; assumption.
Qed.
Lemma reference_date_in_inner_row_witness :
  unit_interval demo_env /\
  exists d,
    Main.generateRandomDate demo_env 0%nat = Normal (Some d, 3%nat) /\
    1 <= weekRow d <= len (getWeeks d) - 2.
Proof.
  split; [exact demo_env_unit_interval|].
  apply (reference_date_in_inner_row demo_env 0%nat demo_env_unit_interval).
Defined.

End Picker.

(** *** The templates *)

Module Templates.
Import CalendarSpec Calendar WeekGrid Numerals Session Picker.

(** An index within the array finds an element. *)
Lemma index_Some {T} (l : list T) i :
  0 <= i < len l -> exists x, index l i = Some x.
Proof.
  intros H. unfold index, len in *.
  destruct (Z.ltb_spec i 0); [lia|].
  destruct (nth_error l (Z.to_nat i)) as [x|] eqn:E; [exists x; reflexivity|].
  apply nth_error_None in E. lia.
Qed.

Lemma weekday_entry t :
  exists e, index daysOfWeek (js_rem (getDay t) 7) = Some e.
Proof.
  apply index_Some. pose proof (getDay_range t). unfold js_rem.
  rewrite Z.rem_small by lia. change (len daysOfWeek) with 7. lia.
Qed.

Lemma day_entry t : exists e, index days (getDate t - 1) = Some e.
Proof.
  apply index_Some. pose proof (getDate_range t).
  change (len days) with 31. lia.
Qed.

Lemma list_ascii_of_string_app s t :
  list_ascii_of_string (s ++ t)
  = (list_ascii_of_string s ++ list_ascii_of_string t)%list.
Proof. induction s as [|c s IH]; simpl; [|rewrite IH]; reflexivity. Qed.

Lemma starts_app p l : starts p (p ++ l)%list = true.
Proof.
  induction p as [|a p IH]; [reflexivity|].
  simpl. rewrite Ascii.eqb_refl, IH. reflexivity.
Qed.

Lemma ends_with_app suffix x : ends_with suffix (x ++ suffix) = true.
Proof.
  unfold ends_with. rewrite list_ascii_of_string_app, rev_app_distr.
  apply starts_app.
Qed.

Lemma ends_with_other suffix x y :
  (forall rest, starts (rev (list_ascii_of_string suffix))
                  (rev (list_ascii_of_string y) ++ rest)%list = false) ->
  ends_with suffix (x ++ y) = false.
Proof.
  intros H. unfold ends_with.
  rewrite list_ascii_of_string_app, rev_app_distr. apply H.
Qed.

(** The tense of the two phrasings of a question. *)
Lemma question_tense a k b (past : bool) :
  let q := a ++ k ++ b ++ (if past then "でしたか？" else "ですか？") in
  pastQuestion q = past /\ presentQuestion q = negb past.
Proof.
  cbv zeta. rewrite <- !append_assoc.
  unfold pastQuestion, presentQuestion.
  destruct past; split; simpl negb;
    first [ apply ends_with_app
          | apply ends_with_other; intros rest; reflexivity ].
Qed.

Lemma bool_tense (b : bool) (target date : Z) past present :
  b = (target <? date) -> past = b -> present = negb b ->
  (past = true <-> target < date) /\ (present = true <-> ~ target < date).
Proof.
  intros -> -> ->. destruct (Z.ltb_spec target date); simpl; split; split;
    intros; (lia || discriminate || reflexivity).
Qed.

Ltac run_js :=
  cbv beta iota zeta
      delta [bind ret throw field randomFromList getRandomInt new_Date_now
             createQuestion answer].

(** C9, evaluated on the code.  The two "this week" templates take the
    week from the grid of [new Date()], the slip of C2, so their tense
    rule fails on dates that a session produces.  [generateRandomDate]
    returns 29 January 2021 and Wednesday 12 June 2024 for suitable
    draws.  With the wall clock in February 2021, a month without a
    29th, the questions and the answers about 29 January 2021 throw for
    every seed: nothing is phrased.  With the wall clock in May 2024 and
    the seed 7/8, the questions about 12 June 2024 ask in the past tense
    for this week's Saturday and for this week's 18th, though the
    Saturday of that week, 15 June, and the 18th of June come after the
    reference date; with the wall clock in June 2024 the same date and
    seed give the present tense. *)
Theorem this_week_tense_reads_the_wall_clock :
  (let date := newDate 2021 0 29 in
   let february := newDate 2021 1 10 in
   run Main.generateRandomDate (session_env (2 # 31) 0 (26 # 27) february)
   = Normal (Some date) /\
   forall seed,
     run (createQuestion thisWeekDate date seed) (clock_env february)
     = TypeError /\
     run (answer thisWeekDate date seed) (clock_env february) = TypeError /\
     run (createQuestion thisWeekWeekday date seed) (clock_env february)
     = TypeError /\
     run (answer thisWeekWeekday date seed) (clock_env february)
     = TypeError) /\
  (let date := newDate 2024 5 12 in
   let seed := Some (7 # 8)%Q in
   let may := newDate 2024 4 20 in
   let june := newDate 2024 5 20 in
   run Main.generateRandomDate (session_env (5 # 31) (5 # 12) (9 # 26) may)
   = Normal (Some date) /\
   getDay date = 3 /\
   date + 3 = newDate 2024 5 15 /\ date < newDate 2024 5 18 /\
   run (createQuestion thisWeekDate date seed) (clock_env may)
   = Normal [h "span" "" [] [Text "今週の土曜日は何日でしたか？"]] /\
   run (answer thisWeekDate date seed) (clock_env may)
   = Normal [h "span" "" []
               [Text "What date was this week's Saturday? → Saturday → 土曜日 → どようび"]] /\
   run (createQuestion thisWeekWeekday date seed) (clock_env may)
   = Normal [h "span" "" [] [Text "今週の十八日は何曜日でしたか？"]] /\
   run (answer thisWeekWeekday date seed) (clock_env may)
   = Normal [h "span" "" []
               [Text "What day was this week's 18th? → Saturday → 土曜日 → どようび"]] /\
   run (createQuestion thisWeekDate date seed) (clock_env june)
   = Normal [h "span" "" [] [Text "今週の土曜日は何日ですか？"]] /\
   run (answer thisWeekDate date seed) (clock_env june)
   = Normal [h "span" "" []
               [Text "What date is this week's Saturday? → Saturday → 土曜日 → どようび"]] /\
   run (createQuestion thisWeekWeekday date seed) (clock_env june)
   = Normal [h "span" "" [] [Text "今週の十五日は何曜日ですか？"]] /\
   run (answer thisWeekWeekday date seed) (clock_env june)
   = Normal [h "span" "" []
               [Text "What day is this week's 15th? → Saturday → 土曜日 → どようび"]]).
Proof.
  cbv zeta. split.
  - split; [vm_compute; reflexivity|].
    intros seed. repeat split; vm_compute; reflexivity.
  - repeat split; vm_compute; reflexivity.
Qed.

(** C10.  Whatever [Math.random()] returns, the day of the month of the
    date that [generateRandomDate] returns lies between 3 and the length
    of its month minus 2, so the five indices [getDate() - 3] to
    [getDate() + 1] that the day-of-month templates use are within
    [0, 30], each finds an entry of [days], and the five answers are
    computed without an exception. *)
Theorem day_of_month_in_bounds env n :
  unit_interval env ->
  exists d,
    Main.generateRandomDate env n = Normal (Some d, S (S (S n))) /\
    3 <= getDate d <= daysIn (getFullYear d) (getMonth d) - 2 /\
    (forall k, -3 <= k <= 1 ->
       0 <= getDate d + k <= 30 /\
       exists e, index days (getDate d + k) = Some e) /\
    (forall seed env' n',
       Forall (fun q => exists nodes,
                  answer q d seed env' n' = Normal (nodes, n'))
         [dateBeforeYesterday; dateYesterday; dateToday; dateTomorrow;
          dateAfterTomorrow]).
Proof.
  intros Hu.
  destruct (generateRandomDate_inner env n Hu) as (d & E & _ & _ & Hd).
  exists d. split; [exact E|]. split; [exact Hd|].
  pose proof (daysIn_pos (getFullYear d) (getMonth d)) as Hn.
  assert (Hk : forall k, -3 <= k <= 1 ->
               0 <= getDate d + k <= 30 /\
               exists e, index days (getDate d + k) = Some e).
  { intros k Hk. split; [lia|]. apply index_Some.
    change (len days) with 31. lia. }
  split; [exact Hk|].
  intros seed env' n'.
  destruct (Hk (-3)) as [_ [e1 H1]]; [lia|].
  destruct (Hk (-2)) as [_ [e2 H2]]; [lia|].
  destruct (Hk (-1)) as [_ [e3 H3]]; [lia|].
  destruct (Hk 0) as [_ [e4 H4]]; [lia|].
  destruct (Hk 1) as [_ [e5 H5]]; [lia|].
  rewrite Z.add_0_r in H4.
  repeat constructor.
  - unfold dateBeforeYesterday. run_js.
    change (getDate d - 3) with (getDate d + -3). rewrite H1.
    eexists. reflexivity.
  - unfold dateYesterday. run_js.
    change (getDate d - 2) with (getDate d + -2). rewrite H2.
    eexists. reflexivity.
  - unfold dateToday. run_js.
    change (getDate d - 1) with (getDate d + -1). rewrite H3.
    eexists. reflexivity.
  - unfold dateTomorrow. run_js. rewrite H4. eexists. reflexivity.
  - unfold dateAfterTomorrow. run_js. rewrite H5. eexists. reflexivity.
Qed.

Lemma day_of_month_in_bounds_witness :
  unit_interval demo_env /\
  exists d,
    Main.generateRandomDate demo_env 0%nat = Normal (Some d, 3%nat) /\
    3 <= getDate d <= daysIn (getFullYear d) (getMonth d) - 2.
Proof.
  split; [exact demo_env_unit_interval|].
  destruct (day_of_month_in_bounds demo_env 0%nat demo_env_unit_interval)
    as (d & E & H & _).
  exists d. split; assumption.
Defined.

(** C4, evaluated on the code.  The "next month" answer indexes
    [months] at [Math.min(date.getMonth() + 1, 12)]: for a date in
    December the index is 12, [months[12]] is [undefined] and reading
    its [english] property throws, while the "last month" answer of a
    date in January is clamped to a valid index. *)
Theorem next_month_in_december :
  let date := newDate 2024 11 15 in
  getMonth date = 11 /\
  Z.min (getMonth date + 1) 12 = 12 /\
  index months (Z.min (getMonth date + 1) 12) = None /\
  (forall seed env n, answer monthNext date seed env n = TypeError) /\
  (forall seed env n,
     answer monthLast (newDate 2024 0 15) seed env n
     = Normal ([h "span" "" []
                  [Text "What month was it last month? → January → 一月 → いちがつ"]],
               n)).
Proof.
  cbv zeta. repeat split; intros; vm_compute; reflexivity.
Qed.

(** C2, evaluated on the code.  The week-relative templates build the
    week grid from [new Date()], not from the reference date: with the
    same date and the same seed, the answer about Sunday 5 May 2024 names
    Wednesday when the wall clock is in May 2024 and Saturday when it is
    in June 2024; the question about 25 May 2024 is produced in May 2024
    and its answer throws in February 2025. *)
Theorem week_templates_read_the_wall_clock :
  let date := newDate 2024 4 5 in
  let seed := Some 0%Q in
  run (answer lastWeekDate date seed) (clock_env (newDate 2024 4 20))
  = Normal [h "span" "" []
              [Text "What date was last week's Wednesday? → Wednesday → 水曜日 → すいようび"]] /\
  run (answer lastWeekDate date seed) (clock_env (newDate 2024 5 20))
  = Normal [h "span" "" []
              [Text "What date was last week's Saturday? → Saturday → 土曜日 → どようび"]] /\
  run (createQuestion nextWeekWeekday (newDate 2024 4 25) seed)
      (clock_env (newDate 2024 4 20))
  = Normal [h "span" "" [] [Text "来週の二十六日は何曜日ですか？"]] /\
  run (answer nextWeekWeekday (newDate 2024 4 25) seed)
      (clock_env (newDate 2025 1 20))
  = TypeError.
Proof.
  cbv zeta. repeat split; vm_compute; reflexivity.
Qed.

(** The reference date 15 June 2024, a Saturday. *)
Example today_is_saturday :
  run (answer weekdayToday (newDate 2024 5 15) None) (clock_env 0)
  = Normal [h "span" "" []
              [Text "What day is it today? → Saturday → 土曜日 → どようび"]].
Proof. vm_compute. reflexivity. Qed.

Example day_before_yesterday_was_13th :
  run (answer dateBeforeYesterday (newDate 2024 5 15) None) (clock_env 0)
  = Normal [h "span" "" []
              [Text "What date was it the day before yesterday? → 13th → 十三日 → じゅうさんにち"]].
Proof. vm_compute. reflexivity. Qed.

Example this_year_is_reiwa_6 :
  run (answer yearThis (newDate 2024 5 15) None) (clock_env 0)
  = Normal [h "span" "" []
              [Text "What year is it this year? → 2024 - 2019 + 1 → Reiwa 6 → 令和六年 → れいわろくねん"];
            h "span" "question--answer-or" [] [Text "OR"];
            h "span" "" []
              [Text "2024 → 二千二十四年 → にせんにじゅうよんねん"]].
Proof. vm_compute. reflexivity. Qed.

(** Wednesday 12 June 2024, the wall clock in the same month: seed 0
    selects the Sunday before it, seed 9/10 the Saturday after it. *)
Example this_week_sunday_is_past :
  run (createQuestion thisWeekDate (newDate 2024 5 12) (Some 0%Q))
      (clock_env (newDate 2024 5 20))
  = Normal [h "span" "" [] [Text "今週の日曜日は何日でしたか？"]].
Proof. vm_compute. reflexivity. Qed.

Example this_week_saturday_is_present :
  run (createQuestion thisWeekDate (newDate 2024 5 12) (Some (9 # 10)%Q))
      (clock_env (newDate 2024 5 20))
  = Normal [h "span" "" [] [Text "今週の土曜日は何日ですか？"]].
Proof. vm_compute. reflexivity. Qed.

End Templates.

(* ------------------------------------------------------------------ *)
(** *** Further properties of the script *)

Module RandomPicks.
Import Session Templates WeekGrid.

(** X1.  [getRandomInt] returns an integer from [min] to [max], both included,
    for a seed of the unit interval, drawing a number only when no seed
    is passed; every integer of the range is the result for some seed. *)
Theorem getRandomInt_inclusive (min max : Z) :
  min <= max ->
  (forall s env n, (0 <= s < 1)%Q ->
     exists i, getRandomInt min max (Some s) env n = Normal (i, n) /\
               min <= i <= max) /\
  (forall env n, unit_interval env ->
     exists i, getRandomInt min max None env n = Normal (i, S n) /\
               min <= i <= max) /\
  (forall i, min <= i <= max ->
     exists s, (0 <= s < 1)%Q /\
       forall env n, getRandomInt min max (Some s) env n = Normal (i, n)).
Proof.
  intros Hm. split; [|split].
  - intros s env n Hs. eexists. split; [reflexivity|].
    pose proof (floor_scale s (max - min + 1) Hs). lia.
  - intros env n Hu. eexists. split; [reflexivity|].
    pose proof (floor_scale _ (max - min + 1) (Hu n)). lia.
  - intros i Hi.
    exists (Qmake (i - min) (Z.to_pos (max - min + 1))). split.
    + unfold Qle, Qlt. cbn [Qnum Qden]. rewrite Z2Pos.id by lia. lia.
    + intros env n. unfold getRandomInt, bind, ret. f_equal. f_equal.
      assert (E : (Qmake (i - min) (Z.to_pos (max - min + 1))
                   * inject_Z (max - min + 1) == inject_Z (i - min))%Q).
      { unfold Qeq, Qmult, inject_Z. cbn [Qnum Qden].
        rewrite Pos.mul_1_r, Z2Pos.id by lia. lia. }
      rewrite (Qfloor_comp _ _ E), Qfloor_Z. lia.
Qed.

Lemma getRandomInt_inclusive_witness :
  2019 <= 2049 /\
  exists i, getRandomInt 2019 2049 None demo_env 0%nat = Normal (i, 1%nat) /\
            2019 <= i <= 2049.
Proof.
  split; [lia|].
  apply (proj1 (proj2 (getRandomInt_inclusive 2019 2049 ltac:(lia)))).
  exact demo_env_unit_interval.
Defined.

Lemma randomFromList_index {T} (list : list T) s env n :
  randomFromList list (Some s) env n
  = Normal (index list (Qfloor (s * inject_Z (len list)) + 0), n).
Proof.
  unfold randomFromList, getRandomInt, bind, ret.
  replace (len list - 1 - 0 + 1) with (len list) by lia. reflexivity.
Qed.

Lemma index_In {T} (list : list T) i x : index list i = Some x -> In x list.
Proof.
  unfold index. destruct (i <? 0); [discriminate|]. apply nth_error_In.
Qed.

(** A pick from a non-empty list, with a seed of the unit interval or
    with a drawn number. *)
Lemma randomFromList_pick {T} (list : list T) seed env n :
  list <> [] -> unit_interval env -> seed_in_unit seed ->
  exists x, randomFromList list seed env n = Normal (Some x, after_pick seed n)
            /\ In x list.
Proof.
  intros Hne Hu Hs.
  assert (Hlen : 0 < len list)
    by (unfold len; destruct list; [contradiction | simpl; lia]).
  assert (H : forall s, (0 <= s < 1)%Q ->
              exists x, index list (Qfloor (s * inject_Z (len list)) + 0)
                        = Some x /\ In x list).
  { intros s Hs'. pose proof (floor_scale s (len list) Hs' Hlen).
    destruct (index_Some list (Qfloor (s * inject_Z (len list)) + 0))
      as [x Hx]; [lia|].
    exists x. split; [exact Hx | eapply index_In; exact Hx]. }
  destruct seed as [s|].
  - destruct (H s Hs) as (x & Hx & Hin).
    exists x. rewrite randomFromList_index, Hx. split; [reflexivity|exact Hin].
  - destruct (H _ (Hu n)) as (x & Hx & Hin).
    exists x. split; [|exact Hin].
    unfold randomFromList. unfold bind at 1. unfold Math_random at 1.
    change (randomFromList list (Some (Math_random_draws env n)) env (S n)
            = Normal (Some x, S n)).
    rewrite randomFromList_index, Hx. reflexivity.
Qed.

(** X2.  [randomFromList] returns an element of a non-empty list for a seed
    of the unit interval, drawing a number only when no seed is passed;
    every element is the result for some seed; on the empty list the
    result is [undefined]. *)
Theorem randomFromList_member {T} (list : list T) :
  (list <> [] ->
   (forall s env n, (0 <= s < 1)%Q ->
      exists x, randomFromList list (Some s) env n = Normal (Some x, n) /\
                In x list) /\
   (forall env n, unit_interval env ->
      exists x, randomFromList list None env n = Normal (Some x, S n) /\
                In x list)) /\
  (forall x, In x list ->
     exists s, (0 <= s < 1)%Q /\
       forall env n, randomFromList list (Some s) env n = Normal (Some x, n)) /\
  (forall s env n,
     randomFromList (@nil T) (Some s) env n = Normal (None, n)).
Proof.
  split; [|split].
  - intros Hne.
    assert (Hlen : 0 < len list)
      by (unfold len; destruct list; [contradiction | simpl; lia]).
    assert (H : forall s, (0 <= s < 1)%Q ->
                exists x, index list (Qfloor (s * inject_Z (len list)) + 0)
                          = Some x /\ In x list).
    { intros s Hs. pose proof (floor_scale s (len list) Hs Hlen).
      destruct (index_Some list (Qfloor (s * inject_Z (len list)) + 0))
        as [x Hx]; [lia|].
      exists x. split; [exact Hx | eapply index_In; exact Hx]. }
    split.
    + intros s env n Hs. destruct (H s Hs) as (x & Hx & Hin).
      exists x. rewrite randomFromList_index, Hx. split; [reflexivity|exact Hin].
    + intros env n Hu. destruct (H _ (Hu n)) as (x & Hx & Hin).
      exists x. split; [|exact Hin].
      unfold randomFromList. unfold bind at 1. unfold Math_random at 1.
      change (randomFromList list (Some (Math_random_draws env n)) env (S n)
              = Normal (Some x, S n)).
      rewrite randomFromList_index, Hx. reflexivity.
  - intros x Hin. apply In_nth_error in Hin. destruct Hin as [k Hk].
    assert (Hk' : (k < List.length list)%nat)
      by (apply nth_error_Some; congruence).
    exists (Qmake (Z.of_nat k) (Z.to_pos (len list))). split.
    + unfold Qle, Qlt, len. cbn [Qnum Qden]. rewrite Z2Pos.id by lia. lia.
    + intros env n. rewrite randomFromList_index.
      assert (E : (Qmake (Z.of_nat k) (Z.to_pos (len list))
                   * inject_Z (len list) == inject_Z (Z.of_nat k))%Q).
      { unfold Qeq, Qmult, inject_Z, len. cbn [Qnum Qden].
        rewrite Pos.mul_1_r, Z2Pos.id by lia. lia. }
      rewrite (Qfloor_comp _ _ E), Qfloor_Z. unfold index.
      destruct (Z.ltb_spec (Z.of_nat k + 0) 0); [lia|].
      replace (Z.to_nat (Z.of_nat k + 0)) with k by lia.
      rewrite Hk. reflexivity.
  - intros s env n. rewrite randomFromList_index.
    change (len (@nil T)) with 0.
    assert (E : (s * inject_Z 0 == inject_Z 0)%Q)
      by (unfold Qeq, Qmult, inject_Z; cbn [Qnum Qden]; lia).
    rewrite (Qfloor_comp _ _ E), Qfloor_Z. reflexivity.
Qed.

Lemma randomFromList_member_witness :
  [1; 2; 3] <> [] /\
  exists x, randomFromList [1; 2; 3] (Some (1 # 2)%Q) demo_env 0%nat
            = Normal (Some x, 0%nat) /\ In x [1; 2; 3].
Proof.
  split; [discriminate|].
  apply (proj1 (proj1 (randomFromList_member [1; 2; 3]) ltac:(discriminate))).
  unfold Qle, Qlt. simpl. lia.
Defined.

(** X3.  [shuffle] returns a permutation of any array, of the same length
    and with no empty slot, after exactly one draw per element. *)
Theorem shuffle_any_array {T} (array : list T) env n :
  unit_interval env ->
  exists l,
    shuffle array env n = Normal (map Some l, (n + List.length array)%nat) /\
    Permutation array l /\ List.length l = List.length array.
Proof.
  intros Hu. destruct (shuffle_Permutation env Hu array n) as (l & E & P).
  exists l. split; [exact E|]. split; [exact P|].
  symmetry. apply Permutation_length, P.
Qed.

Lemma shuffle_any_array_witness :
  unit_interval demo_env /\
  exists l,
    shuffle [1; 2; 3; 4; 5] demo_env 0%nat = Normal (map Some l, 5%nat) /\
    Permutation [1; 2; 3; 4; 5] l /\ List.length l = 5%nat.
Proof.
  split; [exact demo_env_unit_interval|].
  apply (shuffle_any_array [1; 2; 3; 4; 5] demo_env 0%nat demo_env_unit_interval).
Defined.

End RandomPicks.

Module NumeralEdges.
Import Numerals.

Lemma kanjiSubs_none d : 10 <= d -> kanjiSubs d = None.
Proof.
  intros Hd. unfold kanjiSubs.
  repeat match goal with
         | |- context [match ?x with _ => _ end] => destruct x
         end; (reflexivity || lia).
Qed.

Lemma hiraganaSubs_none d : 10 <= d -> hiraganaSubs d = None.
Proof.
  intros Hd. unfold hiraganaSubs.
  repeat match goal with
         | |- context [match ?x with _ => _ end] => destruct x
         end; (reflexivity || lia).
Qed.

Lemma prefix_app p s : prefix p (p ++ s) = true.
Proof.
  induction p as [|c p IH]; simpl; [destruct s; reflexivity|].
  destruct (Ascii.ascii_dec c c); [exact IH | contradiction].
Qed.

Lemma toKanji_thousands_undefined n :
  10000 <= n -> exists rest, toKanji n = "undefined千" ++ rest.
Proof.
  intros Hn. unfold toKanji, Math_floor_div.
  destruct (Z.eqb_spec n 0); [lia|].
  assert (Ht : 10 <= n / 1000) by (Z.div_mod_to_equations; lia).
  rewrite (kanjiSubs_none _ Ht).
  destruct (Z.gtb_spec (n / 1000) 0); [|lia].
  destruct (Z.eqb_spec (n / 1000) 1); [lia|].
  cbv zeta. cbn [coerce].
  change ("" ++ "undefined" ++ "千") with "undefined千".
  repeat match goal with
         | |- context [if ?b then _ else _] => destruct b
         end;
    rewrite ?append_assoc; eexists; reflexivity.
Qed.

Lemma hundreds_appended k d :
  exists h,
    (if d >? 0
     then match d with
          | 1 => k ++ "ひゃく"
          | 3 => k ++ "さんびゃく"
          | 6 => k ++ "ろっぴゃく"
          | 8 => k ++ "はっぴゃく"
          | _ => k ++ coerce (hiraganaSubs d) ++ "ひゃく"
          end
     else k) = k ++ h.
Proof.
  destruct (d >? 0); [|exists ""; symmetry; apply append_nil_r].
  repeat match goal with
         | |- context [match ?x with _ => _ end] => destruct x
         end; eexists; reflexivity.
Qed.

Lemma toHiragana_thousands_undefined n :
  10000 <= n -> exists rest, toHiragana n = "undefinedせん" ++ rest.
Proof.
  intros Hn. unfold toHiragana, Math_floor_div.
  destruct (Z.eqb_spec n 0); [lia|].
  assert (Ht : 10 <= n / 1000) by (Z.div_mod_to_equations; lia).
  destruct (Z.gtb_spec (n / 1000) 0); [|lia].
  cbv zeta.
  assert (E : match n / 1000 with
              | 1 => "" ++ "せん"
              | 3 => "" ++ "さんぜん"
              | 8 => "" ++ "はっせん"
              | _ => "" ++ coerce (hiraganaSubs (n / 1000)) ++ "せん"
              end = "undefinedせん").
  { rewrite (hiraganaSubs_none _ Ht). revert Ht. generalize (n / 1000).
    intros d Hd.
    repeat match goal with
           | |- context [match ?x with _ => _ end] => destruct x
           end; (reflexivity || lia). }
  rewrite E.
  destruct (hundreds_appended "undefinedせん" (js_rem n 1000 / 100)) as [h ->].
  generalize (js_rem n 100 / 10), (js_rem n 10). intros b c.
  destruct (b >? 0), (c >? 0); rewrite ?append_assoc; eexists; reflexivity.
Qed.

(** X4.  Outside 0..9999 the numeral converters do not fail: a negative
    number gives the empty string, and from 10000 on the thousands digit
    has no entry in the digit table, so the result begins with the text
    [undefined] followed by the thousands word. *)
Theorem numerals_out_of_range :
  (forall n, n < 0 -> toKanji n = "" /\ toHiragana n = "") /\
  (forall n, 10000 <= n ->
     prefix "undefined千" (toKanji n) = true /\
     prefix "undefinedせん" (toHiragana n) = true).
Proof.
  split.
  - intros n Hn. split; [apply toKanji_negative | apply toHiragana_negative];
      exact Hn.
  - intros n Hn. split.
    + destruct (toKanji_thousands_undefined n Hn) as [rest ->].
      apply prefix_app.
    + destruct (toHiragana_thousands_undefined n Hn) as [rest ->].
      apply prefix_app.
Qed.

Lemma numerals_out_of_range_witness :
  10000 <= 12345 /\
  prefix "undefined千" (toKanji 12345) = true /\
  prefix "undefinedせん" (toHiragana 12345) = true.
Proof.
  split; [lia|]. apply (proj2 numerals_out_of_range 12345). lia.
Defined.

End NumeralEdges.

Module NumeralReading.
Import Picker.

Lemma numerals_read_back :
  forallb (fun n => (readKanji (toKanji n) =? n)
                    && (readHiragana (toHiragana n) =? n))
          (range 0 9999) = true.
Proof. vm_compute. reflexivity. Qed.

Lemma read_back n :
  0 <= n <= 9999 ->
  readKanji (toKanji n) = n /\ readHiragana (toHiragana n) = n.
Proof.
  intros Hn. pose proof numerals_read_back as H.
  rewrite forallb_forall in H. specialize (H n (In_range 0 9999 n Hn)).
  apply andb_true_iff in H. destruct H as [H1 H2].
  apply Z.eqb_eq in H1, H2. split; assumption.
Qed.

(** X5.  No two numbers from 0 to 9999 have the same kanji numeral or the
    same hiragana numeral. *)
Theorem numerals_injective n m :
  0 <= n <= 9999 -> 0 <= m <= 9999 ->
  (toKanji n = toKanji m -> n = m) /\
  (toHiragana n = toHiragana m -> n = m).
Proof.
  intros Hn Hm.
  destruct (read_back n Hn) as [Kn Gn], (read_back m Hm) as [Km Gm].
  split; intros E.
  - rewrite <- Kn, <- Km, E. reflexivity.
  - rewrite <- Gn, <- Gm, E. reflexivity.
Qed.

Lemma numerals_injective_witness :
  0 <= 2024 <= 9999 /\ 0 <= 2025 <= 9999 /\
  (toKanji 2024 = toKanji 2025 -> 2024 = 2025).
Proof.
  split; [lia|]. split; [lia|].
  apply (proj1 (numerals_injective 2024 2025 ltac:(lia) ltac:(lia))).
Defined.
End NumeralReading.

Module Answers.
Import CalendarSpec Calendar WeekGrid Session Picker Templates.

(** A date is the day that its year, month and day of the month make. *)
Lemma MakeDay_fields t :
  MakeDay (YearFromTime t) (MonthFromTime t) (DateFromTime t) = t.
Proof.
  pose proof (getMonth_range t) as Hm. unfold getMonth in Hm.
  unfold MakeDay. rewrite Z.div_small, Z.mod_small by lia.
  replace (YearFromTime t + 0) with (YearFromTime t) by lia.
  fold (InLeapYear t).
  assert (E : MonthStart (InLeapYear t) (MonthFromTime t) + DateFromTime t - 1
              = DayWithinYear t).
  { unfold DateFromTime, MonthFromTime.
    destruct (DayWithinYear_range t) as [Hd Hl].
    revert Hd Hl. generalize (DayWithinYear t), (InLeapYear t).
    intros d l Hd Hl.
    repeat match goal with
           | |- context [?a <? ?b] =>
               destruct (Z.ltb_spec a b); [cbv iota beta delta [MonthStart]; lia|]
           end.
    cbv iota beta delta [MonthStart]. lia. }
  unfold DayWithinYear in E. lia.
Qed.

(** [setDate] on the day of the month plus [k] moves [k] days, also
    across the ends of the month. *)
Lemma setDate_offset t k : setDate t (getDate t + k) = t + k.
Proof.
  unfold setDate, getDate. rewrite MakeDay_shift.
  pose proof (MakeDay_fields t) as E. rewrite MakeDay_shift in E. lia.
Qed.

Lemma getDay_rem t : js_rem (getDay t) 7 = getDay t.
Proof. unfold js_rem. apply Z.rem_small. pose proof (getDay_range t). lia. Qed.

Ltac run_answer :=
  cbv beta iota zeta
      delta [bind ret throw field createQuestion answer entryAnswer].

(** X6.  For every reference date, the five day-of-week answers complete and
    name the weekday of the day two days before, one day before, on, one
    day after and two days after the date, also when that day is in
    another month or year. *)
Theorem weekday_answers date seed env n :
  Forall (fun '(q, k, title) =>
            exists e,
              index daysOfWeek (getDay (date + k)) = Some e /\
              answer q date seed env n = Normal (entryAnswer title e, n))
         weekdayTemplates.
Proof.
  assert (H : forall k, exists e,
              index daysOfWeek (js_rem (getDay (date + k)) 7) = Some e /\
              index daysOfWeek (getDay (date + k)) = Some e).
  { intros k. destruct (weekday_entry (date + k)) as [e He].
    exists e. split; [exact He|]. rewrite getDay_rem in He. exact He. }
  unfold weekdayTemplates. repeat constructor.
  - destruct (H (-2)) as (e & He & He'). exists e. split; [exact He'|].
    unfold weekdayBeforeYesterday. run_answer.
    change (getDate date - 2) with (getDate date + -2).
    rewrite setDate_offset, He. reflexivity.
  - destruct (H (-1)) as (e & He & He'). exists e. split; [exact He'|].
    unfold weekdayYesterday. run_answer.
    change (getDate date - 1) with (getDate date + -1).
    rewrite setDate_offset, He. reflexivity.
  - destruct (H 0) as (e & He & He'). exists e. split; [exact He'|].
    rewrite Z.add_0_r in He.
    unfold weekdayToday. run_answer. rewrite He. reflexivity.
  - destruct (H 1) as (e & He & He'). exists e. split; [exact He'|].
    unfold weekdayTomorrow. run_answer.
    rewrite setDate_offset, He. reflexivity.
  - destruct (H 2) as (e & He & He'). exists e. split; [exact He'|].
    unfold weekdayAfterTomorrow. run_answer.
    rewrite setDate_offset, He. reflexivity.
Qed.

(** The "next month" answer throws for a date in December. *)
Lemma monthNext_december date seed env n :
  getMonth date = 11 -> answer monthNext date seed env n = TypeError.
Proof.
  intros H. unfold monthNext. run_answer. rewrite H. reflexivity.
Qed.

(** The entries of [days] and [months] are those of the day and month
    numbers: their numerals are the ones [toKanji] writes. *)
Lemma days_checked :
  forallb (fun i => match index days (i - 1) with
                    | Some e => String.eqb (kanji e) (toKanji i ++ "日")
                    | None => false
                    end) (range 1 31) = true.
Proof. vm_compute. reflexivity. Qed.

Lemma months_checked :
  forallb (fun i => match index months (i - 1) with
                    | Some e => String.eqb (kanji e) (toKanji i ++ "月")
                    | None => false
                    end) (range 1 12) = true.
Proof. vm_compute. reflexivity. Qed.

Lemma days_entry i :
  1 <= i <= 31 ->
  exists e, index days (i - 1) = Some e /\ kanji e = toKanji i ++ "日".
Proof.
  intros Hi. pose proof days_checked as H.
  rewrite forallb_forall in H. specialize (H i (In_range 1 31 i Hi)).
  cbv beta in H. destruct (index days (i - 1)) as [e|]; [|discriminate].
  exists e. split; [reflexivity|]. apply String.eqb_eq, H.
Qed.

Lemma months_entry i :
  1 <= i <= 12 ->
  exists e, index months (i - 1) = Some e /\ kanji e = toKanji i ++ "月".
Proof.
  intros Hi. pose proof months_checked as H.
  rewrite forallb_forall in H. specialize (H i (In_range 1 12 i Hi)).
  cbv beta in H. destruct (index months (i - 1)) as [e|]; [|discriminate].
  exists e. split; [reflexivity|]. apply String.eqb_eq, H.
Qed.

Lemma index_outside {T} (l : list T) i :
  ~ (0 <= i < len l) -> index l i = None.
Proof.
  intros H. unfold index. destruct (Z.ltb_spec i 0); [reflexivity|].
  apply nth_error_None. unfold len in H. lia.
Qed.

(** What a day-of-month answer at offset [k] does on any date. *)
Lemma date_answer_cases date k :
  (1 <= getDate date + k <= 31 ->
   exists e, index days (getDate date + k - 1) = Some e /\
             kanji e = toKanji (getDate date + k) ++ "日") /\
  (~ (1 <= getDate date + k <= 31) ->
   index days (getDate date + k - 1) = None).
Proof.
  split.
  - apply days_entry.
  - intros H. apply index_outside. change (len days) with 31. lia.
Qed.

(** X7.  For every reference date, the day-of-month answer at offset [k]
    (from two days before to two days after) reads the entry of [days]
    for the number [getDate() + k]: it names that day of the month when
    the number is between 1 and 31, also when the month is shorter, and
    throws otherwise; the number is not carried into the neighbouring
    month. *)
Theorem day_of_month_answers date seed env n :
  Forall (fun '(q, k, title) =>
            (1 <= getDate date + k <= 31 ->
             exists e,
               index days (getDate date + k - 1) = Some e /\
               kanji e = toKanji (getDate date + k) ++ "日" /\
               answer q date seed env n = Normal (entryAnswer title e, n)) /\
            (~ (1 <= getDate date + k <= 31) ->
             answer q date seed env n = TypeError))
         dateTemplates.
Proof.
  unfold dateTemplates. repeat constructor.
  - intros H. destruct (proj1 (date_answer_cases date (-2)) H) as (e & He & Hk).
    exists e. split; [exact He|]. split; [exact Hk|].
    replace (getDate date + -2 - 1) with (getDate date - 3) in He by lia.
    unfold dateBeforeYesterday. run_answer. rewrite He. reflexivity.
  - intros H. pose proof (proj2 (date_answer_cases date (-2)) H) as He.
    replace (getDate date + -2 - 1) with (getDate date - 3) in He by lia.
    unfold dateBeforeYesterday. run_answer. rewrite He. reflexivity.
  - intros H. destruct (proj1 (date_answer_cases date (-1)) H) as (e & He & Hk).
    exists e. split; [exact He|]. split; [exact Hk|].
    replace (getDate date + -1 - 1) with (getDate date - 2) in He by lia.
    unfold dateYesterday. run_answer. rewrite He. reflexivity.
  - intros H. pose proof (proj2 (date_answer_cases date (-1)) H) as He.
    replace (getDate date + -1 - 1) with (getDate date - 2) in He by lia.
    unfold dateYesterday. run_answer. rewrite He. reflexivity.
  - intros H. destruct (proj1 (date_answer_cases date 0) H) as (e & He & Hk).
    exists e. split; [exact He|]. split; [exact Hk|].
    replace (getDate date + 0 - 1) with (getDate date - 1) in He by lia.
    unfold dateToday. run_answer. rewrite He. reflexivity.
  - intros H. pose proof (proj2 (date_answer_cases date 0) H) as He.
    replace (getDate date + 0 - 1) with (getDate date - 1) in He by lia.
    unfold dateToday. run_answer. rewrite He. reflexivity.
  - intros H. destruct (proj1 (date_answer_cases date 1) H) as (e & He & Hk).
    exists e. split; [exact He|]. split; [exact Hk|].
    replace (getDate date + 1 - 1) with (getDate date) in He by lia.
    unfold dateTomorrow. run_answer. rewrite He. reflexivity.
  - intros H. pose proof (proj2 (date_answer_cases date 1) H) as He.
    replace (getDate date + 1 - 1) with (getDate date) in He by lia.
    unfold dateTomorrow. run_answer. rewrite He. reflexivity.
  - intros H. destruct (proj1 (date_answer_cases date 2) H) as (e & He & Hk).
    exists e. split; [exact He|]. split; [exact Hk|].
    replace (getDate date + 2 - 1) with (getDate date + 1) in He by lia.
    unfold dateAfterTomorrow. run_answer. rewrite He. reflexivity.
  - intros H. pose proof (proj2 (date_answer_cases date 2) H) as He.
    replace (getDate date + 2 - 1) with (getDate date + 1) in He by lia.
    unfold dateAfterTomorrow. run_answer. rewrite He. reflexivity.
Qed.

Lemma day_of_month_answers_witness :
  let date := newDate 2024 3 30 in
  (1 <= getDate date + 1 <= 31 /\
   exists e,
     index days (getDate date + 1 - 1) = Some e /\
     kanji e = toKanji (getDate date + 1) ++ "日" /\
     answer dateTomorrow date None demo_env 0%nat
     = Normal (entryAnswer "What date is it tomorrow?" e, 0%nat)) /\
  (~ (1 <= getDate date + 2 <= 31) /\
   answer dateAfterTomorrow date None demo_env 0%nat = TypeError).
Proof.
  cbv zeta.
  pose proof (day_of_month_answers (newDate 2024 3 30) None demo_env 0%nat)
    as H.
  unfold dateTemplates in H.
  apply Forall_cons_iff in H. destruct H as [_ H].
  apply Forall_cons_iff in H. destruct H as [_ H].
  apply Forall_cons_iff in H. destruct H as [_ H].
  apply Forall_cons_iff in H. destruct H as [[H1 _] H].
  apply Forall_cons_iff in H. destruct H as [[_ H2] _].
  assert (E : getDate (newDate 2024 3 30) = 30) by (vm_compute; reflexivity).
  assert (G1 : 1 <= getDate (newDate 2024 3 30) + 1 <= 31)
    by (rewrite E; lia).
  assert (G2 : ~ (1 <= getDate (newDate 2024 3 30) + 2 <= 31))
    by (rewrite E; lia).
  split.
  - split; [exact G1|]. exact (H1 G1).
  - split; [exact G2|]. exact (H2 G2).
Defined.

(** X8.  The "last month" and "this month" answers complete for every date
    and name the month before, January itself for a date in January, and
    the month of the date.  The "next month" answer names the month
    after for a date from January to November and throws for every date
    in December. *)
Theorem month_answers date seed env n :
  (exists e,
     index months (Z.max (getMonth date - 1) 0) = Some e /\
     kanji e = toKanji (Z.max (getMonth date) 1) ++ "月" /\
     answer monthLast date seed env n
     = Normal (entryAnswer "What month was it last month?" e, n)) /\
  (exists e,
     index months (getMonth date) = Some e /\
     kanji e = toKanji (getMonth date + 1) ++ "月" /\
     answer monthThis date seed env n
     = Normal (entryAnswer "What month is it this month?" e, n)) /\
  (getMonth date <= 10 ->
   exists e,
     index months (getMonth date + 1) = Some e /\
     kanji e = toKanji (getMonth date + 2) ++ "月" /\
     answer monthNext date seed env n
     = Normal (entryAnswer "What month is it next month?" e, n)) /\
  (getMonth date = 11 -> answer monthNext date seed env n = TypeError).
Proof.
  pose proof (getMonth_range date) as Hm.
  split; [|split; [|split]].
  - destruct (months_entry (Z.max (getMonth date) 1)) as (e & He & Hk); [lia|].
    replace (Z.max (getMonth date) 1 - 1)
      with (Z.max (getMonth date - 1) 0) in He by lia.
    exists e. split; [exact He|]. split; [exact Hk|].
    unfold monthLast. run_answer. rewrite He. reflexivity.
  - destruct (months_entry (getMonth date + 1)) as (e & He & Hk); [lia|].
    replace (getMonth date + 1 - 1) with (getMonth date) in He by lia.
    exists e. split; [exact He|]. split; [exact Hk|].
    unfold monthThis. run_answer. rewrite He. reflexivity.
  - intros H10.
    destruct (months_entry (getMonth date + 2)) as (e & He & Hk); [lia|].
    replace (getMonth date + 2 - 1) with (getMonth date + 1) in He by lia.
    exists e. split; [exact He|]. split; [exact Hk|].
    unfold monthNext. run_answer.
    rewrite Z.min_l by lia. rewrite He. reflexivity.
  - apply monthNext_december.
Qed.

Lemma month_answers_witness :
  getMonth (newDate 2024 0 15) <= 10 /\
  exists e,
    index months (getMonth (newDate 2024 0 15) + 1) = Some e /\
    kanji e = toKanji (getMonth (newDate 2024 0 15) + 2) ++ "月" /\
    answer monthNext (newDate 2024 0 15) None demo_env 0%nat
    = Normal (entryAnswer "What month is it next month?" e, 0%nat).
Proof.
  assert (H : getMonth (newDate 2024 0 15) <= 10)
    by (vm_compute; discriminate).
  split; [exact H|].
  apply (proj1 (proj2 (proj2 (month_answers (newDate 2024 0 15) None
                                 demo_env 0%nat))) H).
Defined.

End Answers.

Module GridShape.
Import CalendarSpec Calendar WeekGrid Session Picker Templates.

Lemma getDay_offset d i : getDay (d + i) = (getDay d + i) mod 7.
Proof.
  unfold getDay, WeekDay.
  replace (d + i + 4) with ((d + 4) + i) by lia.
  rewrite Z.add_mod_idemp_l by lia. reflexivity.
Qed.

Lemma nth_error_gridRow first n r k :
  nth_error (gridRow first n r) k
  = if (k <? 7)%nat then Some (gridCell first n r k) else None.
Proof.
  unfold gridRow. rewrite nth_error_map.
  destruct (Nat.ltb_spec k 7) as [Hk|Hk].
  - rewrite nth_error_seq. 
    destruct (Nat.ltb_spec k 7); [reflexivity | lia].
  - rewrite (proj2 (nth_error_None (seq 0 7) k)); [reflexivity|].
    rewrite length_seq. exact Hk.
Qed.

Lemma gridRow_length first n r : List.length (gridRow first n r) = 7%nat.
Proof. unfold gridRow. rewrite length_map, length_seq. reflexivity. Qed.

(** Rows agree when their slots do. *)
Lemma gridRow_ext first n n' r r' :
  (forall k, (k < 7)%nat -> gridCell first n r k = gridCell first n' r' k) ->
  gridRow first n r = gridRow first n' r'.
Proof.
  intros H. unfold gridRow. apply map_ext_in. intros k Hk.
  apply in_seq in Hk. apply H. lia.
Qed.

(** Writing day [i] into the row under construction. *)
Lemma gridRow_step first i :
  0 <= i ->
  let r := Z.to_nat ((getDay first + i) / 7) in
  array_set (gridRow first i r) (getDay (first + i)) (Some (first + i))
  = gridRow first (i + 1) r.
Proof.
  intros Hi r.
  pose proof (getDay_range first) as Hw.
  pose proof (Z.div_mod (getDay first + i) 7 ltac:(lia)) as Hq.
  pose proof (Z.mod_pos_bound (getDay first + i) 7 ltac:(lia)) as Hs.
  assert (Hr : Z.of_nat r = (getDay first + i) / 7).
  { unfold r. apply Z2Nat.id. apply Z.div_pos; lia. }
  rewrite array_set_row by apply gridRow_length.
  rewrite getDay_offset.
  apply nth_error_ext. intros k.
  rewrite nth_error_update_nth, !nth_error_gridRow, gridRow_length.
  destruct (Nat.eqb_spec k (Z.to_nat ((getDay first + i) mod 7))) as [E|E].
  - subst k.
    destruct (Nat.ltb_spec (Z.to_nat ((getDay first + i) mod 7)) 7); [|lia].
    unfold gridCell. cbv zeta. rewrite Z2Nat.id, Hr by lia.
    replace (7 * ((getDay first + i) / 7) + (getDay first + i) mod 7
             - getDay first) with i by lia.
    destruct (Z.leb_spec 0 i); [|lia].
    destruct (Z.ltb_spec i (i + 1)); [|lia]. reflexivity.
  - destruct (Nat.ltb_spec k 7) as [Hk|Hk]; [|reflexivity].
    f_equal. unfold gridCell. cbv zeta. rewrite Hr.
    set (j := 7 * ((getDay first + i) / 7) + Z.of_nat k - getDay first).
    assert (j <> i) by (unfold j; intros Hj; apply E; lia).
    destruct (Z.leb_spec 0 j); [|reflexivity]. cbn [andb].
    destruct (Z.ltb_spec j i), (Z.ltb_spec j (i + 1)); try reflexivity; lia.
Qed.

(** A row that is full, or that holds the last day, is a row of the
    whole month. *)
Lemma gridRow_done first i n r :
  0 <= i < n -> Z.of_nat r = (getDay first + i) / 7 ->
  (getDay first + i) mod 7 = 6 \/ i + 1 = n ->
  gridRow first (i + 1) r = gridRow first n r.
Proof.
  intros Hi Hr Hend.
  pose proof (Z.div_mod (getDay first + i) 7 ltac:(lia)) as Hq.
  pose proof (Z.mod_pos_bound (getDay first + i) 7 ltac:(lia)) as Hs.
  apply gridRow_ext. intros k Hk. unfold gridCell. cbv zeta. rewrite Hr.
  set (j := 7 * ((getDay first + i) / 7) + Z.of_nat k - getDay first).
  destruct (Z.leb_spec 0 j); [|reflexivity]. cbn [andb].
  destruct Hend as [H6|Hn].
  - assert (j <= i) by (unfold j; lia).
    destruct (Z.ltb_spec j (i + 1)), (Z.ltb_spec j n); try reflexivity; lia.
  - rewrite Hn. reflexivity.
Qed.

(** The row that starts after day [i] is empty so far. *)
Lemma gridRow_fresh first i r :
  Z.of_nat r = (getDay first + i) / 7 + 1 ->
  (getDay first + i) mod 7 = 6 ->
  gridRow first (i + 1) r = emptyWeek.
Proof.
  intros Hr H6.
  pose proof (Z.div_mod (getDay first + i) 7 ltac:(lia)) as Hq.
  change emptyWeek with (map (fun _ : nat => @None Date) (seq 0 7)).
  unfold gridRow. apply map_ext_in. intros k Hk. apply in_seq in Hk.
  unfold gridCell. cbv zeta. rewrite Hr.
  set (j := 7 * ((getDay first + i) / 7 + 1) + Z.of_nat k - getDay first).
  assert (i + 1 <= j) by (unfold j; lia).
  destruct (Z.leb_spec 0 j); [|reflexivity]. cbn [andb].
  destruct (Z.ltb_spec j (i + 1)); [lia | reflexivity].
Qed.

Lemma run_of_cons c a n :
  run_of c a (S n) = (c + Z.of_nat a) :: run_of c (S a) n.
Proof. reflexivity. Qed.

(** The loop of [getWeeks], started on day [i] with the rows completed
    so far and the row under construction, ends on the grid. *)
Lemma getWeeks_loop_grid first n : forall rem i,
  (0 < rem)%nat -> Z.of_nat i + Z.of_nat rem = n ->
  let q := (getDay first + Z.of_nat i) / 7 in
  getWeeks_loop (run_of first i rem)
    (map (gridRow first n) (seq 0 (Z.to_nat q)))
    (gridRow first (Z.of_nat i) (Z.to_nat q))
  = grid first n.
Proof.
  pose proof (getDay_range first) as Hw.
  induction rem as [|rem IH]; intros i Hpos Hn q; [lia|].
  pose proof (Z.div_mod (getDay first + Z.of_nat i) 7 ltac:(lia)) as Hq.
  pose proof (Z.mod_pos_bound (getDay first + Z.of_nat i) 7 ltac:(lia)) as Hs.
  assert (Hq0 : 0 <= q) by (apply Z.div_pos; lia).
  rewrite run_of_cons. cbn [getWeeks_loop].
  unfold q. rewrite gridRow_step by lia. fold q.
  rewrite getDay_offset.
  destruct rem as [|rem].
  - (* the last day *)
    rewrite orb_true_r. cbn [run_of map seq getWeeks_loop].
    rewrite (gridRow_done first (Z.of_nat i) n) by (try rewrite Z2Nat.id; lia).
    unfold grid.
    replace (Z.to_nat ((getDay first + n + 6) / 7)) with (S (Z.to_nat q)).
    + rewrite seq_S, map_app. reflexivity.
    + replace (getDay first + n + 6) with (getDay first + Z.of_nat i + 1 * 7)
        by lia.
      rewrite Z.div_add by lia. fold q. lia.
  - rewrite orb_false_r.
    destruct (Z.eqb_spec ((getDay first + Z.of_nat i) mod 7) 6) as [H6|H6].
    + (* a Saturday: the row is pushed *)
      assert (Hq' : (getDay first + Z.of_nat (S i)) / 7 = q + 1).
      { replace (getDay first + Z.of_nat (S i))
          with (0 + (q + 1) * 7) by (unfold q; lia).
        rewrite Z.div_add by lia. reflexivity. }
      specialize (IH (S i) ltac:(lia) ltac:(lia)). cbv zeta in IH.
      rewrite Hq' in IH.
      replace (Z.to_nat (q + 1)) with (S (Z.to_nat q)) in IH by lia.
      rewrite seq_S, map_app in IH. cbn [map Nat.add] in IH.
      replace (Z.of_nat (S i)) with (Z.of_nat i + 1) in IH by lia.
      rewrite (gridRow_fresh first (Z.of_nat i) (S (Z.to_nat q))) in IH
        by (fold q; lia).
      rewrite (gridRow_done first (Z.of_nat i) n) by (try rewrite Z2Nat.id; lia).
      exact IH.
    + assert (Hq' : (getDay first + Z.of_nat (S i)) / 7 = q).
      { symmetry. apply (Z.div_unique _ 7 q
          ((getDay first + Z.of_nat i) mod 7 + 1)); unfold q; lia. }
      specialize (IH (S i) ltac:(lia) ltac:(lia)). cbv zeta in IH.
      rewrite Hq' in IH.
      replace (Z.of_nat (S i)) with (Z.of_nat i + 1) in IH by lia.
      exact IH.
Qed.

Lemma run_of_shift c n : run_of c 1 n = run_of (c + 1) 0 n.
Proof.
  unfold run_of. rewrite <- seq_shift, map_map. apply map_ext.
  intros i. lia.
Qed.

Lemma gridRow_empty first r :
  gridRow first 0 r = emptyWeek.
Proof.
  change emptyWeek with (map (fun _ : nat => @None Date) (seq 0 7)).
  unfold gridRow. apply map_ext. intros k. unfold gridCell. cbv zeta.
  match goal with |- context [0 <=? ?j] => destruct (Z.leb_spec 0 j) end;
    [|reflexivity].
  cbn [andb].
  match goal with |- context [?j <? 0] => destruct (Z.ltb_spec j 0) end;
    [lia | reflexivity].
Qed.

(** [getWeeks] computes the grid of the month. *)
Lemma getWeeks_grid_form date :
  ~ (0 <= getFullYear date <= 99) ->
  getWeeks date
  = grid (newDate (getFullYear date) (getMonth date) 1)
         (daysIn (getFullYear date) (getMonth date)).
Proof.
  intros Hy.
  pose proof (daysIn_pos (getFullYear date) (getMonth date)) as Hn.
  rewrite getWeeks_unfold, calendarDays_run by exact Hy.
  rewrite run_of_shift.
  rewrite newDate_MakeDay by exact Hy.
  rewrite (MakeDay_shift _ _ 1).
  set (first := MakeDay (getFullYear date) (getMonth date) 0 + 1).
  set (n := daysIn (getFullYear date) (getMonth date)) in *.
  pose proof (getDay_range first) as Hw.
  pose proof (getWeeks_loop_grid first n (Z.to_nat n) 0
                ltac:(lia) ltac:(lia)) as H.
  cbv zeta in H. change (Z.of_nat 0) with 0 in H.
  rewrite Z.add_0_r, Z.div_small in H by lia.
  change (Z.to_nat 0) with 0%nat in H. cbn [seq map] in H.
  rewrite gridRow_empty in H. exact H.
Qed.

Lemma grid_length first n :
  len (grid first n) = Z.max 0 ((getDay first + n + 6) / 7).
Proof. unfold len, grid. rewrite length_map, length_seq. lia. Qed.

(** Every row of the grid of a month holds a day. *)
Lemma grid_rows_hold_days first n row :
  1 <= n -> In row (grid first n) -> filter_dates row <> [].
Proof.
  intros Hn Hin.
  pose proof (getDay_range first) as Hw.
  unfold grid in Hin. apply in_map_iff in Hin.
  destruct Hin as (r & <- & Hr). apply in_seq in Hr.
  assert (Hlt : Z.of_nat r < (getDay first + n + 6) / 7) by lia.
  assert (H7 : 7 * Z.of_nat r + 7 <= getDay first + n + 6).
  { pose proof (Z.div_mod (getDay first + n + 6) 7 ltac:(lia)).
    pose proof (Z.mod_pos_bound (getDay first + n + 6) 7 ltac:(lia)). lia. }
  assert (H : exists k d, (k < 7)%nat /\ gridCell first n r k = Some d).
  { destruct r as [|r].
    - exists (Z.to_nat (getDay first)), first. split; [lia|].
      unfold gridCell. cbv zeta. rewrite Z2Nat.id by lia.
      replace (7 * Z.of_nat 0 + getDay first - getDay first) with 0 by lia.
      destruct (Z.ltb_spec 0 n); [|lia]. cbn. f_equal. lia.
    - exists 0%nat. eexists. split; [lia|].
      unfold gridCell. cbv zeta.
      set (j := 7 * Z.of_nat (S r) + Z.of_nat 0 - getDay first).
      assert (0 <= j < n) by (unfold j; lia).
      destruct (Z.leb_spec 0 j); [|lia].
      destruct (Z.ltb_spec j n); [|lia]. reflexivity. }
  destruct H as (k & d & Hk & Hd).
  assert (Hin : In (Some d) (gridRow first n r)).
  { rewrite <- Hd. unfold gridRow. apply in_map. apply in_seq. lia. }
  apply In_filter_dates in Hin. intros E. rewrite E in Hin. exact Hin.
Qed.

(** X9.  For a date whose year is not one of the years 0 to 99, [getWeeks]
    returns the grid of the month in closed form: with [w] the weekday
    of the first of the month and [n] the number of days, there are
    [(w + n + 6) / 7] rows, between four and six; slot [k] of row [r]
    holds the day [7 r + k - w + 1] of the month when that is a day of
    the month and [null] otherwise; and every row holds a day. *)
Theorem getWeeks_closed_form date :
  ~ (0 <= getFullYear date <= 99) ->
  let first := newDate (getFullYear date) (getMonth date) 1 in
  let n := daysIn (getFullYear date) (getMonth date) in
  getWeeks date = grid first n /\
  len (getWeeks date) = (getDay first + n + 6) / 7 /\
  4 <= len (getWeeks date) <= 6 /\
  Forall (fun row => filter_dates row <> []) (getWeeks date).
Proof.
  intros Hy first n.
  pose proof (daysIn_pos (getFullYear date) (getMonth date)) as Hn.
  pose proof (getDay_range first) as Hw.
  fold n in Hn.
  assert (E : getWeeks date = grid first n) by (apply getWeeks_grid_form, Hy).
  assert (Hdiv : 4 <= (getDay first + n + 6) / 7 <= 6).
  { split.
    - apply Z.div_le_lower_bound; lia.
    - apply Z.lt_succ_r. apply Z.div_lt_upper_bound; lia. }
  split; [exact E|]. rewrite E, grid_length.
  split; [lia|]. split; [lia|].
  apply Forall_forall. intros row Hin.
  apply (grid_rows_hold_days first n); [lia | exact Hin].
Qed.

Lemma getWeeks_closed_form_witness :
  ~ (0 <= getFullYear (newDate 2024 1 10) <= 99) /\
  len (getWeeks (newDate 2024 1 10)) = 5.
Proof.
  assert (H : ~ (0 <= getFullYear (newDate 2024 1 10) <= 99))
    by (vm_compute; intros [_ H]; apply H; reflexivity).
  split; [exact H|].
  destruct (getWeeks_closed_form (newDate 2024 1 10) H) as (_ & E & _).
  rewrite E. vm_compute. reflexivity.
Defined.

End GridShape.

Module WeekTemplates.
Import CalendarSpec Calendar WeekGrid Session Picker Templates RandomPicks Answers GridShape.

Lemma filter_dates_In {T} (d : T) row :
  In d (filter_dates row) -> In (Some d) row.
Proof.
  unfold filter_dates. rewrite in_flat_map. intros (e & He & Hd).
  destruct e as [x|]; [|contradiction].
  destruct Hd as [<-|[]]. exact He.
Qed.

(** With the wall clock in the month of the reference date, a
    week-relative template finds the row at offset [k] and picks a day
    of it. *)
Lemma week_target date seed env n k :
  unit_interval env -> seed_in_unit seed ->
  ~ (0 <= getFullYear date <= 99) ->
  getFullYear (wall_clock env) = getFullYear date ->
  getMonth (wall_clock env) = getMonth date ->
  0 <= weekRow date + k < len (getWeeks date) ->
  exists row target,
    index (getWeeks (wall_clock env))
          (findIndex (existsb (isDate date)) (getWeeks (wall_clock env)) + k)
    = Some row /\
    index (getWeeks date) (weekRow date + k) = Some row /\
    In (Some target) row /\
    randomFromList (filter_dates row) seed env n
    = Normal (Some target, after_pick seed n).
Proof.
  intros Hu Hs Hy Ey Em Hk.
  rewrite (getWeeks_fields (wall_clock env) date Ey Em).
  fold (weekRow date).
  destruct (index_Some (getWeeks date) (weekRow date + k) Hk) as [row Hrow].
  assert (Hin : In row (getWeeks date)) by (eapply index_In; exact Hrow).
  assert (Hne : filter_dates row <> []).
  { rewrite getWeeks_grid_form in Hin by exact Hy.
    pose proof (daysIn_pos (getFullYear date) (getMonth date)).
    eapply grid_rows_hold_days; [|exact Hin]. lia. }
  destruct (randomFromList_pick (filter_dates row) seed env n Hne Hu Hs)
    as (target & E & Ht).
  exists row, target. split; [exact Hrow|]. split; [exact Hrow|].
  split; [apply filter_dates_In, Ht | exact E].
Qed.

Ltac run_template :=
  cbv beta iota zeta
      delta [bind ret throw field new_Date_now createQuestion answer
             entryAnswer].


Ltac step_template E1 E3 He Hd :=
  run_template;
  rewrite ?E1; cbv beta iota; rewrite ?E3; cbv beta iota;
  rewrite ?Hd; cbv beta iota; rewrite ?He; cbv beta iota.



End WeekTemplates.

Module CalendarView.
Import CalendarSpec Calendar WeekGrid Session Picker Templates Answers GridShape.

Lemma classCount_h c tagName className attributes children :
  classCount c (h tagName className attributes children)
  = ((if String.eqb className c then 1 else 0)
     + list_sum (map (classCount c) children))%nat.
Proof. reflexivity. Qed.

Lemma list_sum_zero {A} (f : A -> nat) l :
  (forall x, In x l -> f x = 0%nat) -> list_sum (map f l) = 0%nat.
Proof.
  induction l as [|x r IH]; intros H; [reflexivity|].
  simpl. rewrite (H x (or_introl eq_refl)), IH; [reflexivity|].
  intros y Hy. apply H. right. exact Hy.
Qed.

Lemma list_sum_const {A} (f : A -> nat) l c :
  (forall x, In x l -> f x = c) ->
  list_sum (map f l) = (List.length l * c)%nat.
Proof.
  induction l as [|x r IH]; intros H; [reflexivity|].
  simpl. rewrite (H x (or_introl eq_refl)), IH; [reflexivity|].
  intros y Hy. apply H. right. exact Hy.
Qed.

Lemma list_sum_flat {A} (f : A -> nat) (l : list (list A)) :
  list_sum (map (fun row => list_sum (map f row)) l)
  = list_sum (map f (flat l)).
Proof.
  unfold flat. induction l as [|row r IH]; [reflexivity|].
  simpl. rewrite map_app, list_sum_app, IH. reflexivity.
Qed.

Lemma list_sum_filter_dates {T} (f : T -> nat) (row : list (option T)) :
  list_sum (map (fun e => match e with Some d => f d | None => 0%nat end) row)
  = list_sum (map f (filter_dates row)).
Proof.
  unfold filter_dates. induction row as [|[d|] r IH]; [reflexivity| |].
  - simpl. rewrite IH. reflexivity.
  - simpl. exact IH.
Qed.

Lemma filter_dates_flat {T} (l : list (list (option T))) :
  filter_dates (flat l) = flat (map filter_dates l).
Proof.
  unfold flat, filter_dates. induction l as [|row r IH]; [reflexivity|].
  simpl. rewrite flat_map_app, IH. reflexivity.
Qed.

(** Exactly one number of a run is [g]. *)
Lemma one_of_seq g : forall n a,
  (a <= g < a + n)%nat ->
  list_sum (map (fun i => if Nat.eqb i g then 1%nat else 0%nat) (seq a n))
  = 1%nat.
Proof.
  induction n as [|n IH]; intros a H; [lia|].
  simpl. destruct (Nat.eqb_spec a g) as [->|Hne].
  - rewrite list_sum_zero; [reflexivity|].
    intros x Hx. apply in_seq in Hx.
    destruct (Nat.eqb_spec x g); [lia | reflexivity].
  - rewrite IH by lia. reflexivity.
Qed.

Lemma MakeDay_next_year y d : MakeDay y 12 d = MakeDay (y + 1) 0 d.
Proof.
  unfold MakeDay. change (12 / 12) with 1. change (12 mod 12) with 0.
  change (0 / 12) with 0. change (0 mod 12) with 0.
  rewrite (Z.add_0_r (y + 1)). reflexivity.
Qed.

(** The day of the month of a date is a day of its month. *)
Lemma getDate_in_month date :
  1 <= getDate date <= daysIn (getFullYear date) (getMonth date).
Proof.
  pose proof (getDate_range date) as Hg.
  pose proof (getMonth_range date) as Hm.
  split; [lia|].
  destruct (Z_le_gt_dec (getDate date)
              (daysIn (getFullYear date) (getMonth date))) as [H|H];
    [exact H | exfalso].
  set (y := getFullYear date) in *. set (m := getMonth date) in *.
  pose proof (daysIn_pos y m) as Hn.
  pose proof (MakeDay_fields date) as E.
  change (YearFromTime date) with y in E.
  change (MonthFromTime date) with m in E.
  change (DateFromTime date) with (getDate date) in E.
  rewrite MakeDay_shift in E.
  pose proof (MakeDay_month_end y m Hm) as Hend.
  rewrite (MakeDay_shift y m (daysIn y m)) in Hend.
  assert (E' : date = MakeDay y (m + 1) (getDate date - daysIn y m))
    by (rewrite MakeDay_shift; lia).
  destruct (Z.eq_dec m 11) as [H11|H11].
  - rewrite H11 in E'. change (11 + 1) with 12 in E'.
    rewrite MakeDay_next_year in E'.
    pose proof (daysIn_pos (y + 1) 0).
    destruct (civil_fields (y + 1) 0 (getDate date - daysIn y 11))
      as (Hy' & _); [lia | rewrite <- H11; lia |].
    rewrite <- E' in Hy'. fold y in Hy'. lia.
  - pose proof (daysIn_pos y (m + 1)).
    destruct (civil_fields y (m + 1) (getDate date - daysIn y m))
      as (_ & Hm' & _); [lia | lia |].
    rewrite <- E' in Hm'. fold m in Hm'. lia.
Qed.

(** One slot of the grid of the month of [date] holds a day with the
    day of the month of [date]. *)
Lemma one_active_slot date :
  ~ (0 <= getFullYear date <= 99) ->
  list_sum (map (fun week =>
              list_sum (map (fun day => if isDate date day then 1%nat else 0%nat)
                            week))
              (getWeeks date)) = 1%nat.
Proof.
  intros Hy.
  pose proof (getDate_in_month date) as Hg.
  pose proof (getMonth_range date) as Hm.
  rewrite list_sum_flat.
  rewrite (map_ext _ (fun e => match e with
                               | Some d => if getDate d =? getDate date
                                           then 1%nat else 0%nat
                               | None => 0%nat
                               end))
    by (intros [d|]; reflexivity).
  rewrite list_sum_filter_dates.
  replace (filter_dates (flat (getWeeks date)))
    with (flat (map filter_dates (getWeeks date))).
  2:{ symmetry. apply filter_dates_flat. }
  rewrite (proj2 (getWeeks_grid date Hy)).
  unfold calendarDays. rewrite map_map.
  rewrite (map_ext_in _ (fun i => if Nat.eqb i (Z.to_nat (getDate date))
                                  then 1%nat else 0%nat)).
  - apply one_of_seq. lia.
  - intros i Hi. apply in_seq in Hi.
    rewrite newDate_MakeDay by exact Hy.
    destruct (civil_fields (getFullYear date) (getMonth date) (Z.of_nat i))
      as (_ & _ & ->); [lia | lia |].
    destruct (Z.eqb_spec (Z.of_nat i) (getDate date)),
             (Nat.eqb_spec i (Z.to_nat (getDate date)));
      try reflexivity; lia.
Qed.

Ltac eval_classes :=
  repeat match goal with
         | |- context [String.eqb ?a ?b] =>
             let v := eval vm_compute in (String.eqb a b) in
             lazymatch v with
             | true => change (String.eqb a b) with true
             | false => change (String.eqb a b) with false
             end
         end.

Ltac count_classes :=
  repeat (rewrite classCount_h; cbn [map list_sum classCount]);
  eval_classes; cbv iota; cbn [Nat.add list_sum].

(** The rows of the grid have seven slots. *)
Lemma week_length date week :
  ~ (0 <= getFullYear date <= 99) ->
  In week (getWeeks date) -> List.length week = 7%nat.
Proof.
  intros Hy Hin. rewrite getWeeks_grid_form in Hin by exact Hy.
  unfold grid in Hin. apply in_map_iff in Hin.
  destruct Hin as (r & <- & _). apply gridRow_length.
Qed.

Lemma textsOfClass_h c tagName className attributes children :
  textsOfClass c (h tagName className attributes children)
  = ((if String.eqb className c then flat_map textsOf children else [])
     ++ flat_map (textsOfClass c) children)%list.
Proof. reflexivity. Qed.

Lemma flat_map_repeat {A B} (t : B) (f : A -> nat) (l : list A) :
  flat_map (fun x => repeat t (f x)) l = repeat t (list_sum (map f l)).
Proof.
  induction l as [|x r IH]; [reflexivity|].
  simpl. rewrite IH, repeat_app. reflexivity.
Qed.

Ltac collect_texts :=
  repeat (rewrite textsOfClass_h;
          cbn [flat_map textsOfClass textsOf app]);
  eval_classes; cbv iota; cbn [app]; rewrite ?app_nil_r; cbn [app].

Lemma flat_map_map {A B C} (f : B -> list C) (g : A -> B) l :
  flat_map f (map g l) = flat_map (fun x => f (g x)) l.
Proof.
  induction l as [|x r IH]; [reflexivity|]. simpl. rewrite IH. reflexivity.
Qed.

(** The one active cell of the calendar shows the day of the month of
    the date. *)
Lemma active_cell date :
  ~ (0 <= getFullYear date <= 99) ->
  textsOfClass "calendar--day calendar--day-active" (Calendar date)
  = [Number_toString (getDate date)].
Proof.
  intros Hy. pose proof (one_active_slot date Hy) as Hone.
  unfold Calendar. cbv zeta. revert Hone. clear.
  generalize (getWeeks date). intros weeks Hone.
  collect_texts. rewrite flat_map_map.
  rewrite (flat_map_ext _ (fun week =>
     repeat (Number_toString (getDate date))
       (list_sum (map (fun day => if isDate date day then 1 else 0)%nat
                      week)))).
  - rewrite flat_map_repeat, Hone. reflexivity.
  - intros week. collect_texts. rewrite flat_map_map.
    rewrite <- flat_map_repeat. apply flat_map_ext. intros day.
    rewrite textsOfClass_h. destruct day as [d|]; [|reflexivity].
    cbn [isDate]. destruct (Z.eqb_spec (getDate d) (getDate date)) as [E|E];
      [rewrite E|]; reflexivity.
Qed.

(** X11.  The calendar of a date whose year is not one of the years 0 to 99
    has one row per week of the grid of [getWeeks], between four and
    six, seven weekday headings and seven day cells per row; exactly one
    cell is marked active, and it shows the day of the month of the
    date. *)
Theorem calendar_marks_the_date date :
  ~ (0 <= getFullYear date <= 99) ->
  textsOfClass "calendar--day calendar--day-active" (Calendar date)
  = [Number_toString (getDate date)] /\
  classCount "calendar--day calendar--day-active" (Calendar date) = 1%nat /\
  classCount "calendar--day" (Calendar date)
  = (7 * List.length (getWeeks date) - 1)%nat /\
  classCount "calendar--week" (Calendar date) = List.length (getWeeks date) /\
  classCount "calendar--weekday" (Calendar date) = 7%nat /\
  (4 <= List.length (getWeeks date) <= 6)%nat.
Proof.
  intros Hy.
  pose proof (one_active_slot date Hy) as Hone.
  assert (Hrows : (4 <= List.length (getWeeks date) <= 6)%nat).
  { rewrite getWeeks_grid_form by exact Hy. unfold grid.
    rewrite length_map, length_seq.
    pose proof (daysIn_pos (getFullYear date) (getMonth date)).
    pose proof (getDay_range (newDate (getFullYear date) (getMonth date) 1)).
    split.
    - apply Nat2Z.inj_le. rewrite Z2Nat.id by (apply Z.div_pos; lia).
      apply Z.div_le_lower_bound; lia.
    - apply Nat2Z.inj_le. rewrite Z2Nat.id by (apply Z.div_pos; lia).
      apply Z.lt_succ_r. apply Z.div_lt_upper_bound; lia. }
  (* the cells of a row, one by one *)
  assert (Hcells : forall week, In week (getWeeks date) ->
            (list_sum (map (fun day => if isDate date day then 1 else 0) week)
             + list_sum (map (fun day => if isDate date day then 0 else 1) week)
             = 7)%nat).
  { intros week Hin. pose proof (week_length date week Hy Hin) as Hlen.
    clear - Hlen. revert Hlen. generalize 7%nat.
    induction week as [|day rest IH]; intros k Hk; simpl in *; [lia|].
    destruct k as [|k]; [lia|]. specialize (IH k ltac:(lia)).
    destruct (isDate date day); lia. }
  assert (Hrest :
    (list_sum (map (fun week =>
        list_sum (map (fun day => if isDate date day then 0 else 1) week))
        (getWeeks date)) + 1
     = 7 * List.length (getWeeks date))%nat).
  { rewrite <- Hone at 1. revert Hcells. generalize (getWeeks date).
    induction l as [|week rest IH]; intros H; [reflexivity|].
    simpl. pose proof (H week (or_introl eq_refl)).
    specialize (IH (fun w Hw => H w (or_intror Hw))). lia. }
  split; [exact (active_cell date Hy)|].
  split; [|split; [|split; [|split]]].
  - unfold Calendar. cbv zeta. revert Hone. clear.
    generalize (getWeeks date). intros weeks Hone.
    count_classes. rewrite map_map.
    rewrite (map_ext _ (fun week =>
       list_sum (map (fun day => if isDate date day then 1 else 0)%nat week))).
    + rewrite Hone. reflexivity.
    + intros week. count_classes. rewrite map_map. f_equal.
      apply map_ext. intros day. rewrite classCount_h.
      destruct (isDate date day); reflexivity.
  - unfold Calendar. cbv zeta. revert Hrest. clear.
    generalize (getWeeks date). intros weeks Hrest.
    count_classes. rewrite map_map.
    rewrite (map_ext _ (fun week =>
       list_sum (map (fun day => if isDate date day then 0 else 1)%nat week))).
    + unfold Week in *. cbn [list_sum fold_right Nat.add]. lia.
    + intros week. count_classes. rewrite map_map. f_equal.
      apply map_ext. intros day. rewrite classCount_h.
      destruct (isDate date day); reflexivity.
  - unfold Calendar. cbv zeta. clear.
    generalize (getWeeks date). intros weeks.
    count_classes. rewrite map_map.
    rewrite (map_ext _ (fun _ => 1%nat)).
    + rewrite (list_sum_const _ _ 1%nat) by reflexivity.
      unfold Week in *. cbn [list_sum fold_right Nat.add]. lia.
    + intros week. count_classes. rewrite map_map.
      rewrite list_sum_zero; [reflexivity|].
      intros day _. rewrite classCount_h.
      destruct (isDate date day); reflexivity.
  - unfold Calendar. cbv zeta. clear.
    generalize (getWeeks date). intros weeks.
    count_classes. rewrite map_map.
    rewrite list_sum_zero; [reflexivity|].
    intros week _. count_classes. rewrite map_map.
    rewrite list_sum_zero; [reflexivity|].
    intros day _. rewrite classCount_h.
    destruct (isDate date day); reflexivity.
  - exact Hrows.
Qed.

Lemma calendar_marks_the_date_witness :
  ~ (0 <= getFullYear (newDate 2024 1 10) <= 99) /\
  textsOfClass "calendar--day calendar--day-active"
    (Calendar (newDate 2024 1 10)) = ["10"] /\
  classCount "calendar--week" (Calendar (newDate 2024 1 10)) = 5%nat.
Proof.
  assert (H : ~ (0 <= getFullYear (newDate 2024 1 10) <= 99))
    by (vm_compute; intros [_ H]; apply H; reflexivity).
  split; [exact H|].
  destruct (calendar_marks_the_date (newDate 2024 1 10) H)
    as (E1 & _ & _ & E2 & _).
  rewrite E1, E2. split; vm_compute; reflexivity.
Defined.

Lemma Forall_range (P : Z -> Prop) lo hi :
  Forall P (range lo hi) -> forall i, lo <= i <= hi -> P i.
Proof.
  intros H i Hi. rewrite Forall_forall in H. apply H, In_range, Hi.
Qed.

Ltac each_of lo hi :=
  let r := eval vm_compute in (range lo hi) in
  change (range lo hi) with r.

(** X12.  The header of the calendar names the day, the month and the year of
    the date.  The ordinal of the day is the one of the [days] table for
    the days 1 to 30; on the 31st the header reads "31th" where the
    table has "31st". *)
Theorem calendar_header date :
  exists m,
    index months (getMonth date) = Some m /\
    (getDate date <= 30 ->
     exists e,
       index days (getDate date - 1) = Some e /\
       firstText (Calendar date)
       = Some (english e ++ " of " ++ english m ++ " "
               ++ Number_toString (getFullYear date))) /\
    (getDate date = 31 ->
     (exists e, index days (getDate date - 1) = Some e /\
                english e = "31st") /\
     firstText (Calendar date)
     = Some ("31th of " ++ english m ++ " "
             ++ Number_toString (getFullYear date))).
Proof.
  pose proof (getMonth_range date) as Hm.
  pose proof (getDate_range date) as Hg.
  destruct (index_Some months (getMonth date)) as [m Em];
    [change (len months) with 12; lia|].
  exists m. split; [exact Em|].
  unfold firstText, Calendar. cbv zeta.
  cbn [textsOf h flat_map app hd_error].
  revert Em Hm Hg.
  generalize (Number_toString (getFullYear date)).
  generalize (getMonth date). generalize (getDate date).
  intros g mi year Em Hm Hg.
  match goal with
  | |- context [coerce (index ?l mi)] =>
      assert (Hmonth : coerce (index l mi) = english m)
  end.
  { revert Em. pattern mi. apply (Forall_range _ 0 11); [|exact Hm].
    each_of 0 11.
    repeat (apply Forall_cons;
            [intros E; vm_compute in E; injection E as <-; reflexivity|]).
    apply Forall_nil. }
  rewrite Hmonth. split.
  - intros H30.
    destruct (index_Some days (g - 1)) as [e Ee];
      [change (len days) with 31; lia|].
    exists e. split; [exact Ee|]. f_equal. f_equal. revert Ee.
    pattern g. apply (Forall_range _ 1 30); [|lia].
    each_of 1 30.
    repeat (apply Forall_cons;
            [intros E; vm_compute in E; injection E as <-; reflexivity|]).
    apply Forall_nil.
  - intros ->. split; [|reflexivity].
    eexists. split; reflexivity.
Qed.

Lemma calendar_header_witness :
  getDate (newDate 2024 4 31) = 31 /\
  firstText (Calendar (newDate 2024 4 31)) = Some "31th of May 2024".
Proof.
  assert (H : getDate (newDate 2024 4 31) = 31) by (vm_compute; reflexivity).
  split; [exact H|].
  destruct (calendar_header (newDate 2024 4 31)) as (m & Em & _ & H31).
  destruct (H31 H) as [_ E]. rewrite E.
  vm_compute in Em. injection Em as <-. vm_compute. reflexivity.
Defined.

End CalendarView.

Module Flow.
Import CalendarSpec Calendar WeekGrid Session Picker Templates RandomPicks Answers GridShape WeekTemplates.

Ltac done_run := do 2 eexists; reflexivity.

(** The questions of the catalog are produced when the wall clock is in
    the month of the reference date and the date lies in an inner row. *)
Lemma catalog_asks date env :
  unit_interval env ->
  ~ (0 <= getFullYear date <= 99) ->
  getFullYear (wall_clock env) = getFullYear date ->
  getMonth (wall_clock env) = getMonth date ->
  1 <= weekRow date <= len (getWeeks date) - 2 ->
  Forall (asks date env) questionGenerator.
Proof.
  intros Hu Hy Ey Em Hrow.
  assert (H : forall seed n k, seed_in_unit seed -> -1 <= k <= 1 -> _)
    by (intros seed n k Hs Hk;
        exact (week_target date seed env n k Hu Hs Hy Ey Em ltac:(lia))).
  unfold questionGenerator.
  do 16 (constructor; [intros seed n Hs; done_run|]).
  repeat constructor; intros seed n Hs.
  - destruct (H seed n (-1) Hs ltac:(lia)) as (row & target & E1 & _ & _ & E3).
    destruct (weekday_entry target) as [e He].
    unfold lastWeekDate. change (?x - 1) with (x + -1).
    step_template E1 E3 He He. done_run.
  - destruct (H seed n 0 Hs ltac:(lia)) as (row & target & E1 & _ & _ & E3).
    rewrite Z.add_0_r in E1.
    destruct (weekday_entry target) as [e He].
    unfold thisWeekDate. step_template E1 E3 He He. done_run.
  - destruct (H seed n 1 Hs ltac:(lia)) as (row & target & E1 & _ & _ & E3).
    destruct (weekday_entry target) as [e He].
    unfold nextWeekDate. step_template E1 E3 He He. done_run.
  - destruct (H seed n (-1) Hs ltac:(lia)) as (row & target & E1 & _ & _ & E3).
    destruct (day_entry target) as [d Hd].
    change (getDate target - 1) with (getDate target + -1) in Hd.
    unfold lastWeekWeekday. change (?x - 1) with (x + -1).
    step_template E1 E3 Hd Hd. done_run.
  - destruct (H seed n 0 Hs ltac:(lia)) as (row & target & E1 & _ & _ & E3).
    rewrite Z.add_0_r in E1.
    destruct (day_entry target) as [d Hd].
    unfold thisWeekWeekday. step_template E1 E3 Hd Hd. done_run.
  - destruct (H seed n 1 Hs ltac:(lia)) as (row & target & E1 & _ & _ & E3).
    destruct (day_entry target) as [d Hd].
    unfold nextWeekWeekday. step_template E1 E3 Hd Hd. done_run.
Qed.

(** The answers of the catalog are produced as well when the date is
    two days from both ends of its month and not in December. *)
Lemma catalog_replies date env :
  unit_interval env ->
  ~ (0 <= getFullYear date <= 99) ->
  getFullYear (wall_clock env) = getFullYear date ->
  getMonth (wall_clock env) = getMonth date ->
  1 <= weekRow date <= len (getWeeks date) - 2 ->
  3 <= getDate date <= daysIn (getFullYear date) (getMonth date) - 2 ->
  getMonth date <= 10 ->
  Forall (replies date env) questionGenerator.
Proof.
  intros Hu Hy Ey Em Hrow Hd Hm.
  pose proof (daysIn_pos (getFullYear date) (getMonth date)) as Hn.
  pose proof (getMonth_range date) as Hmr.
  assert (H : forall seed n k, seed_in_unit seed -> -1 <= k <= 1 -> _)
    by (intros seed n k Hs Hk;
        exact (week_target date seed env n k Hu Hs Hy Ey Em ltac:(lia))).
  assert (Hday : forall i, 0 <= i <= 30 -> exists e, index days i = Some e)
    by (intros i Hi; apply index_Some; change (len days) with 31; lia).
  assert (Hmonth : forall i, 0 <= i <= 11 -> exists e, index months i = Some e)
    by (intros i Hi; apply index_Some; change (len months) with 12; lia).
  unfold questionGenerator. repeat constructor; intros seed n Hs.
  - unfold weekdayBeforeYesterday. run_answer.
    destruct (weekday_entry (setDate date (getDate date - 2))) as [e He].
    rewrite He. done_run.
  - unfold weekdayYesterday. run_answer.
    destruct (weekday_entry (setDate date (getDate date - 1))) as [e He].
    rewrite He. done_run.
  - unfold weekdayToday. run_answer.
    destruct (weekday_entry date) as [e He]. rewrite He. done_run.
  - unfold weekdayTomorrow. run_answer.
    destruct (weekday_entry (setDate date (getDate date + 1))) as [e He].
    rewrite He. done_run.
  - unfold weekdayAfterTomorrow. run_answer.
    destruct (weekday_entry (setDate date (getDate date + 2))) as [e He].
    rewrite He. done_run.
  - unfold dateBeforeYesterday. run_answer.
    destruct (Hday (getDate date - 3)) as [e He]; [lia|]. rewrite He. done_run.
  - unfold dateYesterday. run_answer.
    destruct (Hday (getDate date - 2)) as [e He]; [lia|]. rewrite He. done_run.
  - unfold dateToday. run_answer.
    destruct (Hday (getDate date - 1)) as [e He]; [lia|]. rewrite He. done_run.
  - unfold dateTomorrow. run_answer.
    destruct (Hday (getDate date)) as [e He]; [lia|]. rewrite He. done_run.
  - unfold dateAfterTomorrow. run_answer.
    destruct (Hday (getDate date + 1)) as [e He]; [lia|]. rewrite He. done_run.
  - unfold monthLast. run_answer.
    destruct (Hmonth (Z.max (getMonth date - 1) 0)) as [e He]; [lia|].
    rewrite He. done_run.
  - unfold monthThis. run_answer.
    destruct (Hmonth (getMonth date)) as [e He]; [lia|]. rewrite He. done_run.
  - unfold monthNext. run_answer.
    destruct (Hmonth (Z.min (getMonth date + 1) 12)) as [e He]; [lia|].
    rewrite He. done_run.
  - unfold yearLast. run_answer. done_run.
  - unfold yearThis. run_answer. done_run.
  - unfold yearNext. run_answer. done_run.
  - destruct (H seed n (-1) Hs ltac:(lia)) as (row & target & E1 & _ & _ & E3).
    destruct (weekday_entry target) as [e He].
    unfold lastWeekDate. change (?x - 1) with (x + -1).
    step_template E1 E3 He He. done_run.
  - destruct (H seed n 0 Hs ltac:(lia)) as (row & target & E1 & _ & _ & E3).
    rewrite Z.add_0_r in E1.
    destruct (weekday_entry target) as [e He].
    unfold thisWeekDate. step_template E1 E3 He He. done_run.
  - destruct (H seed n 1 Hs ltac:(lia)) as (row & target & E1 & _ & _ & E3).
    destruct (weekday_entry target) as [e He].
    unfold nextWeekDate. step_template E1 E3 He He. done_run.
  - destruct (H seed n (-1) Hs ltac:(lia)) as (row & target & E1 & _ & _ & E3).
    destruct (weekday_entry target) as [e He].
    destruct (day_entry target) as [d Hd'].
    change (getDate target - 1) with (getDate target + -1) in Hd'.
    unfold lastWeekWeekday. change (?x - 1) with (x + -1).
    step_template E1 E3 He Hd'. done_run.
  - destruct (H seed n 0 Hs ltac:(lia)) as (row & target & E1 & _ & _ & E3).
    rewrite Z.add_0_r in E1.
    destruct (weekday_entry target) as [e He].
    destruct (day_entry target) as [d Hd'].
    unfold thisWeekWeekday. step_template E1 E3 He Hd'. done_run.
  - destruct (H seed n 1 Hs ltac:(lia)) as (row & target & E1 & _ & _ & E3).
    destruct (weekday_entry target) as [e He].
    destruct (day_entry target) as [d Hd'].
    unfold nextWeekWeekday. step_template E1 E3 He Hd'. done_run.
Qed.

(** [Questions] produces one item per question when every question is
    produced. *)
Lemma Questions_map_runs date env seeds :
  (forall i, slot_get seeds i = None) ->
  forall questions index n,
    Forall (fun q => exists q', q = Some q' /\ asks date env q') questions ->
    exists items n',
      Questions_map questions seeds date index env n = Normal (items, n') /\
      List.length items = List.length questions.
Proof.
  intros Hseeds. induction questions as [|q rest IH]; intros index n HF.
  - exists [], n. split; reflexivity.
  - inversion HF as [|? ? (q' & -> & Hq) Hrest]; subst.
    destruct (Hq None n I) as (nodes & n1 & E1).
    destruct (IH (S index) n1 Hrest) as (items & n2 & E2 & Hlen).
    eexists. exists n2. split.
    + cbn [Questions_map field]. unfold bind at 1. unfold ret at 1.
      unfold bind at 1. rewrite Hseeds, E1.
      unfold bind at 1. rewrite E2. reflexivity.
    + simpl. rewrite Hlen. reflexivity.
Qed.

Lemma array_get_nth {T} (l : list (option T)) i x :
  nth_error l i = Some (Some x) -> array_get l (Z.of_nat i) = Some x.
Proof.
  intros H. unfold array_get, index.
  destruct (Z.ltb_spec (Z.of_nat i) 0); [lia|].
  rewrite Nat2Z.id, H. reflexivity.
Qed.

(** Showing the answers fills every host when every answer is
    produced. *)
Lemma showHideAnswers_runs date env seeds questions :
  (forall i, slot_get seeds i = None) ->
  Forall (fun q => exists q', q = Some q' /\ replies date env q') questions ->
  forall count i n,
    (i + count = List.length questions)%nat ->
    exists hosts n',
      showHideAnswers_loop questions seeds date true i count env n
      = Normal (hosts, n') /\
      List.length hosts = count /\ Forall shown hosts.
Proof.
  intros Hseeds HF. induction count as [|count IH]; intros i n Hi.
  - exists [], n. repeat split. constructor.
  - assert (Hlt : (i < List.length questions)%nat) by lia.
    destruct (nth_error questions i) as [q|] eqn:Eq;
      [|apply nth_error_None in Eq; lia].
    rewrite Forall_forall in HF.
    destruct (HF q (nth_error_In _ _ Eq)) as (q' & -> & Hq).
    destruct (Hq None n I) as (nodes & n1 & E1).
    destruct (IH (S i) n1 ltac:(lia)) as (hosts & n2 & E2 & Hlen & Hsh).
    eexists. exists n2. split; [|split].
    + cbn [showHideAnswers_loop negb]. cbv iota.
      unfold bind at 1. unfold bind at 1. 
      rewrite (array_get_nth _ _ _ Eq). cbn [field]. unfold ret at 1.
      unfold bind at 1. rewrite Hseeds, E1. unfold ret at 1.
      unfold bind at 1. rewrite E2. reflexivity.
    + simpl. rewrite Hlen. reflexivity.
    + constructor; [|exact Hsh]. eexists. reflexivity.
Qed.

(** Hiding the answers empties every host, whatever the questions. *)
Lemma showHideAnswers_hides date env seeds questions :
  forall count i n,
    showHideAnswers_loop questions seeds date false i count env n
    = Normal (repeat [] count, n).
Proof.
  induction count as [|count IH]; intros i n; [reflexivity|].
  cbn [showHideAnswers_loop negb]. cbv iota.
  unfold bind at 1. unfold ret at 1. unfold bind at 1. rewrite IH.
  reflexivity.
Qed.

(** Showing the answers throws when a template throws. *)
Lemma showHideAnswers_throws date env seeds questions q :
  (forall seed n, answer q date seed env n = TypeError) ->
  forall count i n j,
    (i + count = List.length questions)%nat -> (i <= j)%nat ->
    nth_error questions j = Some (Some q) ->
    showHideAnswers_loop questions seeds date true i count env n = TypeError.
Proof.
  intros Hq. induction count as [|count IH]; intros i n j Hi Hj Ej.
  - assert (nth_error questions j = None) by (apply nth_error_None; lia).
    congruence.
  - cbn [showHideAnswers_loop negb]. cbv iota.
    unfold bind at 1. unfold bind at 1.
    destruct (Nat.eq_dec i j) as [->|Hne].
    + rewrite (array_get_nth _ _ _ Ej). cbn [field]. unfold ret at 1.
      unfold bind at 1. rewrite Hq. reflexivity.
    + destruct (field answer (array_get questions (Z.of_nat i)) env n)
        as [[a n1]|]; [|reflexivity].
      unfold bind at 1.
      destruct (a date (slot_get seeds (Z.of_nat i)) env n1) as [[ans n2]|];
        [|reflexivity].
      unfold ret at 1. unfold bind at 1.
      rewrite (IH (S i) n2 j) by (try exact Ej; lia). reflexivity.
Qed.

(** [newTest], step by step. *)
Lemma newTest_steps env n d n1 l n2 items n3 :
  Main.generateRandomDate env n = Normal (Some d, n1) ->
  shuffle questionGenerator env n1 = Normal (map Some l, n2) ->
  Questions_map (map Some l) (repeat Empty (List.length l)) d O env n2
  = Normal (items, n3) ->
  Main.newTest env n
  = Normal ({| Main.date := d;
               Main.currentQuestions := map Some l;
               Main.seeds := repeat Empty (List.length l);
               Main.showHideAnswersFunction := fun show =>
                 showHideAnswers_loop (map Some l)
                   (repeat Empty (List.length l)) d show O (List.length l);
               Main.showAnswers := false;
               Main.revealButton := "Reveal Answers";
               Main.calendarHost := Calendar d;
               Main.questionHost := h "ol" "questions" [] items |}, n3).
Proof.
  intros E1 E2 E3.
  unfold Main.newTest. unfold bind at 1. rewrite E1.
  unfold bind at 1. rewrite E2.
  unfold bind at 1. unfold Array, len. rewrite length_map, Nat2Z.id.
  rewrite Array_map_empty.
  unfold bind at 1. cbn [field]. unfold ret at 1.
  unfold bind at 1. unfold Questions. unfold bind at 1. rewrite E3.
  rewrite length_map. reflexivity.
Qed.

(** The session that [newTest] builds from the questions [l] and the
    items [items]. *)
Lemma newTest_runs env n d n1 :
  unit_interval env ->
  Main.generateRandomDate env n = Normal (Some d, n1) ->
  getFullYear (wall_clock env) = getFullYear d ->
  getMonth (wall_clock env) = getMonth d ->
  exists l items n3,
    Permutation questionGenerator l /\ List.length items = 22%nat /\
    Main.newTest env n
    = Normal ({| Main.date := d;
                 Main.currentQuestions := map Some l;
                 Main.seeds := repeat Empty (List.length l);
                 Main.showHideAnswersFunction := fun show =>
                   showHideAnswers_loop (map Some l)
                     (repeat Empty (List.length l)) d show O (List.length l);
                 Main.showAnswers := false;
                 Main.revealButton := "Reveal Answers";
                 Main.calendarHost := Calendar d;
                 Main.questionHost := h "ol" "questions" [] items |}, n3).
Proof.
  intros Hu E1 Ey Em.
  destruct (generateRandomDate_inner env n Hu) as (d' & E1' & Hyr & Hrow & _).
  rewrite E1 in E1'. injection E1' as <- _.
  destruct (shuffle_Permutation env Hu questionGenerator n1) as (l & E2 & P).
  pose proof (catalog_asks d env Hu ltac:(lia) Ey Em Hrow) as HF.
  apply (Permutation_Forall P) in HF.
  assert (HF' : Forall (fun q => exists q', q = Some q' /\ asks d env q')
                       (map Some l)).
  { apply Forall_forall. intros q Hq. apply in_map_iff in Hq.
    destruct Hq as (q' & <- & Hin). exists q'. split; [reflexivity|].
    rewrite Forall_forall in HF. apply HF, Hin. }
  destruct (Questions_map_runs d env (repeat Empty (List.length l))
              (slot_get_empty _) (map Some l) O
              (n1 + List.length questionGenerator)%nat HF')
    as (items & n3 & E3 & Hlen).
  exists l, items, n3. split; [exact P|]. split.
  - rewrite Hlen, length_map, <- (Permutation_length P). reflexivity.
  - eapply newTest_steps; eassumption.
Qed.

(** X13.  A session whose wall clock is in the month of the reference date.
    [newTest] completes: it shows the calendar of the date and the 22
    questions of the catalog, in the order of the shuffle, with the
    answers hidden.  When the month is not December, a click on the
    reveal button shows an answer under each of the 22 questions and the
    button reads "Hide Answers"; the next click empties every answer
    host without drawing a number and the button reads "Reveal Answers"
    again. *)
Theorem session_in_reference_month env n d n1 :
  unit_interval env ->
  Main.generateRandomDate env n = Normal (Some d, n1) ->
  getFullYear (wall_clock env) = getFullYear d ->
  getMonth (wall_clock env) = getMonth d ->
  exists s n',
    Main.newTest env n = Normal (s, n') /\
    Main.date s = d /\
    (exists l, Main.currentQuestions s = map Some l /\
               Permutation questionGenerator l) /\
    Main.showAnswers s = false /\
    Main.revealButton s = "Reveal Answers" /\
    Main.calendarHost s = Calendar d /\
    (exists items, Main.questionHost s = h "ol" "questions" [] items /\
                   List.length items = 22%nat) /\
    (getMonth d <= 10 ->
     forall m, exists s1 hosts m',
       Main.revealClick s env m = Normal ((s1, hosts), m') /\
       Main.showAnswers s1 = true /\
       Main.revealButton s1 = "Hide Answers" /\
       List.length hosts = 22%nat /\ Forall shown hosts /\
       forall env' k, exists s2,
         Main.revealClick s1 env' k = Normal ((s2, repeat [] 22), k) /\
         Main.showAnswers s2 = false /\
         Main.revealButton s2 = "Reveal Answers").
Proof.
  intros Hu E1 Ey Em.
  destruct (newTest_runs env n d n1 Hu E1 Ey Em) as (l & items & n3 & P & Hlen & E).
  destruct (generateRandomDate_inner env n Hu) as (d' & E1' & Hyr & Hrow & Hd).
  rewrite E1 in E1'. injection E1' as <- _.
  assert (Hl : List.length l = 22%nat)
    by (rewrite <- (Permutation_length P); reflexivity).
  eexists. exists n3. split; [exact E|]. cbn [Main.date Main.currentQuestions
    Main.showAnswers Main.revealButton Main.calendarHost Main.questionHost].
  split; [reflexivity|]. split; [exists l; split; [reflexivity|exact P]|].
  split; [reflexivity|]. split; [reflexivity|]. split; [reflexivity|].
  split; [exists items; split; [reflexivity|exact Hlen]|].
  intros Hm m.
  pose proof (catalog_replies d env Hu ltac:(lia) Ey Em Hrow Hd Hm) as HF.
  apply (Permutation_Forall P) in HF.
  assert (HF' : Forall (fun q => exists q', q = Some q' /\ replies d env q')
                       (map Some l)).
  { apply Forall_forall. intros q Hq. apply in_map_iff in Hq.
    destruct Hq as (q' & <- & Hin). exists q'. split; [reflexivity|].
    rewrite Forall_forall in HF. apply HF, Hin. }
  destruct (showHideAnswers_runs d env (repeat Empty (List.length l))
              (map Some l) (slot_get_empty _) HF' (List.length l) O m
              ltac:(rewrite length_map; reflexivity))
    as (hosts & m' & E2 & Hh & Hsh).
  eexists. exists hosts, m'. split.
  - unfold Main.revealClick.
    cbn [Main.date Main.currentQuestions Main.seeds
         Main.showHideAnswersFunction Main.showAnswers Main.revealButton
         Main.calendarHost Main.questionHost negb].
    unfold bind at 1. rewrite E2. reflexivity.
  - cbn [Main.showAnswers Main.revealButton].
    split; [reflexivity|]. split; [reflexivity|].
    split; [lia|]. split; [exact Hsh|].
    intros env' k. eexists. split.
    + unfold Main.revealClick.
      cbn [Main.date Main.currentQuestions Main.seeds
           Main.showHideAnswersFunction Main.showAnswers Main.revealButton
           Main.calendarHost Main.questionHost negb].
      unfold bind at 1. rewrite showHideAnswers_hides, Hl. reflexivity.
    + split; reflexivity.
Qed.

Lemma session_in_reference_month_witness :
  unit_interval demo_env /\
  Main.generateRandomDate demo_env 0%nat = Normal (Some (newDate 2019 1 7), 3%nat) /\
  exists s n', Main.newTest demo_env 0%nat = Normal (s, n') /\
               Main.date s = newDate 2019 1 7.
Proof.
  assert (E : Main.generateRandomDate demo_env 0%nat
              = Normal (Some (newDate 2019 1 7), 3%nat))
    by (vm_compute; reflexivity).
  split; [exact demo_env_unit_interval|]. split; [exact E|].
  destruct (session_in_reference_month demo_env 0%nat (newDate 2019 1 7) 3%nat
              demo_env_unit_interval E ltac:(vm_compute; reflexivity)
              ltac:(vm_compute; reflexivity))
    as (s & n' & E' & Hd & _).
  exists s, n'. split; assumption.
Defined.

(** X14.  A session on a date in December.  The click on the reveal button
    throws, whatever the wall clock and the drawn numbers at the click:
    the "next month" template is one of the questions, in whichever
    place the shuffle put it, and its answer throws. *)
Theorem reveal_throws_in_december env n s n' :
  unit_interval env ->
  Main.newTest env n = Normal (s, n') ->
  getMonth (Main.date s) = 11 ->
  forall env' m, Main.revealClick s env' m = TypeError.
Proof.
  intros Hu E Hm env' m.
  destruct (generateRandomDate_inner env n Hu) as (d & E1 & _).
  destruct (shuffle_Permutation env Hu questionGenerator (S (S (S n))))
    as (l & E2 & P).
  assert (Hin : In monthNext l).
  { apply (Permutation_in _ P). unfold questionGenerator.
    do 12 right. left. reflexivity. }
  apply In_nth_error in Hin. destruct Hin as [j Hj].
  assert (Hj' : nth_error (map Some l) j = Some (Some monthNext))
    by (rewrite nth_error_map, Hj; reflexivity).
  destruct (Questions_map (map Some l) (repeat Empty (List.length l)) d O env
              (S (S (S n)) + List.length questionGenerator)%nat)
    as [[items n3]|] eqn:E3.
  - rewrite (newTest_steps env n d _ l _ items n3 E1 E2 E3) in E.
    injection E as <- _.
    cbn [Main.date] in Hm.
    unfold Main.revealClick.
    cbn [Main.date Main.currentQuestions Main.seeds
         Main.showHideAnswersFunction Main.showAnswers Main.revealButton
         Main.calendarHost Main.questionHost negb].
    unfold bind at 1.
    rewrite (showHideAnswers_throws d env' _ (map Some l) monthNext
               (fun seed k => monthNext_december d seed env' k Hm)
               (List.length l) O m j
               ltac:(rewrite length_map; reflexivity) ltac:(lia) Hj').
    reflexivity.
  - exfalso. revert E. unfold Main.newTest.
    unfold bind at 1. rewrite E1. unfold bind at 1. rewrite E2.
    unfold bind at 1. unfold Array, len. rewrite length_map, Nat2Z.id.
    rewrite Array_map_empty.
    unfold bind at 1. cbn [field]. unfold ret at 1.
    unfold bind at 1. unfold Questions. unfold bind at 1. rewrite E3.
    discriminate.
Qed.

Lemma reveal_throws_in_december_witness :
  unit_interval december_env /\
  exists s n',
    Main.newTest december_env 0%nat = Normal (s, n') /\
    getMonth (Main.date s) = 11 /\
    forall env' m, Main.revealClick s env' m = TypeError.
Proof.
  assert (Hu : unit_interval december_env).
  { intros k. unfold december_env. cbn [Math_random_draws].
    destruct k as [|[|k]]; unfold Qle, Qlt; simpl; lia. }
  split; [exact Hu|].
  assert (E : Main.generateRandomDate december_env 0%nat
              = Normal (Some (newDate 2019 11 8), 3%nat))
    by (vm_compute; reflexivity).
  destruct (newTest_runs december_env 0%nat (newDate 2019 11 8) 3%nat Hu E
              ltac:(vm_compute; reflexivity) ltac:(vm_compute; reflexivity))
    as (l & items & n3 & _ & _ & E').
  eexists. exists n3. split; [exact E'|].
  assert (Hm : getMonth (newDate 2019 11 8) = 11) by (vm_compute; reflexivity).
  split; [exact Hm|].
  exact (reveal_throws_in_december december_env 0%nat _ n3 Hu E' Hm).
Defined.

End Flow.

Module ThisWeek.
Import CalendarSpec Calendar WeekGrid Numerals Session Picker Templates RandomPicks NumeralEdges Answers GridShape WeekTemplates CalendarView.

(** [findIndex] returns the index of an element that satisfies the
    predicate when there is one. *)
Lemma findIndex_found {T} (p : T -> bool) l :
  (exists x, In x l /\ p x = true) ->
  0 <= findIndex p l < len l /\
  exists y, index l (findIndex p l) = Some y /\ p y = true.
Proof.
  unfold len. induction l as [|a r IH]; intros (x & Hin & Hp);
    [contradiction|].
  cbn [findIndex]. destruct (p a) eqn:Ea.
  - split; [cbn [List.length]; lia|]. exists a.
    split; [reflexivity | exact Ea].
  - destruct Hin as [->|Hin]; [congruence|].
    destruct (IH (ex_intro _ x (conj Hin Hp))) as (Hr & y & Hy & Hpy).
    destruct (Z.ltb_spec (findIndex p r) 0); [lia|].
    split; [cbn [List.length]; lia|].
    exists y. split; [|exact Hpy].
    unfold index in *. destruct (Z.ltb_spec (findIndex p r) 0); [lia|].
    destruct (Z.ltb_spec (findIndex p r + 1) 0); [lia|].
    replace (Z.to_nat (findIndex p r + 1)) with (S (Z.to_nat (findIndex p r)))
      by lia.
    exact Hy.
Qed.

(** A day of a row of the grid: a day of the month, in the week of the
    row. *)
Lemma gridRow_day first n r x :
  In (Some x) (gridRow first n r) ->
  0 <= x - first < n /\
  weekStart x = first + 7 * Z.of_nat r - getDay first.
Proof.
  intros Hin. unfold gridRow in Hin. apply in_map_iff in Hin.
  destruct Hin as (k & Hc & Hk). apply in_seq in Hk.
  pose proof (getDay_range first) as Hw.
  unfold gridCell in Hc. cbv zeta in Hc.
  remember (7 * Z.of_nat r + Z.of_nat k - getDay first) as i eqn:Ei.
  destruct (Z.leb_spec 0 i); [|discriminate].
  destruct (Z.ltb_spec i n); [|discriminate].
  cbn [andb] in Hc. injection Hc as <-.
  split; [lia|]. unfold weekStart. rewrite getDay_offset.
  replace (getDay first + i) with (Z.of_nat k + Z.of_nat r * 7) by lia.
  rewrite Z.mod_add, Z.mod_small by lia. lia.
Qed.

Lemma index_grid first n i row :
  index (grid first n) i = Some row -> row = gridRow first n (Z.to_nat i).
Proof.
  unfold index, grid. destruct (i <? 0); [discriminate|].
  rewrite nth_error_map. intros H.
  destruct (nth_error (seq 0 _) (Z.to_nat i)) as [r|] eqn:E; [|discriminate].
  injection H as <-. apply nth_error_In in E as Hin. apply in_seq in Hin.
  rewrite nth_error_seq in E.
  destruct (Nat.ltb_spec (Z.to_nat i) (Z.to_nat ((getDay first + n + 6) / 7)));
    [|discriminate].
  injection E as <-. reflexivity.
Qed.

(** The fields of the day [first + i] of the month that begins on
    [first]. *)
Lemma month_day_fields y m i :
  ~ (0 <= y <= 99) -> 0 <= m <= 11 -> 0 <= i < daysIn y m ->
  getFullYear (newDate y m 1 + i) = y /\
  getMonth (newDate y m 1 + i) = m /\
  getDate (newDate y m 1 + i) = i + 1.
Proof.
  intros Hy Hm Hi. rewrite newDate_MakeDay by exact Hy.
  replace (MakeDay y m 1 + i) with (MakeDay y m (i + 1))
    by (rewrite (MakeDay_shift y m (i + 1)), (MakeDay_shift y m 1); lia).
  apply civil_fields; lia.
Qed.

(** The row of the grid that the "this week" templates find holds the
    reference date, and its days are the days of the week of the date
    within the month. *)
Lemma week_of_date date :
  ~ (0 <= getFullYear date <= 99) ->
  0 <= weekRow date < len (getWeeks date) /\
  forall row target,
    index (getWeeks date) (weekRow date) = Some row ->
    In (Some target) row -> inWeekOf date target.
Proof.
  intros Hy.
  pose proof (getMonth_range date) as Hm.
  pose proof (getDate_in_month date) as Hg.
  set (y := getFullYear date) in *. set (m := getMonth date) in *.
  set (first := newDate y m 1). set (n := daysIn y m) in *.
  assert (Hdate : date = first + (getDate date - 1)).
  { unfold first. rewrite newDate_MakeDay by exact Hy.
    pose proof (MakeDay_fields date) as E.
    change (YearFromTime date) with y in E.
    change (MonthFromTime date) with m in E.
    change (DateFromTime date) with (getDate date) in E.
    rewrite MakeDay_shift in E. rewrite (MakeDay_shift y m 1). lia. }
  assert (Hgrid : getWeeks date = grid first n)
    by (apply getWeeks_grid_form; exact Hy).
  (* the day of a slot with the day of the month of the date is the date *)
  assert (Hsame : forall r c, In (Some c) (gridRow first n r) ->
                    getDate c = getDate date -> c = date).
  { intros r c Hc Hd. destruct (gridRow_day first n r c Hc) as [Hi _].
    destruct (month_day_fields y m (c - first) Hy Hm Hi) as (_ & _ & E).
    fold first in E. replace (first + (c - first)) with c in E by lia. lia. }
  (* the date is in the grid *)
  assert (Hin : exists row, In row (getWeeks date) /\
                            existsb (isDate date) row = true).
  { pose proof (proj2 (getWeeks_grid date Hy)) as Hflat.
    fold y m in Hflat.
    assert (Hd : In date (calendarDays y m)).
    { pose proof (calendarDays_nth y m (getDate date) Hg) as E.
      apply nth_error_In in E.
      replace (newDate y m (getDate date)) with date in E; [exact E|].
      rewrite Hdate at 1. unfold first.
      rewrite !newDate_MakeDay by exact Hy.
      rewrite (MakeDay_shift y m 1), (MakeDay_shift y m (getDate date)). lia. }
    rewrite <- Hflat in Hd. apply In_flat in Hd.
    destruct Hd as (dates & Hdates & Hd). apply in_map_iff in Hdates.
    destruct Hdates as (row & <- & Hrow). exists row. split; [exact Hrow|].
    apply existsb_exists. exists (Some date).
    split; [apply filter_dates_In, Hd|]. cbn [isDate]. apply Z.eqb_refl. }
  destruct (findIndex_found (existsb (isDate date)) (getWeeks date) Hin)
    as (Hrange & row0 & Hrow0 & Hex).
  unfold weekRow. split; [exact Hrange|].
  intros row target Hrow Ht.
  assert (E : Some row = Some row0) by exact (eq_trans (eq_sym Hrow) Hrow0).
  injection E as <-.
  rewrite Hgrid in Hrow. apply index_grid in Hrow.
  set (r := Z.to_nat (findIndex _ _)) in *. subst row.
  apply existsb_exists in Hex. destruct Hex as (slot & Hslot & Hp).
  destruct slot as [c|]; [|discriminate]. cbn [isDate] in Hp.
  apply Z.eqb_eq in Hp.
  pose proof (Hsame r c Hslot Hp) as ->.
  destruct (gridRow_day first n r date Hslot) as [_ Wd].
  destruct (gridRow_day first n r target Ht) as [Hi Wt].
  destruct (month_day_fields y m (target - first) Hy Hm Hi) as (Fy & Fm & _).
  fold first in Fy, Fm.
  replace (first + (target - first)) with target in Fy, Fm by lia.
  unfold inWeekOf. fold y m. split; [exact Fy|]. split; [exact Fm|].
  rewrite Wd, Wt. reflexivity.
Qed.

(** The tense of the two phrasings of the title of an answer. *)
Lemma answer_tense a b (past : bool) :
  (a = "What date " \/ a = "What day ") ->
  let title := a ++ (if past then "was" else "is") ++ " this week's " ++ b in
  pastAnswer title = past /\ presentAnswer title = negb past.
Proof.
  intros [-> | ->]; cbv zeta; destruct past; split; reflexivity.
Qed.

(** X15.  The tense rule of the two "this week" templates, where the
    week grid is that of the month of the reference date.  When the wall
    clock is in the month and year of the reference date, for every such
    date and every seed of the unit interval, both templates complete
    and pick the same day, a day of the week of the reference date
    within its month.  The first question names the weekday of that day
    and the second its day of the month; the questions and the titles of
    the answers are in the past tense exactly when that day is before
    the reference date, and in the present tense otherwise. *)
Theorem this_week_tense_in_reference_month date seed env n :
  unit_interval env -> seed_in_unit seed ->
  ~ (0 <= getFullYear date <= 99) ->
  getFullYear (wall_clock env) = getFullYear date ->
  getMonth (wall_clock env) = getMonth date ->
  exists target weekday day,
    inWeekOf date target /\
    index daysOfWeek (getDay target) = Some weekday /\
    index days (getDate target - 1) = Some day /\
    (exists question title,
       createQuestion thisWeekDate date seed env n
       = Normal ([h "span" "" [] [Text question]], after_pick seed n) /\
       answer thisWeekDate date seed env n
       = Normal ([h "span" "" [] [Text title]], after_pick seed n) /\
       prefix ("今週の" ++ kanji weekday) question = true /\
       tensed target date question title) /\
    (exists question title,
       createQuestion thisWeekWeekday date seed env n
       = Normal ([h "span" "" [] [Text question]], after_pick seed n) /\
       answer thisWeekWeekday date seed env n
       = Normal ([h "span" "" [] [Text title]], after_pick seed n) /\
       prefix ("今週の" ++ kanji day) question = true /\
       tensed target date question title).
Proof.
  intros Hu Hs Hy Ey Em.
  destruct (week_of_date date Hy) as [Hrange Hweek].
  destruct (week_target date seed env n 0 Hu Hs Hy Ey Em ltac:(lia))
    as (row & target & E1 & E2 & Hin & E3).
  rewrite Z.add_0_r in E1, E2.
  destruct (weekday_entry target) as [e He].
  destruct (day_entry target) as [d Hd].
  exists target, e, d.
  split; [exact (Hweek row target E2 Hin)|].
  split; [rewrite getDay_rem in He; exact He|].
  split; [exact Hd|].
  unfold tensed. split.
  - do 2 eexists. split; [|split; [|split]].
    + unfold thisWeekDate. step_template E1 E3 He Hd. reflexivity.
    + unfold thisWeekDate. step_template E1 E3 He Hd. reflexivity.
    + unfold before. rewrite <- append_assoc. apply prefix_app.
    + unfold before.
      pose proof (question_tense "今週の" (kanji e) "は何日" (target <? date))
        as Hq.
      cbv zeta in Hq. destruct Hq as [Hq1 Hq2].
      destruct (bool_tense _ target date _ _ eq_refl Hq1 Hq2) as [H1 H2].
      split; [exact H1|]. split; [exact H2|].
      apply (bool_tense _ target date _ _ eq_refl);
        destruct (target <? date); reflexivity.
  - do 2 eexists. split; [|split; [|split]].
    + unfold thisWeekWeekday. step_template E1 E3 He Hd. reflexivity.
    + unfold thisWeekWeekday. step_template E1 E3 He Hd. reflexivity.
    + unfold before. rewrite <- append_assoc. apply prefix_app.
    + unfold before.
      pose proof (question_tense "今週の" (kanji d) "は何曜日" (target <? date))
        as Hq.
      cbv zeta in Hq. destruct Hq as [Hq1 Hq2].
      destruct (bool_tense _ target date _ _ eq_refl Hq1 Hq2) as [H1 H2].
      split; [exact H1|]. split; [exact H2|].
      apply (bool_tense _ target date _ _ eq_refl);
        destruct (target <? date); reflexivity.
Qed.

Lemma this_week_tense_in_reference_month_witness :
  let date := newDate 2019 1 7 in
  unit_interval demo_env /\ seed_in_unit (Some 0%Q) /\
  ~ (0 <= getFullYear date <= 99) /\
  getFullYear (wall_clock demo_env) = getFullYear date /\
  getMonth (wall_clock demo_env) = getMonth date /\
  exists target question,
    inWeekOf date target /\
    createQuestion thisWeekDate date (Some 0%Q) demo_env 0%nat
    = Normal ([h "span" "" [] [Text question]], 0%nat) /\
    (pastQuestion question = true <-> target < date).
Proof.
  cbv zeta.
  assert (H1 : seed_in_unit (Some 0%Q))
    by (unfold seed_in_unit, Qle, Qlt; simpl; lia).
  assert (H2 : ~ (0 <= getFullYear (newDate 2019 1 7) <= 99))
    by (vm_compute; intros [_ H]; apply H; reflexivity).
  assert (H3 : getFullYear (wall_clock demo_env)
               = getFullYear (newDate 2019 1 7)) by (vm_compute; reflexivity).
  assert (H4 : getMonth (wall_clock demo_env) = getMonth (newDate 2019 1 7))
    by (vm_compute; reflexivity).
  repeat (split; [assumption || exact demo_env_unit_interval|]).
  destruct (this_week_tense_in_reference_month (newDate 2019 1 7) (Some 0%Q)
              demo_env 0%nat demo_env_unit_interval H1 H2 H3 H4)
    as (target & _ & _ & Hw & _ & _ & (question & _ & Eq & _ & _ & Ht & _) & _).
  exists target, question. split; [exact Hw|]. split; [exact Eq | exact Ht].
Defined.

End ThisWeek.
